(** * The geometric core of the Pareto approximator: Point, Hyperplane, Facet

    A shallow embedding of [Hyperplane.cpp] and [Facet.cpp] and of the
    parts of [Point] and [PointAndSolution] they call.

    Numbers.  The sources compute with C++ [double], and the embedding
    comes in two parts.

    Part one reads a [double] as the real number it stands for: a
    rational [Q] with exact arithmetic.  It carries the properties that
    rest on the linear-algebra library, which the sources only call and
    whose determinant and solver are known as exact mathematics, and the
    properties of structure, order and sign, which rounding leaves alone.

    Part two, the module [Binary64], embeds the same functions on
    IEEE-754 binary64 numbers with round-to-nearest-even, every product,
    sum, difference and quotient of the sources being one rounded
    operation, as in the build of tests/Makefile (g++ without
    optimisation, which neither fuses a product with a sum nor keeps
    intermediate results in a wider format).  It carries the properties
    that depend on how the sources round, overflow and produce NaN, and
    the examples in which the rounded computation parts from the exact
    one.

    Not embedded: [Hyperplane::str] and the stream operator (the decimal
    rendering of doubles), [Facet<S>::normalizeNormalVector] (a square
    root), [Facet<S>::computeMeanVertexWeights], and the iterator
    accessors, which only hand out the members. *)

From Stdlib Require Import ZArith QArith Qminmax Qfield Lia Lqa List Bool Arith Floats.
Import ListNotations.
Local Open Scope Q_scope.

(** A decimal literal denotes the nearest binary64 number, as in C++. *)
Set Warnings "-inexact-float".

(** ** Exceptions and outcomes *)

(** The exception classes thrown by the sources, and the two other ways
    in which a call ends without a value: [AssertionFailure] is the abort
    of a failed [assert(...)] (the sources are built without NDEBUG, see
    tests/Makefile); [UndefinedBehaviour] marks a call for which C++
    defines no behaviour, such as stepping an iterator past the end. *)
Inductive exception : Set :=
| DifferentDimensionsException
| NonExistentCoordinateException
| NonExistentCoefficientException
| NullObjectException
| SamePointsException
| Not2DPointsException
| Not2DHyperplanesException
| ParallelHyperplanesException
| BoundaryFacetException
| InfiniteRatioDistanceException
| NotStrictlyPositivePointException
| AssertionFailure
| UndefinedBehaviour.

(** A call either returns a value or ends in one of the outcomes above. *)
Inductive result (A : Type) : Type :=
| Ok (a : A)
| Throw (e : exception).
Arguments Ok {A} a.
Arguments Throw {A} e.

Definition bind {A B : Type} (r : result A) (k : A -> result B) : result B :=
  match r with
  | Ok a => k a
  | Throw e => Throw e
  end.

Notation "x <- r ;; k" := (bind r (fun x => k))
  (at level 61, r at next level, right associativity).

(** [assert(c)]. *)
Definition c_assert (c : bool) : result unit :=
  if c then Ok tt else Throw AssertionFailure.

(** [if (c) throw e;] *)
Definition throw_if (c : bool) (e : exception) : result unit :=
  if c then Throw e else Ok tt.

(** * Part one: doubles as the real numbers they stand for *)

(** ** Comparisons and sums *)

(** [x < y] on real doubles. *)
Definition Qltb (x y : Q) : bool :=
  match x ?= y with
  | Lt => true
  | _ => false
  end.

(** The dot product of two coordinate vectors, as mathematics writes it. *)
Fixpoint dot (a x : list Q) : Q :=
  match a, x with
  | ai :: a', xi :: x' => ai * xi + dot a' x'
  | _, _ => 0
  end.

(** ** Point *)

Module Point.

(** Modelled from the spec: Point.cpp is not part of the sources at hand.
    A point is an ordered tuple of coordinates or the distinguished null
    point, which has no coordinates (spec, section 3). *)
Inductive t : Type :=
| Null
| Coordinates (coordinates_ : list Q).

Definition coordinates (p : t) : list Q :=
  match p with
  | Null => []
  | Coordinates cs => cs
  end.

(** Modelled from the spec: [isNull()]. *)
Definition isNull (p : t) : bool :=
  match p with
  | Null => true
  | Coordinates _ => false
  end.

(** Modelled from the spec: [dimension()], the number of coordinates. *)
Definition dimension (p : t) : nat := length (coordinates p).

(** Modelled from the spec: [operator[]], which fails with
    NonExistentCoordinate when [pos >= dimension()] (Point.h). *)
Definition get (p : t) (pos : nat) : result Q :=
  if dimension p <=? pos then Throw NonExistentCoordinateException
  else Ok (nth pos (coordinates p) 0).

Fixpoint coordinates_eqb (x y : list Q) : bool :=
  match x, y with
  | [], [] => true
  | xi :: x', yi :: y' => Qeq_bool xi yi && coordinates_eqb x' y'
  | _, _ => false
  end.

(** Modelled from the spec: [operator==], same dimension and equal
    coordinates; it never fails (Point.h and spec, section 4.A). *)
Definition eqb (p q : t) : bool :=
  coordinates_eqb (coordinates p) (coordinates q).

Fixpoint lexicographic_ltb (x y : list Q) : bool :=
  match x, y with
  | xi :: x', yi :: y' =>
      match xi ?= yi with
      | Lt => true
      | Gt => false
      | Eq => lexicographic_ltb x' y'
      end
  | _, _ => false
  end.

(** Modelled from the spec: [operator<], the lexicographic order, which
    fails with DifferentDimensions on points of different dimensions
    (Point.h and spec, section 4.A). *)
Definition ltb (p q : t) : result bool :=
  if negb (dimension p =? dimension q)%nat then Throw DifferentDimensionsException
  else Ok (lexicographic_ltb (coordinates p) (coordinates q)).

(** Modelled from the spec: [isStrictlyPositive()], every coordinate is
    greater than zero (the documentation of [Facet<S>::ratioDistance]). *)
Definition isStrictlyPositive (p : t) : bool :=
  forallb (fun x => Qltb 0 x) (coordinates p).

(** Modelled from the spec: [toVec()] and [toRowVec()], the coordinates
    as a vector (tests/PointTest.cpp). *)
Definition toVec (p : t) : list Q := coordinates p.
Definition toRowVec (p : t) : list Q := coordinates p.

(** [Point(x, y)]. *)
Definition make2 (x y : Q) : t := Coordinates [x; y].

End Point.

(** ** std::set<Point> *)

Module PointSet.

(** A [std::set<Point>] is kept as the list of its elements in the order
    of [Point::operator<].  [insert] walks to the first element that is
    not smaller than [p] and puts [p] before it, unless that element is
    equivalent to [p] (neither is smaller than the other).  A comparison
    that throws ends the insertion. *)
Fixpoint insert (p : Point.t) (s : list Point.t) : result (list Point.t) :=
  match s with
  | [] => Ok [p]
  | q :: s' =>
      q_lt_p <- Point.ltb q p ;;
      if q_lt_p then
        r <- insert p s' ;; Ok (q :: r)
      else
        p_lt_q <- Point.ltb p q ;;
        if p_lt_q then Ok (p :: q :: s') else Ok (q :: s')
  end.

(** [std::set<Point> points(first, last)]. *)
Fixpoint of_range (ps : list Point.t) (s : list Point.t) : result (list Point.t) :=
  match ps with
  | [] => Ok s
  | p :: ps' => s' <- insert p s ;; of_range ps' s'
  end.

End PointSet.

(** ** Hyperplane *)

Module Hyperplane.

(** The hyperplane [a_1 x_1 + ... + a_n x_n = b]. *)
Record t : Type := Build {
  coefficients_ : list Q;
  b_ : Q
}.

(** [Hyperplane(a1, a2, b)] and [Hyperplane(a1, a2, a3, b)]. *)
Definition make2 (a1 a2 b : Q) : t := Build [a1; a2] b.
Definition make3 (a1 a2 a3 b : Q) : t := Build [a1; a2; a3] b.

(** [Hyperplane(first, last, b)] over a range of coefficients. *)
Definition of_range (coefficients : list Q) (b : Q) : t := Build coefficients b.

Definition b (h : t) : Q := b_ h.

Definition space_dimension (h : t) : nat := length (coefficients_ h).

(** [operator[]]. *)
Definition get (h : t) (pos : nat) : result Q :=
  if space_dimension h <=? pos then Throw NonExistentCoefficientException
  else Ok (nth pos (coefficients_ h) 0).

(** [init(first, last)] on the elements of a [std::set<Point>].  The
    assertion admits exactly two points; with fewer than two the sources
    step an iterator past the end before they assert, which C++ leaves
    undefined. *)
Definition init (points : list Point.t) : result t :=
  match points with
  | [p1; p2] =>
      p1_1 <- Point.get p1 1 ;;
      p2_1 <- Point.get p2 1 ;;
      if negb (Qeq_bool p1_1 p2_1) then
        p2_0 <- Point.get p2 0 ;;
        p1_0 <- Point.get p1 0 ;;
        p1_1' <- Point.get p1 1 ;;
        p2_1' <- Point.get p2 1 ;;
        let a1 := 1 in
        let a2 := (p2_0 - p1_0) / (p1_1' - p2_1') in
        p1_0' <- Point.get p1 0 ;;
        p1_1'' <- Point.get p1 1 ;;
        Ok (Build [a1; a2] (p1_0' + a2 * p1_1''))
      else
        let a1 := 0 in
        let a2 := 1 in
        p1_1' <- Point.get p1 1 ;;
        Ok (Build [a1; a2] p1_1')
  | [] | [_] => Throw UndefinedBehaviour
  | _ => Throw AssertionFailure
  end.

(** [Hyperplane(const Point & p1, const Point & p2)]. *)
Definition of_points2 (p1 p2 : Point.t) : result t :=
  _ <- throw_if (Point.eqb p1 p2) SamePointsException ;;
  _ <- throw_if (negb (Point.dimension p1 =? 2)%nat || negb (Point.dimension p2 =? 2)%nat)
                Not2DPointsException ;;
  points <- PointSet.insert p1 [] ;;
  points <- PointSet.insert p2 points ;;
  init points.

(** [Hyperplane(std::set<Point>::const_iterator first, last)], given the
    elements of the range in the order of the set. *)
Definition of_set (points : list Point.t) : result t := init points.

(** [Hyperplane(const Point * first, const Point * last)]. *)
Definition of_array (ps : list Point.t) : result t :=
  points <- PointSet.of_range ps [] ;;
  init points.

(** The loop of [operator==]: [n] iterations are left, the next has index
    [i]. *)
Fixpoint eq_loop (n i : nat) (h hyperplane : t) : result bool :=
  match n with
  | O => Ok true
  | S n' =>
      hi <- get hyperplane i ;;
      if negb (Qeq_bool (nth i (coefficients_ h) 0 * b hyperplane) (hi * b_ h))
      then Ok false
      else eq_loop n' (S i) h hyperplane
  end.

(** [operator==]. *)
Definition eqb (h hyperplane : t) : result bool :=
  if negb (space_dimension h =? space_dimension hyperplane)%nat then Ok false
  else eq_loop (space_dimension h) 0 h hyperplane.

(** The loop of [operator!=]. *)
Fixpoint neq_loop (n i : nat) (h hyperplane : t) : result bool :=
  match n with
  | O => Ok false
  | S n' =>
      hi <- get hyperplane i ;;
      if negb (Qeq_bool (nth i (coefficients_ h) 0 * b hyperplane) (hi * b_ h))
      then Ok true
      else neq_loop n' (S i) h hyperplane
  end.

(** [operator!=]. *)
Definition neqb (h hyperplane : t) : result bool :=
  if negb (space_dimension h =? space_dimension hyperplane)%nat then Ok true
  else neq_loop (space_dimension h) 0 h hyperplane.

End Hyperplane.

(** ** The linear-algebra library *)

Module arma.

(** Modelled from the spec: the dense linear-algebra library (Armadillo)
    is no part of the sources.  A matrix is the list of its rows. *)
Definition mat : Type := list (list Q).

Definition n_rows (M : mat) : nat := length M.

Definition n_cols (M : mat) : nat :=
  match M with
  | [] => O
  | row :: _ => length row
  end.

(** [M.insert_rows(M.n_rows, row)]. *)
Definition insert_rows (M : mat) (row : list Q) : mat := M ++ [row].

(** [arma::ones<arma::vec>(n)]. *)
Definition ones (n : nat) : list Q := repeat 1 n.

(** [M.insert_cols(M.n_cols, col)]. *)
Fixpoint insert_cols (M : mat) (col : list Q) : mat :=
  match M, col with
  | row :: M', x :: col' => (row ++ [x]) :: insert_cols M' col'
  | _, _ => []
  end.

Fixpoint set_nth (j : nat) (x : Q) (row : list Q) : list Q :=
  match row, j with
  | [], _ => []
  | _ :: row', O => x :: row'
  | y :: row', S j' => y :: set_nth j' x row'
  end.

(** [M.swap_cols(i, j)]. *)
Definition swap_cols (i j : nat) (M : mat) : mat :=
  map (fun row => set_nth i (nth j row 0) (set_nth j (nth i row 0) row)) M.

(** [M.cols(first, last)], the columns [first], ..., [last]. *)
Definition cols (first last : nat) (M : mat) : mat :=
  map (fun row => firstn (S last - first) (skipn first row)) M.

Fixpoint remove_nth (j : nat) (row : list Q) : list Q :=
  match row, j with
  | [], _ => []
  | _ :: row', O => row'
  | y :: row', S j' => y :: remove_nth j' row'
  end.

Definition sum (l : list Q) : Q := fold_right Qplus 0 l.

(** Modelled from the spec: [arma::det], the determinant (spec, section 2,
    component I), here by expansion along the first row; [n] is the
    number of rows. *)
Fixpoint det_n (n : nat) (M : mat) : Q :=
  match n, M with
  | O, _ => 1
  | S n', row :: rest =>
      sum (map (fun j =>
                  let minor := det_n n' (map (remove_nth j) rest) in
                  if Nat.even j then nth j row 0 * minor
                  else - (nth j row 0 * minor))
               (seq 0 (S n')))
  | S _, [] => 0
  end.

Definition det (M : mat) : Q := det_n (n_rows M) M.

(** The product of a matrix and a column vector. *)
Definition mat_vec (W : mat) (x : list Q) : list Q :=
  map (fun row => dot row x) W.

(** Two vectors that hold the same numbers. *)
Definition vec_eq (x y : list Q) : Prop := Forall2 Qeq x y.

(** [W] is a [d] by [d] matrix. *)
Definition square (d : nat) (W : mat) : Prop :=
  length W = d /\ Forall (fun row => length row = d) W.

(** [x] is the one solution of [W x = c]. *)
Definition unique_solution (W : mat) (c x : list Q) : Prop :=
  length x = length W /\
  vec_eq (mat_vec W x) c /\
  forall y, length y = length W -> vec_eq (mat_vec W y) c -> vec_eq y x.

(** Modelled from the spec: [arma::solve(x, W, b)] on a square system.
    The call reports whether it found a solution and, if so, leaves it
    in [x].  The sources rely on this much (the comments in
    [Facet<S>::computeLowerDistalPoint] and spec, section 4.E): success
    means that [x] is the unique solution, failure that there is either
    no solution or an infinite number of them. *)
Definition solver : Type := mat -> list Q -> option (list Q).

Definition solve_contract (d : nat) (solve : solver) : Prop :=
  forall W c, square d W -> length c = d ->
    match solve W c with
    | Some x => unique_solution W c x
    | None => ~ exists x, unique_solution W c x
    end.

(** [W] with column [j] replaced by [c]. *)
Fixpoint replace_col (j : nat) (c : list Q) (W : mat) : mat :=
  match W, c with
  | row :: W', ci :: c' => set_nth j ci row :: replace_col j c' W'
  | _, _ => []
  end.

(** Modelled from the spec: a hand-rolled dense solve (spec, section 9),
    by Cramer's rule. *)
Definition cramer_solve : solver := fun W c =>
  let D := det W in
  if Qeq_bool D 0 then None
  else Some (map (fun j => det (replace_col j c W) / D) (seq 0 (n_rows W))).

End arma.

(** ** PointAndSolution *)

Module PointAndSolution.

(** Modelled from the spec: PointAndSolution.h is not part of the sources
    at hand.  A nullable triple of a point, a solution and the weights
    used to obtain it (spec, section 3). *)
Record t (S : Type) : Type := Build {
  isNull_ : bool;
  point : Point.t;
  solution : S;
  weightsUsed : list Q
}.
Arguments Build {S}.
Arguments isNull_ {S}.
Arguments point {S}.
Arguments solution {S}.
Arguments weightsUsed {S}.

Definition isNull {S : Type} (v : t S) : bool := isNull_ v.

(** Modelled from the spec: [dimension()], the dimension of the point. *)
Definition dimension {S : Type} (v : t S) : nat := Point.dimension (point v).

End PointAndSolution.

(** [std::max(x, y)] on real doubles. *)
Definition std_max_real (x y : Q) : Q := if Qltb x y then y else x.

(** ** Facet *)

Module Facet.
Section Facet.

(** The type of solutions (the template parameter [S] of the sources)
    and the linear solver in use. *)
Variable Sol : Type.
Variable solve : arma.solver.

Record t : Type := Build {
  spaceDimension_ : nat;
  vertices_ : list (PointAndSolution.t Sol);
  normal_ : list Q;
  localApproximationErrorUpperBound_ : Q;
  isBoundaryFacet_ : bool
}.

Definition set_normal (f : t) (n : list Q) : t :=
  Build (spaceDimension_ f) (vertices_ f) n
        (localApproximationErrorUpperBound_ f) (isBoundaryFacet_ f).

Definition set_localApproximationErrorUpperBound (f : t) (e : Q) : t :=
  Build (spaceDimension_ f) (vertices_ f) (normal_ f) e (isBoundaryFacet_ f).

Definition set_isBoundaryFacet (f : t) (flag : bool) : t :=
  Build (spaceDimension_ f) (vertices_ f) (normal_ f)
        (localApproximationErrorUpperBound_ f) flag.

Definition spaceDimension (f : t) : nat := spaceDimension_ f.

Definition isBoundaryFacet (f : t) : bool := isBoundaryFacet_ f.

Definition getLocalApproximationErrorUpperBound (f : t) : result Q :=
  if isBoundaryFacet f then Throw BoundaryFacetException
  else Ok (localApproximationErrorUpperBound_ f).

Definition getNormalVector (f : t) : list Q := normal_ f.

(** The loop of [computeLowerDistalPoint] that fills [W] and [b]. *)
Fixpoint fill_W_b (f : t) (vs : list (PointAndSolution.t Sol)) (W : arma.mat) (b : list Q)
  : result (arma.mat * list Q) :=
  match vs with
  | [] => Ok (W, b)
  | v :: vs' =>
      _ <- c_assert (length (PointAndSolution.weightsUsed v) =? spaceDimension f)%nat ;;
      let wi := PointAndSolution.weightsUsed v in
      fill_W_b f vs' (arma.insert_rows W wi)
               (b ++ [dot wi (Point.toVec (PointAndSolution.point v))])
  end.

(** [computeLowerDistalPoint()]. *)
Definition computeLowerDistalPoint (f : t) : result Point.t :=
  Wb <- fill_W_b f (vertices_ f) [] [] ;;
  match solve (fst Wb) (snd Wb) with
  | Some x => Ok (Point.Coordinates x)
  | None => Ok Point.Null
  end.

(** The loop of [ratioDistance] that accumulates [dotProduct] and
    [facetOffset]. *)
Fixpoint ratio_loop (n i : nat) (f : t) (p aPointOnTheFacet : Point.t)
         (dotProduct facetOffset : Q) : result (Q * Q) :=
  match n with
  | O => Ok (dotProduct, facetOffset)
  | S n' =>
      p_i <- Point.get p i ;;
      q_i <- Point.get aPointOnTheFacet i ;;
      ratio_loop n' (S i) f p aPointOnTheFacet
                 (dotProduct + nth i (normal_ f) 0 * p_i)
                 (facetOffset + nth i (normal_ f) 0 * q_i)
  end.

(** [ratioDistance(p)].  [vertices_[0]] is an unchecked access: it is
    defined on a facet that has a vertex, as every constructed facet of a
    space of at least one dimension has. *)
Definition ratioDistance (f : t) (p : Point.t) : result Q :=
  _ <- throw_if (Point.isNull p) NullObjectException ;;
  _ <- throw_if (negb (spaceDimension f =? Point.dimension p)%nat)
                DifferentDimensionsException ;;
  _ <- throw_if (negb (Point.isStrictlyPositive p)) NotStrictlyPositivePointException ;;
  _ <- c_assert (0 <? spaceDimension f)%nat ;;
  match vertices_ f with
  | [] => Throw UndefinedBehaviour
  | v0 :: _ =>
      let aPointOnTheFacet := PointAndSolution.point v0 in
      sums <- ratio_loop (spaceDimension f) 0 f p aPointOnTheFacet 0 0 ;;
      let dotProduct := fst sums in
      let facetOffset := snd sums in
      if Qeq_bool dotProduct facetOffset then Ok 0
      else if Qeq_bool dotProduct 0 then Throw InfiniteRatioDistanceException
      else Ok (std_max_real ((facetOffset - dotProduct) / dotProduct) 0)
  end.

Definition hasAllNormalVectorElementsNonPositive (f : t) : bool :=
  forallb (fun i => negb (Qltb 0 (nth i (normal_ f) 0))) (seq 0 (spaceDimension f)).

Definition hasAllNormalVectorElementsNonNegative (f : t) : bool :=
  forallb (fun i => negb (Qltb (nth i (normal_ f) 0) 0)) (seq 0 (spaceDimension f)).

Definition reverseNormalVectorSign (f : t) : t :=
  set_normal f
    (fold_left (fun n i => arma.set_nth i (- nth i n 0) n)
               (seq 0 (spaceDimension f)) (normal_ f)).

(** The loop of [computeAndSetFacetNormal] that appends one determinant
    to [normal_] per dimension. *)
Fixpoint normal_loop (n i : nat) (M : arma.mat) (normal : list Q) : list Q :=
  match n with
  | O => normal
  | S n' =>
      let M1 := arma.swap_cols i (arma.n_cols M - 1) M in
      let normal' := normal ++ [arma.det (arma.cols 0 (arma.n_cols M1 - 2) M1)] in
      let M2 := arma.swap_cols i (arma.n_cols M1 - 1) M1 in
      normal_loop n' (S i) M2 normal'
  end.

(** [computeAndSetFacetNormal(preferPositiveNormalVector)]. *)
Definition computeAndSetFacetNormal (f : t) (preferPositiveNormalVector : bool) : t :=
  let M := fold_left (fun M v => arma.insert_rows M (Point.toRowVec (PointAndSolution.point v)))
                     (vertices_ f) [] in
  let M := arma.insert_cols M (arma.ones (spaceDimension f)) in
  let f := set_normal f (normal_loop (spaceDimension f) 0 M (normal_ f)) in
  if preferPositiveNormalVector && hasAllNormalVectorElementsNonPositive f
  then reverseNormalVectorSign f
  else f.

(** [computeAndSetLocalApproximationErrorUpperBoundAndIsBoundaryFacet()]. *)
Definition computeAndSetLocalApproximationErrorUpperBoundAndIsBoundaryFacet (f : t)
  : result t :=
  lowerDistalPoint <- computeLowerDistalPoint f ;;
  if negb (Point.isNull lowerDistalPoint) then
    let f := set_isBoundaryFacet f false in
    if Point.isStrictlyPositive lowerDistalPoint then
      r <- ratioDistance f lowerDistalPoint ;;
      Ok (set_localApproximationErrorUpperBound f r)
    else
      let f := set_isBoundaryFacet f true in
      Ok (set_localApproximationErrorUpperBound f (-1))
  else
    let f := set_isBoundaryFacet f true in
    Ok (set_localApproximationErrorUpperBound f (-2)).

(** The loop of both constructors that validates the vertices. *)
Fixpoint check_vertices (d : nat) (vs : list (PointAndSolution.t Sol)) : result unit :=
  match vs with
  | [] => Ok tt
  | v :: vs' =>
      _ <- throw_if (PointAndSolution.isNull v || Point.isNull (PointAndSolution.point v))
                    NullObjectException ;;
      _ <- throw_if (negb (PointAndSolution.dimension v =? d)%nat)
                    DifferentDimensionsException ;;
      check_vertices d vs'
  end.

(** A facet whose members are yet to be set: [normal_] starts empty, the
    two scalar members hold no meaningful value until the constructor
    sets them. *)
Definition uninitialized (d : nat) : t := Build d [] [] 0 false.

Definition assign_vertices (f : t) (vs : list (PointAndSolution.t Sol)) : t :=
  Build (spaceDimension_ f) vs (normal_ f)
        (localApproximationErrorUpperBound_ f) (isBoundaryFacet_ f).

(** [Facet(firstVertex, lastVertex, preferPositiveNormalVector)].  An
    empty range has no [firstVertex] to read the dimension from: the
    sources dereference the end of the range, which C++ leaves
    undefined. *)
Definition make (vertices : list (PointAndSolution.t Sol))
           (preferPositiveNormalVector : bool) : result t :=
  match vertices with
  | [] => Throw UndefinedBehaviour
  | firstVertex :: _ =>
      let f := uninitialized (PointAndSolution.dimension firstVertex) in
      _ <- c_assert (length vertices =? spaceDimension_ f)%nat ;;
      _ <- check_vertices (spaceDimension_ f) vertices ;;
      let f := assign_vertices f vertices in
      let f := computeAndSetFacetNormal f preferPositiveNormalVector in
      computeAndSetLocalApproximationErrorUpperBoundAndIsBoundaryFacet f
  end.

(** [Facet(firstVertex, lastVertex, firstElemOfFacetNormal,
    lastElemOfFacetNormal)]. *)
Definition make_with_normal (vertices : list (PointAndSolution.t Sol))
           (facetNormal : list Q) : result t :=
  let f := uninitialized (length facetNormal) in
  _ <- c_assert (length vertices =? spaceDimension_ f)%nat ;;
  _ <- check_vertices (spaceDimension_ f) vertices ;;
  let f := assign_vertices f vertices in
  let f := set_normal f facetNormal in
  computeAndSetLocalApproximationErrorUpperBoundAndIsBoundaryFacet f.

End Facet.

Arguments Build {Sol}.
Arguments spaceDimension_ {Sol}.
Arguments vertices_ {Sol}.
Arguments normal_ {Sol}.
Arguments localApproximationErrorUpperBound_ {Sol}.
Arguments isBoundaryFacet_ {Sol}.
Arguments spaceDimension {Sol}.
Arguments isBoundaryFacet {Sol}.
Arguments getLocalApproximationErrorUpperBound {Sol}.
Arguments getNormalVector {Sol}.
Arguments reverseNormalVectorSign {Sol}.
Arguments hasAllNormalVectorElementsNonPositive {Sol}.
Arguments hasAllNormalVectorElementsNonNegative {Sol}.
Arguments computeLowerDistalPoint {Sol}.
Arguments ratioDistance {Sol}.
Arguments computeAndSetFacetNormal {Sol}.
Arguments computeAndSetLocalApproximationErrorUpperBoundAndIsBoundaryFacet {Sol}.
Arguments make {Sol}.
Arguments make_with_normal {Sol}.
End Facet.

(** ** Relations the properties are stated with *)

(** The test of one iteration of [operator==]. *)
Definition cross_scaled (h h' : Hyperplane.t) (k : nat) : bool :=
  Qeq_bool (nth k (Hyperplane.coefficients_ h) 0 * Hyperplane.b_ h')
           (nth k (Hyperplane.coefficients_ h') 0 * Hyperplane.b_ h).

(** ** Facets as the constructors leave them *)

(** The coordinates of the point of the first vertex. *)
Definition first_vertex_point {Sol : Type} (f : Facet.t Sol) : list Q :=
  match Facet.vertices_ f with
  | v0 :: _ => Point.coordinates (PointAndSolution.point v0)
  | [] => []
  end.

(** A facet of a space of at least one dimension with as many vertices,
    each of them a point of that space, and a normal vector of that
    space. *)
Definition well_formed {Sol : Type} (f : Facet.t Sol) : Prop :=
  (0 < Facet.spaceDimension f)%nat /\
  length (Facet.vertices_ f) = Facet.spaceDimension f /\
  length (Facet.normal_ f) = Facet.spaceDimension f /\
  Forall (fun v => PointAndSolution.dimension v = Facet.spaceDimension f)
         (Facet.vertices_ f).



(** What a constructed facet stores about its Lower Distal Point. *)
Definition bound_and_boundary {Sol : Type} (solve : arma.solver) (f : Facet.t Sol) : Prop :=
  let ldp := Facet.computeLowerDistalPoint solve f in
  (Facet.isBoundaryFacet f = false <->
   exists x, ldp = Ok (Point.Coordinates x) /\
             Point.isStrictlyPositive (Point.Coordinates x) = true) /\
  (Facet.isBoundaryFacet f = false ->
   exists x r, ldp = Ok (Point.Coordinates x) /\
               Facet.ratioDistance f (Point.Coordinates x) = Ok r /\
               Facet.localApproximationErrorUpperBound_ f = r /\ 0 <= r) /\
  (forall x, ldp = Ok (Point.Coordinates x) ->
             Point.isStrictlyPositive (Point.Coordinates x) = false ->
             Facet.localApproximationErrorUpperBound_ f = -1) /\
  (ldp = Ok Point.Null -> Facet.localApproximationErrorUpperBound_ f = -2) /\
  (Facet.getLocalApproximationErrorUpperBound f = Throw BoundaryFacetException <->
   Facet.isBoundaryFacet f = true).



(** ** Example facets *)

(** A vertex without a solution to speak of: a point and the weights that
    produced it. *)
Definition vertex (p w : list Q) : PointAndSolution.t unit :=
  PointAndSolution.Build false (Point.Coordinates p) tt w.

(** The three axis extrema of the feasible set {(1,1,100), (100,1,1),
    (1,100,1)} (spec, scenario S3), each with the axis it minimises. *)
Definition simplex_vertices : list (PointAndSolution.t unit) :=
  [vertex [1; 1; 100] [1; 0; 0];
   vertex [100; 1; 1] [0; 1; 0];
   vertex [1; 100; 1] [0; 0; 1]].


(** A vertex that the constructors of Facet accept in a space of [d]
    dimensions. *)
Definition valid_vertex {Sol : Type} (d : nat) (v : PointAndSolution.t Sol) : Prop :=
  PointAndSolution.isNull v = false /\
  Point.isNull (PointAndSolution.point v) = false /\
  PointAndSolution.dimension v = d.

(** * Part two: doubles as binary64 numbers *)

Module Binary64.

Local Open Scope float_scope.

(** A [double] is a binary64 number: [x + y], [x - y], [x * y] and
    [x / y] are the IEEE-754 operations with round-to-nearest-even,
    [x =? y] is the [x == y] of C++ and [x <? y] its [x < y], both false
    as soon as an operand is NaN; [x != y] is [negb (x =? y)]. *)

(** [std::max(a, b)], which is [(a < b) ? b : a]. *)
Definition std_max (a b : float) : float := if a <? b then b else a.

(** ** Point *)

Module Point.

(** Modelled from the spec: Point.cpp is not part of the sources at hand.
    A point is an ordered tuple of double-precision coordinates or the
    distinguished null point, which has no coordinates (spec, section
    3). *)
Inductive t : Type :=
| Null
| Coordinates (coordinates_ : list float).

Definition coordinates (p : t) : list float :=
  match p with
  | Null => []
  | Coordinates cs => cs
  end.

(** Modelled from the spec: [isNull()]. *)
Definition isNull (p : t) : bool :=
  match p with
  | Null => true
  | Coordinates _ => false
  end.

(** Modelled from the spec: [dimension()], the number of coordinates. *)
Definition dimension (p : t) : nat := length (coordinates p).

(** Modelled from the spec: [operator[]], which fails with
    NonExistentCoordinate when [pos >= dimension()] (Point.h). *)
Definition get (p : t) (pos : nat) : result float :=
  if (dimension p <=? pos)%nat then Throw NonExistentCoordinateException
  else Ok (nth pos (coordinates p) 0).

Fixpoint coordinates_eqb (x y : list float) : bool :=
  match x, y with
  | [], [] => true
  | xi :: x', yi :: y' => (xi =? yi) && coordinates_eqb x' y'
  | _, _ => false
  end.

(** Modelled from the spec: [operator==], same dimension and equal
    coordinates; it never fails (Point.h and spec, section 4.A). *)
Definition eqb (p q : t) : bool :=
  coordinates_eqb (coordinates p) (coordinates q).

Fixpoint lexicographic_ltb (x y : list float) : bool :=
  match x, y with
  | xi :: x', yi :: y' =>
      if xi <? yi then true
      else if yi <? xi then false
      else lexicographic_ltb x' y'
  | _, _ => false
  end.

(** Modelled from the spec: [operator<], the lexicographic order, which
    fails with DifferentDimensions on points of different dimensions
    (Point.h and spec, section 4.A). *)
Definition ltb (p q : t) : result bool :=
  if negb (dimension p =? dimension q)%nat then Throw DifferentDimensionsException
  else Ok (lexicographic_ltb (coordinates p) (coordinates q)).

(** Modelled from the spec: [isStrictlyPositive()], every coordinate is
    greater than zero (the documentation of [Facet<S>::ratioDistance]). *)
Definition isStrictlyPositive (p : t) : bool :=
  forallb (fun x => 0 <? x) (coordinates p).

(** Modelled from the spec: [toVec()] and [toRowVec()], the coordinates
    as a vector (tests/PointTest.cpp). *)
Definition toVec (p : t) : list float := coordinates p.
Definition toRowVec (p : t) : list float := coordinates p.

(** [Point(x, y)]. *)
Definition make2 (x y : float) : t := Coordinates [x; y].

End Point.

(** ** std::set<Point> *)

Module PointSet.

(** A [std::set<Point>] as the list of its elements in the order of
    [Point::operator<], as in part one. *)
Fixpoint insert (p : Point.t) (s : list Point.t) : result (list Point.t) :=
  match s with
  | [] => Ok [p]
  | q :: s' =>
      q_lt_p <- Point.ltb q p ;;
      if q_lt_p then
        r <- insert p s' ;; Ok (q :: r)
      else
        p_lt_q <- Point.ltb p q ;;
        if p_lt_q then Ok (p :: q :: s') else Ok (q :: s')
  end.

(** [std::set<Point> points(first, last)]. *)
Fixpoint of_range (ps : list Point.t) (s : list Point.t) : result (list Point.t) :=
  match ps with
  | [] => Ok s
  | p :: ps' => s' <- insert p s ;; of_range ps' s'
  end.

End PointSet.

(** ** Hyperplane *)

Module Hyperplane.

(** The hyperplane [a_1 x_1 + ... + a_n x_n = b]. *)
Record t : Type := Build {
  coefficients_ : list float;
  b_ : float
}.

(** [Hyperplane(a1, a2, b)] and [Hyperplane(a1, a2, a3, b)]. *)
Definition make2 (a1 a2 b : float) : t := Build [a1; a2] b.
Definition make3 (a1 a2 a3 b : float) : t := Build [a1; a2; a3] b.

(** [Hyperplane(first, last, b)] over a range of coefficients. *)
Definition of_range (coefficients : list float) (b : float) : t := Build coefficients b.

Definition b (h : t) : float := b_ h.

Definition space_dimension (h : t) : nat := length (coefficients_ h).

(** [operator[]]. *)
Definition get (h : t) (pos : nat) : result float :=
  if (space_dimension h <=? pos)%nat then Throw NonExistentCoefficientException
  else Ok (nth pos (coefficients_ h) 0).

(** [init(first, last)] on the elements of a [std::set<Point>].  The
    assertion admits exactly two points; with fewer than two the sources
    step an iterator past the end before they assert, which C++ leaves
    undefined. *)
Definition init (points : list Point.t) : result t :=
  match points with
  | [p1; p2] =>
      p1_1 <- Point.get p1 1 ;;
      p2_1 <- Point.get p2 1 ;;
      if negb (p1_1 =? p2_1) then
        p2_0 <- Point.get p2 0 ;;
        p1_0 <- Point.get p1 0 ;;
        p1_1' <- Point.get p1 1 ;;
        p2_1' <- Point.get p2 1 ;;
        let a1 := 1 in
        let a2 := (p2_0 - p1_0) / (p1_1' - p2_1') in
        p1_0' <- Point.get p1 0 ;;
        p1_1'' <- Point.get p1 1 ;;
        Ok (Build [a1; a2] (p1_0' + a2 * p1_1''))
      else
        let a1 := 0 in
        let a2 := 1 in
        p1_1' <- Point.get p1 1 ;;
        Ok (Build [a1; a2] p1_1')
  | [] | [_] => Throw UndefinedBehaviour
  | _ => Throw AssertionFailure
  end.

(** [Hyperplane(const Point & p1, const Point & p2)]. *)
Definition of_points2 (p1 p2 : Point.t) : result t :=
  _ <- throw_if (Point.eqb p1 p2) SamePointsException ;;
  _ <- throw_if (negb (Point.dimension p1 =? 2)%nat || negb (Point.dimension p2 =? 2)%nat)
                Not2DPointsException ;;
  points <- PointSet.insert p1 [] ;;
  points <- PointSet.insert p2 points ;;
  init points.

(** [Hyperplane(std::set<Point>::const_iterator first, last)], given the
    elements of the range in the order of the set. *)
Definition of_set (points : list Point.t) : result t := init points.

(** [Hyperplane(const Point * first, const Point * last)]. *)
Definition of_array (ps : list Point.t) : result t :=
  points <- PointSet.of_range ps [] ;;
  init points.

(** The loop of [operator==]: [n] iterations are left, the next has index
    [i]. *)
Fixpoint eq_loop (n i : nat) (h hyperplane : t) : result bool :=
  match n with
  | O => Ok true
  | S n' =>
      hi <- get hyperplane i ;;
      if negb (nth i (coefficients_ h) 0 * b hyperplane =? hi * b_ h)
      then Ok false
      else eq_loop n' (S i) h hyperplane
  end.

(** [operator==]. *)
Definition eqb (h hyperplane : t) : result bool :=
  if negb (space_dimension h =? space_dimension hyperplane)%nat then Ok false
  else eq_loop (space_dimension h) 0 h hyperplane.

(** The loop of [operator!=]. *)
Fixpoint neq_loop (n i : nat) (h hyperplane : t) : result bool :=
  match n with
  | O => Ok false
  | S n' =>
      hi <- get hyperplane i ;;
      if negb (nth i (coefficients_ h) 0 * b hyperplane =? hi * b_ h)
      then Ok true
      else neq_loop n' (S i) h hyperplane
  end.

(** [operator!=]. *)
Definition neqb (h hyperplane : t) : result bool :=
  if negb (space_dimension h =? space_dimension hyperplane)%nat then Ok true
  else neq_loop (space_dimension h) 0 h hyperplane.

(** The loop that accumulates [coefficients_[i] * p[i]], shared by
    [ratioDistance] and [parallelThrough]: a rounded product, then a
    rounded sum. *)
Fixpoint dot_loop (n i : nat) (h : t) (p : Point.t) (acc : float) : result float :=
  match n with
  | O => Ok acc
  | S n' =>
      p_i <- Point.get p i ;;
      dot_loop n' (S i) h p (acc + nth i (coefficients_ h) 0 * p_i)
  end.

(** [ratioDistance(p)].  The division is unguarded. *)
Definition ratioDistance (h : t) (p : Point.t) : result float :=
  _ <- throw_if (negb (space_dimension h =? Point.dimension p)%nat)
                DifferentDimensionsException ;;
  dotProduct <- dot_loop (space_dimension h) 0 h p 0 ;;
  Ok (std_max ((b_ h - dotProduct) / dotProduct) 0).

(** [parallelThrough(p)]. *)
Definition parallelThrough (h : t) (p : Point.t) : result t :=
  newB <- dot_loop (space_dimension h) 0 h p 0 ;;
  Ok (of_range (coefficients_ h) newB).

(** The loop of [isParallel]. *)
Fixpoint parallel_loop (n i : nat) (h hyperplane : t) : result bool :=
  match n with
  | O => Ok true
  | S n' =>
      h0 <- get hyperplane 0 ;;
      hi <- get hyperplane i ;;
      if negb (nth i (coefficients_ h) 0 * h0 =? hi * nth 0 (coefficients_ h) 0)
      then Ok false
      else parallel_loop n' (S i) h hyperplane
  end.

(** [isParallel(hyperplane)]. *)
Definition isParallel (h hyperplane : t) : result bool :=
  if negb (space_dimension h =? space_dimension hyperplane)%nat then Ok false
  else parallel_loop (space_dimension h) 0 h hyperplane.

(** [intersection(hyperplane)]. *)
Definition intersection (h hyperplane : t) : result Point.t :=
  _ <- throw_if (negb (space_dimension h =? 2)%nat
                 || negb (space_dimension hyperplane =? 2)%nat)
                Not2DHyperplanesException ;;
  parallel <- isParallel h hyperplane ;;
  _ <- throw_if parallel ParallelHyperplanesException ;;
  let c := fun i => nth i (coefficients_ h) 0 in
  h1 <- get hyperplane 1 ;;
  h0 <- get hyperplane 0 ;;
  h1' <- get hyperplane 1 ;;
  let x0 := (c 1%nat * b hyperplane - b h * h1) / (c 1%nat * h0 - c 0%nat * h1') in
  y0 <- (if negb (c 1%nat =? 0) then
           Ok ((b_ h - c 0%nat * x0) / c 1%nat)
         else
           h0' <- get hyperplane 0 ;;
           h1'' <- get hyperplane 1 ;;
           Ok ((b hyperplane - h0' * x0) / h1'')) ;;
  Ok (Point.make2 x0 y0).

End Hyperplane.

(** ** The linear-algebra library *)

Module arma.

(** Modelled from the spec: the dense linear-algebra library (Armadillo)
    is no part of the sources.  A matrix is the list of its rows. *)
Definition mat : Type := list (list float).

Definition n_rows (M : mat) : nat := length M.

Definition n_cols (M : mat) : nat :=
  match M with
  | [] => O
  | row :: _ => length row
  end.

(** [M.insert_rows(M.n_rows, row)]. *)
Definition insert_rows (M : mat) (row : list float) : mat := M ++ [row].

(** [arma::ones<arma::vec>(n)]. *)
Definition ones (n : nat) : list float := repeat 1 n.

(** [M.insert_cols(M.n_cols, col)]. *)
Fixpoint insert_cols (M : mat) (col : list float) : mat :=
  match M, col with
  | row :: M', x :: col' => (row ++ [x]) :: insert_cols M' col'
  | _, _ => []
  end.

Fixpoint set_nth (j : nat) (x : float) (row : list float) : list float :=
  match row, j with
  | [], _ => []
  | _ :: row', O => x :: row'
  | y :: row', S j' => y :: set_nth j' x row'
  end.

(** [M.swap_cols(i, j)]. *)
Definition swap_cols (i j : nat) (M : mat) : mat :=
  map (fun row => set_nth i (nth j row 0) (set_nth j (nth i row 0) row)) M.

(** [M.cols(first, last)], the columns [first], ..., [last]. *)
Definition cols (first last : nat) (M : mat) : mat :=
  map (fun row => firstn (S last - first) (skipn first row)) M.

(** What the sources call of the library and do not define: the solver
    [arma::solve(x, W, b)], which reports whether it found a solution
    and, if so, leaves it in [x]; the determinant [arma::det]; and the
    product of a row vector and a column vector.  How the library rounds
    is not known from the sources, so the facets below take the three as
    parameters. *)
Definition solver : Type := mat -> list float -> option (list float).
Definition determinant : Type := mat -> float.
Definition product : Type := list float -> list float -> float.

Fixpoint remove_nth (j : nat) (row : list float) : list float :=
  match row, j with
  | [], _ => []
  | _ :: row', O => row'
  | y :: row', S j' => y :: remove_nth j' row'
  end.

(** Modelled from the spec: a hand-rolled determinant (spec, section 9),
    by expansion along the first row, every operation rounded; [n] is
    the number of rows. *)
Fixpoint det_n (n : nat) (M : mat) : float :=
  match n, M with
  | O, _ => 1
  | S n', row :: rest =>
      fold_left (fun acc j =>
                   let minor := det_n n' (map (remove_nth j) rest) in
                   if Nat.even j then acc + nth j row 0 * minor
                   else acc - nth j row 0 * minor)
                (seq 0 (S n')) 0
  | S _, [] => 0
  end.

Definition det : determinant := fun M => det_n (n_rows M) M.

(** [W] with column [j] replaced by [c]. *)
Fixpoint replace_col (j : nat) (c : list float) (W : mat) : mat :=
  match W, c with
  | row :: W', ci :: c' => set_nth j ci row :: replace_col j c' W'
  | _, _ => []
  end.

(** Modelled from the spec: a hand-rolled dense solve (spec, section 9),
    by Cramer's rule. *)
Definition cramer_solve : solver := fun W c =>
  let D := det W in
  if D =? 0 then None
  else Some (map (fun j => det (replace_col j c W) / D) (seq 0 (n_rows W))).

(** Modelled from the spec: a hand-rolled product of a row and a column,
    summed in index order. *)
Fixpoint times_from (acc : float) (w x : list float) : float :=
  match w, x with
  | wi :: w', xi :: x' => times_from (acc + wi * xi) w' x'
  | _, _ => acc
  end.

Definition times : product := times_from 0.

End arma.

(** ** PointAndSolution *)

Module PointAndSolution.

(** Modelled from the spec: PointAndSolution.h is not part of the sources
    at hand.  A nullable triple of a point, a solution and the weights
    used to obtain it (spec, section 3). *)
Record t (S : Type) : Type := Build {
  isNull_ : bool;
  point : Point.t;
  solution : S;
  weightsUsed : list float
}.
Arguments Build {S}.
Arguments isNull_ {S}.
Arguments point {S}.
Arguments solution {S}.
Arguments weightsUsed {S}.

Definition isNull {S : Type} (v : t S) : bool := isNull_ v.

(** Modelled from the spec: [dimension()], the dimension of the point. *)
Definition dimension {S : Type} (v : t S) : nat := Point.dimension (point v).

End PointAndSolution.

(** ** Facet *)

Module Facet.
Section Facet.

(** The type of solutions (the template parameter [S] of the sources)
    and the three operations of the linear-algebra library in use. *)
Variable Sol : Type.
Variable solve : arma.solver.
Variable det : arma.determinant.
Variable times : arma.product.

Record t : Type := Build {
  spaceDimension_ : nat;
  vertices_ : list (PointAndSolution.t Sol);
  normal_ : list float;
  localApproximationErrorUpperBound_ : float;
  isBoundaryFacet_ : bool
}.

Definition set_normal (f : t) (n : list float) : t :=
  Build (spaceDimension_ f) (vertices_ f) n
        (localApproximationErrorUpperBound_ f) (isBoundaryFacet_ f).

Definition set_localApproximationErrorUpperBound (f : t) (e : float) : t :=
  Build (spaceDimension_ f) (vertices_ f) (normal_ f) e (isBoundaryFacet_ f).

Definition set_isBoundaryFacet (f : t) (flag : bool) : t :=
  Build (spaceDimension_ f) (vertices_ f) (normal_ f)
        (localApproximationErrorUpperBound_ f) flag.

Definition spaceDimension (f : t) : nat := spaceDimension_ f.

Definition isBoundaryFacet (f : t) : bool := isBoundaryFacet_ f.

Definition getLocalApproximationErrorUpperBound (f : t) : result float :=
  if isBoundaryFacet f then Throw BoundaryFacetException
  else Ok (localApproximationErrorUpperBound_ f).

Definition getNormalVector (f : t) : list float := normal_ f.

(** The loop of [computeLowerDistalPoint] that fills [W] and [b]. *)
Fixpoint fill_W_b (f : t) (vs : list (PointAndSolution.t Sol)) (W : arma.mat) (b : list float)
  : result (arma.mat * list float) :=
  match vs with
  | [] => Ok (W, b)
  | v :: vs' =>
      _ <- c_assert (length (PointAndSolution.weightsUsed v) =? spaceDimension f)%nat ;;
      let wi := PointAndSolution.weightsUsed v in
      fill_W_b f vs' (arma.insert_rows W wi)
               (b ++ [times wi (Point.toVec (PointAndSolution.point v))])
  end.

(** [computeLowerDistalPoint()]. *)
Definition computeLowerDistalPoint (f : t) : result Point.t :=
  Wb <- fill_W_b f (vertices_ f) [] [] ;;
  match solve (fst Wb) (snd Wb) with
  | Some x => Ok (Point.Coordinates x)
  | None => Ok Point.Null
  end.

(** The loop of [ratioDistance] that accumulates [dotProduct] and
    [facetOffset]. *)
Fixpoint ratio_loop (n i : nat) (f : t) (p aPointOnTheFacet : Point.t)
         (dotProduct facetOffset : float) : result (float * float) :=
  match n with
  | O => Ok (dotProduct, facetOffset)
  | S n' =>
      p_i <- Point.get p i ;;
      q_i <- Point.get aPointOnTheFacet i ;;
      ratio_loop n' (S i) f p aPointOnTheFacet
                 (dotProduct + nth i (normal_ f) 0 * p_i)
                 (facetOffset + nth i (normal_ f) 0 * q_i)
  end.

(** [ratioDistance(p)].  [vertices_[0]] is an unchecked access: it is
    defined on a facet that has a vertex, as every constructed facet of a
    space of at least one dimension has. *)
Definition ratioDistance (f : t) (p : Point.t) : result float :=
  _ <- throw_if (Point.isNull p) NullObjectException ;;
  _ <- throw_if (negb (spaceDimension f =? Point.dimension p)%nat)
                DifferentDimensionsException ;;
  _ <- throw_if (negb (Point.isStrictlyPositive p)) NotStrictlyPositivePointException ;;
  _ <- c_assert (0 <? spaceDimension f)%nat ;;
  match vertices_ f with
  | [] => Throw UndefinedBehaviour
  | v0 :: _ =>
      let aPointOnTheFacet := PointAndSolution.point v0 in
      sums <- ratio_loop (spaceDimension f) 0 f p aPointOnTheFacet 0 0 ;;
      let dotProduct := fst sums in
      let facetOffset := snd sums in
      if dotProduct =? facetOffset then Ok 0
      else if dotProduct =? 0 then Throw InfiniteRatioDistanceException
      else Ok (std_max ((facetOffset - dotProduct) / dotProduct) 0)
  end.

Definition hasAllNormalVectorElementsNonPositive (f : t) : bool :=
  forallb (fun i => negb (0 <? nth i (normal_ f) 0)) (seq 0 (spaceDimension f)).

Definition hasAllNormalVectorElementsNonNegative (f : t) : bool :=
  forallb (fun i => negb (nth i (normal_ f) 0 <? 0)) (seq 0 (spaceDimension f)).

Definition reverseNormalVectorSign (f : t) : t :=
  set_normal f
    (fold_left (fun n i => arma.set_nth i (- nth i n 0) n)
               (seq 0 (spaceDimension f)) (normal_ f)).

(** The loop of [computeAndSetFacetNormal] that appends one determinant
    to [normal_] per dimension. *)
Fixpoint normal_loop (n i : nat) (M : arma.mat) (normal : list float) : list float :=
  match n with
  | O => normal
  | S n' =>
      let M1 := arma.swap_cols i (arma.n_cols M - 1) M in
      let normal' := normal ++ [det (arma.cols 0 (arma.n_cols M1 - 2) M1)] in
      let M2 := arma.swap_cols i (arma.n_cols M1 - 1) M1 in
      normal_loop n' (S i) M2 normal'
  end.

(** [computeAndSetFacetNormal(preferPositiveNormalVector)]. *)
Definition computeAndSetFacetNormal (f : t) (preferPositiveNormalVector : bool) : t :=
  let M := fold_left (fun M v => arma.insert_rows M (Point.toRowVec (PointAndSolution.point v)))
                     (vertices_ f) [] in
  let M := arma.insert_cols M (arma.ones (spaceDimension f)) in
  let f := set_normal f (normal_loop (spaceDimension f) 0 M (normal_ f)) in
  if preferPositiveNormalVector && hasAllNormalVectorElementsNonPositive f
  then reverseNormalVectorSign f
  else f.

(** [computeAndSetLocalApproximationErrorUpperBoundAndIsBoundaryFacet()]. *)
Definition computeAndSetLocalApproximationErrorUpperBoundAndIsBoundaryFacet (f : t)
  : result t :=
  lowerDistalPoint <- computeLowerDistalPoint f ;;
  if negb (Point.isNull lowerDistalPoint) then
    let f := set_isBoundaryFacet f false in
    if Point.isStrictlyPositive lowerDistalPoint then
      r <- ratioDistance f lowerDistalPoint ;;
      Ok (set_localApproximationErrorUpperBound f r)
    else
      let f := set_isBoundaryFacet f true in
      Ok (set_localApproximationErrorUpperBound f (-1))
  else
    let f := set_isBoundaryFacet f true in
    Ok (set_localApproximationErrorUpperBound f (-2)).

(** The loop of both constructors that validates the vertices. *)
Fixpoint check_vertices (d : nat) (vs : list (PointAndSolution.t Sol)) : result unit :=
  match vs with
  | [] => Ok tt
  | v :: vs' =>
      _ <- throw_if (PointAndSolution.isNull v || Point.isNull (PointAndSolution.point v))
                    NullObjectException ;;
      _ <- throw_if (negb (PointAndSolution.dimension v =? d)%nat)
                    DifferentDimensionsException ;;
      check_vertices d vs'
  end.

(** A facet whose members are yet to be set: [normal_] starts empty, the
    two scalar members hold no meaningful value until the constructor
    sets them. *)
Definition uninitialized (d : nat) : t := Build d [] [] 0 false.

Definition assign_vertices (f : t) (vs : list (PointAndSolution.t Sol)) : t :=
  Build (spaceDimension_ f) vs (normal_ f)
        (localApproximationErrorUpperBound_ f) (isBoundaryFacet_ f).

(** [Facet(firstVertex, lastVertex, preferPositiveNormalVector)].  An
    empty range has no [firstVertex] to read the dimension from: the
    sources dereference the end of the range, which C++ leaves
    undefined. *)
Definition make (vertices : list (PointAndSolution.t Sol))
           (preferPositiveNormalVector : bool) : result t :=
  match vertices with
  | [] => Throw UndefinedBehaviour
  | firstVertex :: _ =>
      let f := uninitialized (PointAndSolution.dimension firstVertex) in
      _ <- c_assert (length vertices =? spaceDimension_ f)%nat ;;
      _ <- check_vertices (spaceDimension_ f) vertices ;;
      let f := assign_vertices f vertices in
      let f := computeAndSetFacetNormal f preferPositiveNormalVector in
      computeAndSetLocalApproximationErrorUpperBoundAndIsBoundaryFacet f
  end.

(** [Facet(firstVertex, lastVertex, firstElemOfFacetNormal,
    lastElemOfFacetNormal)]. *)
Definition make_with_normal (vertices : list (PointAndSolution.t Sol))
           (facetNormal : list float) : result t :=
  let f := uninitialized (length facetNormal) in
  _ <- c_assert (length vertices =? spaceDimension_ f)%nat ;;
  _ <- check_vertices (spaceDimension_ f) vertices ;;
  let f := assign_vertices f vertices in
  let f := set_normal f facetNormal in
  computeAndSetLocalApproximationErrorUpperBoundAndIsBoundaryFacet f.

End Facet.

Arguments Build {Sol}.
Arguments spaceDimension_ {Sol}.
Arguments vertices_ {Sol}.
Arguments normal_ {Sol}.
Arguments localApproximationErrorUpperBound_ {Sol}.
Arguments isBoundaryFacet_ {Sol}.
Arguments spaceDimension {Sol}.
Arguments isBoundaryFacet {Sol}.
Arguments getLocalApproximationErrorUpperBound {Sol}.
Arguments getNormalVector {Sol}.
Arguments reverseNormalVectorSign {Sol}.
Arguments hasAllNormalVectorElementsNonPositive {Sol}.
Arguments hasAllNormalVectorElementsNonNegative {Sol}.
Arguments computeLowerDistalPoint {Sol}.
Arguments ratioDistance {Sol}.
Arguments computeAndSetFacetNormal {Sol}.
Arguments computeAndSetLocalApproximationErrorUpperBoundAndIsBoundaryFacet {Sol}.
Arguments make {Sol}.
Arguments make_with_normal {Sol}.
End Facet.

(** ** What the properties of part two are stated with *)

(** The sum [((acc + a_0 x_0) + a_1 x_1) + ...] over the common length of
    [a] and [x], in index order, every product and every sum rounded. *)
Fixpoint accumulate (acc : float) (a x : list float) : float :=
  match a, x with
  | ai :: a', xi :: x' => accumulate (acc + ai * xi) a' x'
  | _, _ => acc
  end.

(** The dot product as the loops of the sources compute it, from [0.0]. *)
Definition rounded_dot (a x : list float) : float := accumulate 0 a x.

(** The real number that a finite double stands for. *)
Definition value (x : float) : option Q :=
  match Prim2SF x with
  | S754_zero _ => Some 0%Q
  | S754_finite s m e =>
      Some ((if s then - inject_Z (Zpos m) else inject_Z (Zpos m)) * Qpower 2 e)%Q
  | S754_infinity _ => None
  | S754_nan => None
  end.

(** The dot product of the real numbers that two vectors of finite
    doubles stand for, without rounding. *)
Fixpoint exact_dot (a x : list float) : option Q :=
  match a, x with
  | ai :: a', xi :: x' =>
      match value ai, value xi, exact_dot a' x' with
      | Some u, Some v, Some r => Some (u * v + r)%Q
      | _, _, _ => None
      end
  | _, _ => Some 0%Q
  end.

(** A double that is neither an infinity nor NaN. *)
Definition finite (x : float) : Prop := is_finite x = true.

(** The tests of one iteration of [operator==] and of [isParallel]. *)
Definition cross_scaled (h h' : Hyperplane.t) (k : nat) : bool :=
  nth k (Hyperplane.coefficients_ h) 0 * Hyperplane.b_ h'
  =? nth k (Hyperplane.coefficients_ h') 0 * Hyperplane.b_ h.

Definition cross_sloped (h h' : Hyperplane.t) (k : nat) : bool :=
  nth k (Hyperplane.coefficients_ h) 0 * nth 0 (Hyperplane.coefficients_ h') 0
  =? nth k (Hyperplane.coefficients_ h') 0 * nth 0 (Hyperplane.coefficients_ h) 0.

(** The coordinates of the point of the first vertex. *)
Definition first_vertex_point {Sol : Type} (f : Facet.t Sol) : list float :=
  match Facet.vertices_ f with
  | v0 :: _ => Point.coordinates (PointAndSolution.point v0)
  | [] => []
  end.

(** A facet of a space of at least one dimension with as many vertices,
    each of them a point of that space, and a normal vector of that
    space. *)
Definition well_formed {Sol : Type} (f : Facet.t Sol) : Prop :=
  (0 < Facet.spaceDimension f)%nat /\
  length (Facet.vertices_ f) = Facet.spaceDimension f /\
  length (Facet.normal_ f) = Facet.spaceDimension f /\
  Forall (fun v => PointAndSolution.dimension v = Facet.spaceDimension f)
         (Facet.vertices_ f).

(** What a constructed facet stores about its Lower Distal Point. *)
Definition bound_and_boundary {Sol : Type} (solve : arma.solver) (times : arma.product)
           (f : Facet.t Sol) : Prop :=
  let ldp := Facet.computeLowerDistalPoint solve times f in
  (Facet.isBoundaryFacet f = false <->
   exists x, ldp = Ok (Point.Coordinates x) /\
             Point.isStrictlyPositive (Point.Coordinates x) = true) /\
  (Facet.isBoundaryFacet f = false ->
   exists x r, ldp = Ok (Point.Coordinates x) /\
               Facet.ratioDistance f (Point.Coordinates x) = Ok r /\
               Facet.localApproximationErrorUpperBound_ f = r /\
               (r <? 0) = false) /\
  (forall x, ldp = Ok (Point.Coordinates x) ->
             Point.isStrictlyPositive (Point.Coordinates x) = false ->
             Facet.localApproximationErrorUpperBound_ f = -1) /\
  (ldp = Ok Point.Null -> Facet.localApproximationErrorUpperBound_ f = -2) /\
  (Facet.getLocalApproximationErrorUpperBound f = Throw BoundaryFacetException <->
   Facet.isBoundaryFacet f = true).

(** A vertex that the constructors of Facet accept in a space of [d]
    dimensions. *)
Definition valid_vertex {Sol : Type} (d : nat) (v : PointAndSolution.t Sol) : Prop :=
  PointAndSolution.isNull v = false /\
  Point.isNull (PointAndSolution.point v) = false /\
  PointAndSolution.dimension v = d.

(** A vertex without a solution to speak of: a point and the weights that
    produced it. *)
Definition vertex (p w : list float) : PointAndSolution.t unit :=
  PointAndSolution.Build false (Point.Coordinates p) tt w.

End Binary64.
(** * Properties of part one *)

(** ** Outcomes and comparisons *)

Lemma Qltb_lt (x y : Q) : Qltb x y = true <-> x < y.
Proof.
  unfold Qltb. rewrite Qlt_alt.
  destruct (x ?= y); split; congruence.
Qed.

Lemma Qltb_ge (x y : Q) : Qltb x y = false <-> y <= x.
Proof.
  split; intro H.
  - apply Qnot_lt_le. intro Hlt. apply Qltb_lt in Hlt. congruence.
  - destruct (Qltb x y) eqn:E; [|reflexivity].
    apply Qltb_lt in E. exfalso. lra.
Qed.

Lemma Qeq_bool_false (x y : Q) : Qeq_bool x y = false <-> ~ x == y.
Proof.
  split.
  - apply Qeq_bool_neq.
  - intro H. destruct (Qeq_bool x y) eqn:E; [|reflexivity].
    apply Qeq_bool_eq in E. contradiction.
Qed.

Lemma std_max_real_Qmax (x y : Q) : std_max_real x y == Qmax y x.
Proof.
  unfold std_max_real. destruct (Qltb x y) eqn:E.
  - apply Qltb_lt in E. rewrite Q.max_l; [reflexivity | lra].
  - apply Qltb_ge in E. rewrite Q.max_r; [reflexivity | assumption].
Qed.

Lemma std_max_real_nonneg (x : Q) : 0 <= std_max_real x 0.
Proof.
  unfold std_max_real. destruct (Qltb x 0) eqn:E.
  - lra.
  - now apply Qltb_ge in E.
Qed.

Lemma Point_get_ok (p : Point.t) (i : nat) :
  (i < Point.dimension p)%nat -> Point.get p i = Ok (nth i (Point.coordinates p) 0).
Proof.
  intro H. unfold Point.get.
  destruct (Nat.leb_spec (Point.dimension p) i); [lia | reflexivity].
Qed.

Lemma Hyperplane_get_ok (h : Hyperplane.t) (i : nat) :
  (i < Hyperplane.space_dimension h)%nat ->
  Hyperplane.get h i = Ok (nth i (Hyperplane.coefficients_ h) 0).
Proof.
  intro H. unfold Hyperplane.get.
  destruct (Nat.leb_spec (Hyperplane.space_dimension h) i); [lia | reflexivity].
Qed.

(** ** Lists *)

Lemma skipn_nth_cons (l : list Q) (i : nat) :
  (i < length l)%nat -> skipn i l = nth i l 0 :: skipn (S i) l.
Proof.
  revert i. induction l as [|x l IH]; intros i H; simpl in H; [lia|].
  destruct i as [|i]; [reflexivity|].
  simpl. apply IH. lia.
Qed.

(** ** The loop of operator== *)

Lemma eq_loop_spec (h h' : Hyperplane.t) :
  forall n i, (n + i = Hyperplane.space_dimension h')%nat ->
    Hyperplane.eq_loop n i h h' = Ok (forallb (cross_scaled h h') (seq i n)).
Proof.
  induction n as [|n IH]; intros i H; [reflexivity|].
  simpl. rewrite Hyperplane_get_ok by lia. simpl.
  unfold cross_scaled at 1, Hyperplane.b.
  destruct (Qeq_bool _ _); simpl; [apply IH; lia | reflexivity].
Qed.

(** ** Small facts about numbers and lists *)

(** Cancelling a non-zero factor. *)
Lemma Qmult_cancel_r (x y z : Q) : ~ z == 0 -> x * z == y * z -> x == y.
Proof.
  intros Hz H. apply (Qmult_inj_r x y z Hz). exact H.
Qed.

Lemma length_two (l : list Q) : length l = 2%nat -> exists x y, l = [x; y].
Proof.
  destruct l as [|x [|y [|z l]]]; simpl; intro H; try discriminate.
  exists x, y. reflexivity.
Qed.

(** ** The order of points and std::set<Point> *)







(** ** The constructors from points *)






(** ** The two-point constructor is symmetric *)



(** ** Facet::ratioDistance *)

Section FacetProperties.

Variable Sol : Type.
Variable solve : arma.solver.

Lemma ratio_loop_spec (f : Facet.t Sol) (p q : Point.t) :
  forall n i dp off,
    (n + i = length (Facet.normal_ f))%nat ->
    (n + i = Point.dimension p)%nat ->
    (n + i = Point.dimension q)%nat ->
    exists r, Facet.ratio_loop Sol n i f p q dp off = Ok r /\
              fst r == dp + dot (skipn i (Facet.normal_ f)) (skipn i (Point.coordinates p)) /\
              snd r == off + dot (skipn i (Facet.normal_ f)) (skipn i (Point.coordinates q)).
Proof.
  induction n as [|n IH]; intros i dp off Hn Hp Hq.
  - exists (dp, off). split; [reflexivity|].
    simpl in Hn. rewrite (skipn_all2 (Facet.normal_ f)) by lia.
    simpl. split; ring.
  - simpl. rewrite !Point_get_ok by lia. simpl.
    destruct (IH (S i) (dp + nth i (Facet.normal_ f) 0 * nth i (Point.coordinates p) 0)
                 (off + nth i (Facet.normal_ f) 0 * nth i (Point.coordinates q) 0))
      as [r [Hr [H1 H2]]]; [lia | lia | lia |].
    exists r. split; [exact Hr|].
    rewrite H1, H2.
    rewrite (skipn_nth_cons (Facet.normal_ f) i) by lia.
    rewrite (skipn_nth_cons (Point.coordinates p) i) by (unfold Point.dimension in Hp; lia).
    rewrite (skipn_nth_cons (Point.coordinates q) i) by (unfold Point.dimension in Hq; lia).
    simpl. split; ring.
Qed.

(** The outcome of [ratioDistance] once the three argument checks have
    passed. *)
Lemma Facet_ratioDistance_valid (f : Facet.t Sol) (p : Point.t) :
  well_formed f ->
  Point.isNull p = false ->
  Point.dimension p = Facet.spaceDimension f ->
  Point.isStrictlyPositive p = true ->
  exists dp off,
    dp == dot (Facet.normal_ f) (Point.coordinates p) /\
    off == dot (Facet.normal_ f) (first_vertex_point f) /\
    Facet.ratioDistance f p =
    if Qeq_bool dp off then Ok 0
    else if Qeq_bool dp 0 then Throw InfiniteRatioDistanceException
         else Ok (std_max_real ((off - dp) / dp) 0).
Proof.
  intros [Hpos [Hlen [Hnorm Hvs]]] Hnull Hdim Hsp.
  unfold Facet.ratioDistance, first_vertex_point.
  rewrite Hnull, Hdim, Nat.eqb_refl, Hsp. simpl throw_if. unfold bind at 1 2 3.
  apply Nat.ltb_lt in Hpos. rewrite Hpos. simpl c_assert. unfold bind at 1.
  apply Nat.ltb_lt in Hpos.
  destruct (Facet.vertices_ f) as [|v0 vs] eqn:Ev; [simpl in Hlen; lia|].
  inversion Hvs as [|? ? Hv0 _]; subst.
  destruct (ratio_loop_spec f p (PointAndSolution.point v0)
              (Facet.spaceDimension f) 0 0 0) as [r [Hr [H1 H2]]].
  { lia. } { lia. } { unfold PointAndSolution.dimension in Hv0. lia. }
  rewrite Hr. simpl bind.
  exists (fst r), (snd r). repeat split.
  - rewrite H1. simpl. ring.
  - rewrite H2. simpl. ring.
Qed.

(** ** The bound and the boundary flag of a constructed facet *)

Lemma bind_ok {A B : Type} (r : result A) (k : A -> result B) (b : B) :
  bind r k = Ok b -> exists a, r = Ok a /\ k a = Ok b.
Proof.
  destruct r as [a|e]; simpl; [|discriminate].
  intro H. exists a. split; [reflexivity | exact H].
Qed.

Lemma fill_W_b_ext (f f' : Facet.t Sol) :
  Facet.spaceDimension f = Facet.spaceDimension f' ->
  forall vs W b, Facet.fill_W_b Sol f vs W b = Facet.fill_W_b Sol f' vs W b.
Proof.
  intros Hd. induction vs as [|v vs IH]; intros W b; simpl; [reflexivity|].
  rewrite Hd. destruct (c_assert _); simpl; [apply IH | reflexivity].
Qed.

Lemma computeLowerDistalPoint_ext (f f' : Facet.t Sol) :
  Facet.spaceDimension f = Facet.spaceDimension f' ->
  Facet.vertices_ f = Facet.vertices_ f' ->
  Facet.computeLowerDistalPoint solve f = Facet.computeLowerDistalPoint solve f'.
Proof.
  intros Hd Hv. unfold Facet.computeLowerDistalPoint.
  rewrite Hv, (fill_W_b_ext f f' Hd). reflexivity.
Qed.

Lemma ratio_loop_ext (f f' : Facet.t Sol) (p q : Point.t) :
  Facet.normal_ f = Facet.normal_ f' ->
  forall n i dp off,
    Facet.ratio_loop Sol n i f p q dp off = Facet.ratio_loop Sol n i f' p q dp off.
Proof.
  intros Hn. induction n as [|n IH]; intros i dp off; simpl; [reflexivity|].
  destruct (Point.get p i); simpl; [|reflexivity].
  destruct (Point.get q i); simpl; [|reflexivity].
  rewrite Hn. apply IH.
Qed.

Lemma ratioDistance_ext (f f' : Facet.t Sol) (p : Point.t) :
  Facet.spaceDimension f = Facet.spaceDimension f' ->
  Facet.vertices_ f = Facet.vertices_ f' ->
  Facet.normal_ f = Facet.normal_ f' ->
  Facet.ratioDistance f p = Facet.ratioDistance f' p.
Proof.
  intros Hd Hv Hn. unfold Facet.ratioDistance.
  rewrite Hd, Hv.
  destruct (Facet.vertices_ f') as [|v0 vs]; [reflexivity|].
  rewrite (ratio_loop_ext f f' p _ Hn). reflexivity.
Qed.

(** Whatever [ratioDistance] returns is not negative. *)
Lemma ratioDistance_nonneg (f : Facet.t Sol) (p : Point.t) (r : Q) :
  Facet.ratioDistance f p = Ok r -> 0 <= r.
Proof.
  unfold Facet.ratioDistance. intro H.
  do 4 (apply bind_ok in H; destruct H as [_ [_ H]]).
  destruct (Facet.vertices_ f) as [|v0 vs]; [discriminate|].
  apply bind_ok in H. destruct H as [sums [_ H]].
  destruct (Qeq_bool (fst sums) (snd sums)).
  - injection H as <-. lra.
  - destruct (Qeq_bool (fst sums) 0); [discriminate|].
    injection H as <-. apply std_max_real_nonneg.
Qed.

Lemma getLocalApproximationErrorUpperBound_throws (f : Facet.t Sol) :
  Facet.getLocalApproximationErrorUpperBound f = Throw BoundaryFacetException <->
  Facet.isBoundaryFacet f = true.
Proof.
  unfold Facet.getLocalApproximationErrorUpperBound.
  destruct (Facet.isBoundaryFacet f); split; congruence.
Qed.

(** What the last step of both constructors establishes. *)
Lemma computeAndSet_spec (f0 f : Facet.t Sol) :
  Facet.computeAndSetLocalApproximationErrorUpperBoundAndIsBoundaryFacet solve f0 = Ok f ->
  bound_and_boundary solve f /\
  Facet.spaceDimension f = Facet.spaceDimension f0 /\
  Facet.vertices_ f = Facet.vertices_ f0 /\
  Facet.normal_ f = Facet.normal_ f0.
Proof.
  unfold Facet.computeAndSetLocalApproximationErrorUpperBoundAndIsBoundaryFacet.
  intro H. apply bind_ok in H. destruct H as [ldp [Hldp H]].
  destruct ldp as [|x]; simpl Point.isNull in H; cbv iota in H; simpl negb in H;
    cbv iota zeta in H.
  - (* no Lower Distal Point *)
    injection H as <-. split; [|auto].
    unfold bound_and_boundary. cbv zeta.
    rewrite (computeLowerDistalPoint_ext _ f0) by reflexivity. rewrite Hldp.
    split; [|split; [|split; [|split]]].
    + split; [discriminate | intros [x [Hx _]]; discriminate].
    + discriminate.
    + intros x Hx. discriminate.
    + reflexivity.
    + apply getLocalApproximationErrorUpperBound_throws.
  - destruct (Point.isStrictlyPositive (Point.Coordinates x)) eqn:Hsp.
    + (* a strictly positive Lower Distal Point *)
      apply bind_ok in H. destruct H as [r [Hr H]].
      injection H as <-. split; [|auto].
      unfold bound_and_boundary. cbv zeta.
      rewrite (computeLowerDistalPoint_ext _ f0) by reflexivity. rewrite Hldp.
      split; [|split; [|split; [|split]]].
      * split; [intros _; exists x; auto | reflexivity].
      * intros _. exists x, r. split; [reflexivity|]. split; [|split].
        -- rewrite <- Hr. apply ratioDistance_ext; reflexivity.
        -- reflexivity.
        -- apply (ratioDistance_nonneg _ _ _ Hr).
      * intros y Hy Hn. injection Hy as <-. congruence.
      * discriminate.
      * apply getLocalApproximationErrorUpperBound_throws.
    + (* a Lower Distal Point that is not strictly positive *)
      injection H as <-. split; [|auto].
      unfold bound_and_boundary. cbv zeta.
      rewrite (computeLowerDistalPoint_ext _ f0) by reflexivity. rewrite Hldp.
      split; [|split; [|split; [|split]]].
      * split; [discriminate | intros [y [Hy Hp]]; injection Hy as <-; congruence].
      * discriminate.
      * reflexivity.
      * discriminate.
      * apply getLocalApproximationErrorUpperBound_throws.
Qed.


(** ** The Lower Distal Point *)




End FacetProperties.

(** ** Cramer's rule meets the contract of the solver *)

Lemma vec_eq_cons (x y : Q) (l m : list Q) :
  arma.vec_eq (x :: l) (y :: m) <-> x == y /\ arma.vec_eq l m.
Proof.
  unfold arma.vec_eq. split.
  - intro H. inversion H; subst. auto.
  - intros [H1 H2]. constructor; assumption.
Qed.

Lemma vec_eq_nil : arma.vec_eq [] [].
Proof. constructor. Qed.

Lemma square_two (W : arma.mat) :
  arma.square 2 W -> exists a b c d, W = [[a; b]; [c; d]].
Proof.
  intros [Hl Hr].
  destruct W as [|r1 [|r2 [|r3 W]]]; simpl in Hl; try discriminate.
  inversion Hr as [|? ? H1 Hr']; subst. inversion Hr' as [|? ? H2 _]; subst.
  destruct (length_two r1 H1) as [a [b ->]].
  destruct (length_two r2 H2) as [c [d ->]].
  exists a, b, c, d. reflexivity.
Qed.

(** A system in two unknowns whose determinant is zero has no unique
    solution: a solution can be moved along a vector of the kernel. *)
Lemma singular_two (a b c d e f : Q) :
  a * d - b * c == 0 ->
  ~ exists x, arma.unique_solution [[a; b]; [c; d]] [e; f] x.
Proof.
  intros HD [x [Hl [Hx Hu]]].
  destruct (length_two x Hl) as [x1 [x2 ->]].
  unfold arma.mat_vec in Hx. simpl in Hx.
  apply vec_eq_cons in Hx. destruct Hx as [H1 Hx].
  apply vec_eq_cons in Hx. destruct Hx as [H2 _].
  assert (Hmove : forall k1 k2, a * k1 + b * k2 == 0 -> c * k1 + d * k2 == 0 ->
                                k1 == 0 /\ k2 == 0).
  { intros k1 k2 Hk1 Hk2.
    specialize (Hu [x1 + k1; x2 + k2] eq_refl).
    unfold arma.mat_vec in Hu. simpl in Hu.
    assert (Hy : arma.vec_eq [x1 + k1; x2 + k2] [x1; x2]).
    { apply Hu. apply vec_eq_cons. split; [lra|].
      apply vec_eq_cons. split; [lra | apply vec_eq_nil]. }
    apply vec_eq_cons in Hy. destruct Hy as [Hy1 Hy].
    apply vec_eq_cons in Hy. destruct Hy as [Hy2 _].
    split; lra. }
  destruct (Hmove d (- c)) as [Hd Hc]; [lra | lra |].
  destruct (Hmove b (- a)) as [Hb Ha]; [lra | lra |].
  destruct (Hmove 1 0) as [H10 _]; [lra | lra |].
  lra.
Qed.

Lemma cramer_solve_contract_2 : arma.solve_contract 2 arma.cramer_solve.
Proof.
  intros W rhs Hsq Hc.
  destruct (square_two W Hsq) as [a [b [c [d ->]]]].
  destruct (length_two rhs Hc) as [e [f ->]].
  unfold arma.cramer_solve.
  assert (HD : arma.det [[a; b]; [c; d]] == a * d - b * c).
  { unfold arma.det. simpl. unfold arma.sum. simpl. ring. }
  destruct (Qeq_bool (arma.det [[a; b]; [c; d]]) 0) eqn:E.
  - apply Qeq_bool_eq in E. apply singular_two. rewrite <- HD. exact E.
  - apply Qeq_bool_false in E. rewrite HD in E.
    unfold arma.det, arma.sum. simpl.
    split; [reflexivity|]. split.
    + unfold arma.mat_vec. simpl.
      apply vec_eq_cons. split; [field; lra|].
      apply vec_eq_cons. split; [field; lra | apply vec_eq_nil].
    + intros y Hl Hy.
      destruct (length_two y Hl) as [y1 [y2 ->]].
      unfold arma.mat_vec in Hy. simpl in Hy.
      apply vec_eq_cons in Hy. destruct Hy as [H1 Hy].
      apply vec_eq_cons in Hy. destruct Hy as [H2 _].
      set (s1 := a * y1 + (b * y2 + 0)) in *.
      set (s2 := c * y1 + (d * y2 + 0)) in *.
      apply vec_eq_cons. split; [|apply vec_eq_cons; split; [|apply vec_eq_nil]].
      * apply (Qmult_cancel_r _ _ (a * d - b * c) E).
        transitivity (d * s1 - b * s2); [unfold s1, s2; ring|].
        rewrite H1, H2. field. lra.
      * apply (Qmult_cancel_r _ _ (a * d - b * c) E).
        transitivity (a * s2 - c * s1); [unfold s1, s2; ring|].
        rewrite H1, H2. field. lra.
Qed.







(** ** What the constructors leave behind *)

Section FacetConstruction.

Variable Sol : Type.
Variable solve : arma.solver.

Lemma check_vertices_ok (d : nat) (vs : list (PointAndSolution.t Sol)) :
  Facet.check_vertices Sol d vs = Ok tt ->
  Forall (fun v => PointAndSolution.dimension v = d) vs.
Proof.
  induction vs as [|v vs IH]; simpl; intro H; [constructor|].
  apply bind_ok in H. destruct H as [u1 [_ H]].
  apply bind_ok in H. destruct H as [u2 [Hd H]].
  constructor; [|apply IH; exact H].
  unfold throw_if in Hd.
  destruct (Nat.eqb_spec (PointAndSolution.dimension v) d); [assumption | discriminate].
Qed.

Lemma set_nth_length (j : nat) (x : Q) (row : list Q) :
  length (arma.set_nth j x row) = length row.
Proof.
  revert j. induction row as [|y row IH]; intros [|j]; simpl; try reflexivity.
  rewrite IH. reflexivity.
Qed.

Lemma normal_loop_length (n : nat) :
  forall i M normal,
    length (Facet.normal_loop n i M normal) = (length normal + n)%nat.
Proof.
  induction n as [|n IH]; intros i M normal; simpl; [lia|].
  rewrite IH, length_app. simpl. lia.
Qed.

Lemma reverse_sign_length (l : list nat) :
  forall normal,
    length (fold_left (fun n i => arma.set_nth i (- nth i n 0) n) l normal)
    = length normal.
Proof.
  induction l as [|i l IH]; intro normal; simpl; [reflexivity|].
  rewrite IH, set_nth_length. reflexivity.
Qed.

Lemma computeAndSetFacetNormal_fields (f : Facet.t Sol) (prefer : bool) :
  let f' := Facet.computeAndSetFacetNormal f prefer in
  Facet.spaceDimension f' = Facet.spaceDimension f /\
  Facet.vertices_ f' = Facet.vertices_ f /\
  length (Facet.normal_ f') = (length (Facet.normal_ f) + Facet.spaceDimension f)%nat.
Proof.
  unfold Facet.computeAndSetFacetNormal.
  destruct (prefer && _); simpl; repeat split.
  - rewrite reverse_sign_length, normal_loop_length. reflexivity.
  - rewrite normal_loop_length. reflexivity.
Qed.

(** The first constructor returns well-formed facets only, with the
    vertices it was given and the normal vector it computed from them. *)
Lemma make_well_formed (vertices : list (PointAndSolution.t Sol)) (prefer : bool)
      (f : Facet.t Sol) :
  Facet.make solve vertices prefer = Ok f ->
  well_formed f /\
  Facet.vertices_ f = vertices /\
  Facet.normal_ f =
  Facet.normal_ (Facet.computeAndSetFacetNormal
                   (Facet.assign_vertices Sol (Facet.uninitialized Sol (length vertices))
                                          vertices) prefer).
Proof.
  unfold Facet.make. destruct vertices as [|v0 vs]; [discriminate|].
  cbv zeta. intro H.
  apply bind_ok in H. destruct H as [u1 [Hlen H]].
  apply bind_ok in H. destruct H as [[] [Hcheck H]].
  unfold c_assert in Hlen.
  change (Facet.spaceDimension_ (Facet.uninitialized Sol (PointAndSolution.dimension v0)))
    with (PointAndSolution.dimension v0) in *.
  destruct (Nat.eqb_spec (length (v0 :: vs)) (PointAndSolution.dimension v0))
    as [Hlen'|]; [|discriminate].
  rewrite <- Hlen' in H, Hcheck.
  set (f1 := Facet.assign_vertices Sol (Facet.uninitialized Sol (length (v0 :: vs)))
                                   (v0 :: vs)) in *.
  apply computeAndSet_spec in H. destruct H as [_ [Hd [Hv Hn]]].
  pose proof (computeAndSetFacetNormal_fields f1 prefer) as HF.
  cbv zeta in HF. destruct HF as [Fd [Fv Fn]].
  change (Facet.spaceDimension f1) with (length (v0 :: vs)) in Fd, Fn.
  change (Facet.vertices_ f1) with (v0 :: vs) in Fv.
  change (Facet.normal_ f1) with (@nil Q) in Fn.
  split; [|split].
  - unfold well_formed. rewrite Hd, Hv, Hn, Fd, Fv, Fn.
    split; [simpl; lia|]. split; [reflexivity|]. split; [reflexivity|].
    apply check_vertices_ok. exact Hcheck.
  - rewrite Hv, Fv. reflexivity.
  - exact Hn.
Qed.

End FacetConstruction.

(** ** Facets on collinear vertices *)

Section CollinearVertices.

Variable Sol : Type.
Variable solve : arma.solver.




End CollinearVertices.

(** ** The theorems on facets at work *)




(** * Further properties of Hyperplane *)

(** ** operator!= *)

Lemma neq_loop_spec (h h' : Hyperplane.t) :
  forall n i, (n + i = Hyperplane.space_dimension h')%nat ->
    Hyperplane.neq_loop n i h h' = Ok (negb (forallb (cross_scaled h h') (seq i n))).
Proof.
  induction n as [|n IH]; intros i H; [reflexivity|].
  simpl. rewrite Hyperplane_get_ok by lia. simpl.
  unfold cross_scaled at 1, Hyperplane.b.
  destruct (Qeq_bool _ _); simpl; [apply IH; lia | reflexivity].
Qed.

(** X1.  [operator!=], which has a loop of its own, never throws and answers
    the opposite of [operator==] on every pair of hyperplanes. *)
Theorem Hyperplane_neqb_negates_eqb (h h' : Hyperplane.t) :
  exists r, Hyperplane.eqb h h' = Ok r /\ Hyperplane.neqb h h' = Ok (negb r).
Proof.
  unfold Hyperplane.eqb, Hyperplane.neqb.
  destruct (Nat.eqb_spec (Hyperplane.space_dimension h) (Hyperplane.space_dimension h'))
    as [E|E]; simpl.
  - rewrite eq_loop_spec, neq_loop_spec by lia. eauto.
  - exists false. split; reflexivity.
Qed.

(** * Further properties of Facet *)

(** ** What the constructors accept *)

Section FacetValidation.

Variable Sol : Type.
Variable solve : arma.solver.

(** The validation loop passes exactly the ranges of valid vertices, and
    fails with one of two exceptions. *)
Lemma check_vertices_valid (d : nat) (vs : list (PointAndSolution.t Sol)) :
  (Facet.check_vertices Sol d vs = Ok tt <-> Forall (valid_vertex d) vs) /\
  (Facet.check_vertices Sol d vs = Ok tt \/
   Facet.check_vertices Sol d vs = Throw NullObjectException \/
   Facet.check_vertices Sol d vs = Throw DifferentDimensionsException).
Proof.
  induction vs as [|v vs [IH1 IH2]]; simpl.
  - split; [split; [constructor | reflexivity] | left; reflexivity].
  - unfold valid_vertex at 1.
    destruct (PointAndSolution.isNull v) eqn:En; simpl.
    { split; [|right; left; reflexivity].
      split; [discriminate|]. intro H. inversion H as [|? ? Hv _].
      destruct Hv as [Hv1 [Hv2 Hv3]]. congruence. }
    destruct (Point.isNull (PointAndSolution.point v)) eqn:Ep; simpl.
    { split; [|right; left; reflexivity].
      split; [discriminate|]. intro H. inversion H as [|? ? Hv _].
      destruct Hv as [Hv1 [Hv2 Hv3]]. congruence. }
    destruct (Nat.eqb_spec (PointAndSolution.dimension v) d) as [Ed|Ed]; simpl.
    + split; [|exact IH2].
      rewrite IH1. split.
      * intro H. constructor; [auto | exact H].
      * intro H. inversion H; assumption.
    + split; [|right; right; reflexivity].
      split; [discriminate|]. intro H. inversion H as [|? ? Hv _].
      destruct Hv as [Hv1 [Hv2 Hv3]]. contradiction.
Qed.

(** X13.  Every facet that a constructor returns has the vertices it was given,
    as many as the space has dimensions (at least one for the
    compute-normal constructor), each of them non-null with a non-null
    point of that dimension, and a normal vector of that many elements;
    the supplied-normal constructor stores the normal it was given.  When
    the number of vertices is right and some vertex is not valid, the
    constructor throws NullObjectException or
    DifferentDimensionsException. *)
Theorem Facet_constructors_validate :
  (forall (vertices : list (PointAndSolution.t Sol)) (prefer : bool) (f : Facet.t Sol),
     Facet.make solve vertices prefer = Ok f ->
     (0 < Facet.spaceDimension f)%nat /\
     Facet.vertices_ f = vertices /\
     length vertices = Facet.spaceDimension f /\
     length (Facet.getNormalVector f) = Facet.spaceDimension f /\
     Forall (valid_vertex (Facet.spaceDimension f)) vertices) /\
  (forall (vertices : list (PointAndSolution.t Sol)) (facetNormal : list Q) (f : Facet.t Sol),
     Facet.make_with_normal solve vertices facetNormal = Ok f ->
     Facet.spaceDimension f = length facetNormal /\
     Facet.vertices_ f = vertices /\
     length vertices = Facet.spaceDimension f /\
     Facet.getNormalVector f = facetNormal /\
     Forall (valid_vertex (Facet.spaceDimension f)) vertices) /\
  (forall (vertices : list (PointAndSolution.t Sol)) (facetNormal : list Q),
     length vertices = length facetNormal ->
     ~ Forall (valid_vertex (length facetNormal)) vertices ->
     Facet.make_with_normal solve vertices facetNormal = Throw NullObjectException \/
     Facet.make_with_normal solve vertices facetNormal = Throw DifferentDimensionsException).
Proof.
  split; [|split].
  - intros vertices prefer f H.
    destruct (make_well_formed Sol solve _ _ _ H) as [[Hpos [Hlen [Hn _]]] [Hv _]].
    unfold Facet.make in H. destruct vertices as [|v0 vs]; [discriminate|].
    cbv zeta in H.
    apply bind_ok in H. destruct H as [u1 [_ H]].
    apply bind_ok in H. destruct H as [[] [Hcheck H]].
    apply computeAndSet_spec in H. destruct H as [_ [Hd _]].
    apply check_vertices_valid in Hcheck.
    rewrite Hv in Hlen.
    repeat split; try assumption.
    rewrite Hd.
    destruct (computeAndSetFacetNormal_fields Sol
                (Facet.assign_vertices Sol
                   (Facet.uninitialized Sol (PointAndSolution.dimension v0)) (v0 :: vs))
                prefer) as [Fd _].
    rewrite Fd. exact Hcheck.
  - intros vertices facetNormal f H.
    unfold Facet.make_with_normal in H. cbv zeta in H.
    apply bind_ok in H. destruct H as [u1 [Hlen H]].
    apply bind_ok in H. destruct H as [[] [Hcheck H]].
    apply computeAndSet_spec in H. destruct H as [_ [Hd [Hv Hn]]].
    simpl in Hlen, Hcheck, Hd, Hv, Hn.
    unfold c_assert in Hlen.
    destruct (Nat.eqb_spec (length vertices) (length facetNormal)) as [Hlen'|]; [|discriminate].
    apply check_vertices_valid in Hcheck.
    unfold Facet.getNormalVector. rewrite Hd.
    repeat split; assumption.
  - intros vertices facetNormal Hlen Hbad.
    unfold Facet.make_with_normal. cbv zeta. simpl Facet.spaceDimension_.
    rewrite Hlen, Nat.eqb_refl. simpl c_assert. unfold bind at 1.
    destruct (check_vertices_valid (length facetNormal) vertices) as [Hiff [Hok|[Hnull|Hdim]]].
    + exfalso. apply Hbad. apply Hiff. exact Hok.
    + rewrite Hnull. left. reflexivity.
    + rewrite Hdim. right. reflexivity.
Qed.

End FacetValidation.

(** X13, witness. *)
Lemma Facet_constructors_validate_witness :
  exists f, Facet.make arma.cramer_solve simplex_vertices true = Ok f /\
            Facet.vertices_ f = simplex_vertices /\
            length (Facet.getNormalVector f) = 3%nat /\
            Forall (valid_vertex 3) simplex_vertices.
Proof.
  eexists. split; [vm_compute; reflexivity|].
  match goal with |- Facet.vertices_ ?f = _ /\ _ =>
    destruct (proj1 (Facet_constructors_validate unit arma.cramer_solve)
                simplex_vertices true f) as [_ [Hv [_ [Hn Hvalid]]]]
  end.
  - vm_compute. reflexivity.
  - repeat split; assumption.
Defined.

(** ** The sign of the normal vector *)

Lemma set_nth_middle (pre : list Q) (x y : Q) (rest : list Q) :
  arma.set_nth (length pre) y (pre ++ x :: rest) = pre ++ y :: rest.
Proof.
  induction pre as [|z pre IH]; simpl; [reflexivity|].
  rewrite IH. reflexivity.
Qed.

Lemma reverse_sign_from (rest : list Q) :
  forall pre,
    fold_left (fun n i => arma.set_nth i (- nth i n 0) n)
              (seq (length pre) (length rest)) (pre ++ rest)
    = pre ++ map Qopp rest.
Proof.
  induction rest as [|x rest IH]; intro pre; simpl; [reflexivity|].
  rewrite nth_middle, set_nth_middle.
  change (pre ++ - x :: rest) with (pre ++ [- x] ++ rest).
  rewrite app_assoc.
  replace (S (length pre)) with (length (pre ++ [- x]))
    by (rewrite length_app; simpl; lia).
  rewrite IH, <- app_assoc. reflexivity.
Qed.

Section NormalSign.

Variable Sol : Type.

(** On a facet whose normal has as many elements as the space has
    dimensions, the loop of [reverseNormalVectorSign] negates every
    element. *)
Lemma reverseNormalVectorSign_map (f : Facet.t Sol) :
  length (Facet.normal_ f) = Facet.spaceDimension f ->
  Facet.reverseNormalVectorSign f = Facet.set_normal Sol f (map Qopp (Facet.normal_ f)).
Proof.
  intro Hl. unfold Facet.reverseNormalVectorSign. f_equal.
  rewrite <- Hl. apply (reverse_sign_from (Facet.normal_ f) []).
Qed.

Lemma Qopp_opp (x : Q) : - - x = x.
Proof.
  destruct x as [n d]. unfold Qopp. simpl. rewrite Z.opp_involutive. reflexivity.
Qed.

Lemma forallb_ext_on (A : Type) (g g' : A -> bool) (l : list A) :
  (forall x, In x l -> g x = g' x) -> forallb g l = forallb g' l.
Proof.
  induction l as [|x l IH]; intro H; simpl; [reflexivity|].
  rewrite (H x) by (left; reflexivity).
  rewrite IH by (intros y Hy; apply H; right; exact Hy). reflexivity.
Qed.

Lemma Qltb_opp (x : Q) : Qltb (- x) 0 = Qltb 0 x /\ Qltb 0 (- x) = Qltb x 0.
Proof.
  split; apply eq_true_iff_eq; rewrite !Qltb_lt; split; intro H; lra.
Qed.


(** X14.  [reverseNormalVectorSign] negates the normal element by element
    and changes nothing else: the space dimension, the vertices, the
    stored bound and the boundary flag stay as they were; applied twice it
    gives the facet back; and it turns a normal without positive elements
    into one without negative elements, and the other way round. *)
Theorem Facet_reverseNormalVectorSign_spec (f : Facet.t Sol) :
  length (Facet.normal_ f) = Facet.spaceDimension f ->
  let f' := Facet.reverseNormalVectorSign f in
  Facet.getNormalVector f' = map Qopp (Facet.getNormalVector f) /\
  Facet.spaceDimension f' = Facet.spaceDimension f /\
  Facet.vertices_ f' = Facet.vertices_ f /\
  Facet.localApproximationErrorUpperBound_ f' = Facet.localApproximationErrorUpperBound_ f /\
  Facet.isBoundaryFacet f' = Facet.isBoundaryFacet f /\
  Facet.reverseNormalVectorSign f' = f /\
  Facet.hasAllNormalVectorElementsNonNegative f'
  = Facet.hasAllNormalVectorElementsNonPositive f /\
  Facet.hasAllNormalVectorElementsNonPositive f'
  = Facet.hasAllNormalVectorElementsNonNegative f.
Proof.
  intros Hl f'.
  assert (Hf' : f' = Facet.set_normal Sol f (map Qopp (Facet.normal_ f)))
    by (apply reverseNormalVectorSign_map; exact Hl).
  assert (Hn : Facet.normal_ f' = map Qopp (Facet.normal_ f))
    by (rewrite Hf'; reflexivity).
  assert (Hl' : length (Facet.normal_ f') = Facet.spaceDimension f')
    by (rewrite Hf'; simpl; rewrite length_map; exact Hl).
  split; [exact Hn|].
  split; [rewrite Hf'; reflexivity|].
  split; [rewrite Hf'; reflexivity|].
  split; [rewrite Hf'; reflexivity|].
  split; [rewrite Hf'; reflexivity|].
  split.
  - rewrite (reverseNormalVectorSign_map f' Hl'), Hf'.
    destruct f as [d vs n e b]. unfold Facet.set_normal. simpl.
    rewrite map_map.
    rewrite (map_ext _ (fun x => x)) by (intro; apply Qopp_opp).
    rewrite map_id. reflexivity.
  - unfold Facet.hasAllNormalVectorElementsNonNegative,
      Facet.hasAllNormalVectorElementsNonPositive.
    replace (Facet.spaceDimension f') with (Facet.spaceDimension f)
      by (rewrite Hf'; reflexivity).
    rewrite Hn. split; apply forallb_ext_on; intros i Hi; apply in_seq in Hi;
      (rewrite (nth_indep _ 0 (- 0)) by (rewrite length_map; lia));
      rewrite map_nth; f_equal; apply Qltb_opp.
Qed.

End NormalSign.

(** X14, witness. *)
Lemma Facet_reverseNormalVectorSign_spec_witness :
  exists f, Facet.make arma.cramer_solve simplex_vertices false = Ok f /\
            Facet.vertices_ (Facet.reverseNormalVectorSign f) = Facet.vertices_ f /\
            Facet.isBoundaryFacet (Facet.reverseNormalVectorSign f) = Facet.isBoundaryFacet f /\
            Facet.reverseNormalVectorSign (Facet.reverseNormalVectorSign f) = f /\
            Facet.hasAllNormalVectorElementsNonNegative (Facet.reverseNormalVectorSign f)
            = Facet.hasAllNormalVectorElementsNonPositive f.
Proof.
  eexists. split; [vm_compute; reflexivity|].
  match goal with |- Facet.vertices_ (Facet.reverseNormalVectorSign ?f) = _ /\ _ =>
    destruct (Facet_reverseNormalVectorSign_spec unit f eq_refl)
      as [_ [_ [Hv [_ [Hb [H1 [H2 _]]]]]]]
  end.
  repeat split; assumption.
Defined.

Section NormalOrientation.

Variable Sol : Type.
Variable solve : arma.solver.


Lemma dot_opp (n x : list Q) : dot (map Qopp n) x == - dot n x.
Proof.
  revert x. induction n as [|a n IH]; intros [|xi x]; simpl; try ring.
  rewrite IH. ring.
Qed.

Lemma reverse_well_formed (f : Facet.t Sol) :
  well_formed f -> well_formed (Facet.reverseNormalVectorSign f).
Proof.
  intros [H1 [H2 [H3 H4]]].
  rewrite (reverseNormalVectorSign_map Sol f H3).
  unfold well_formed. simpl. rewrite length_map. auto.
Qed.

(** X16.  [ratioDistance] does not depend on the orientation of the normal
    vector: on the facet with the reversed normal it throws the same
    exception or returns the same distance. *)
Theorem Facet_ratioDistance_orientation (f : Facet.t Sol) (p : Point.t) :
  well_formed f ->
  match Facet.ratioDistance f p, Facet.ratioDistance (Facet.reverseNormalVectorSign f) p with
  | Ok r, Ok r' => r == r'
  | Throw e, Throw e' => e = e'
  | _, _ => False
  end.
Proof.
  intro Hwf.
  pose proof (reverse_well_formed f Hwf) as Hwf'.
  assert (Hf' : Facet.reverseNormalVectorSign f
                = Facet.set_normal Sol f (map Qopp (Facet.normal_ f))).
  { apply reverseNormalVectorSign_map. apply Hwf. }
  set (f' := Facet.reverseNormalVectorSign f) in *.
  assert (Hd : Facet.spaceDimension f' = Facet.spaceDimension f)
    by (rewrite Hf'; reflexivity).
  destruct (Point.isNull p) eqn:En.
  { unfold Facet.ratioDistance. rewrite En. reflexivity. }
  destruct (Nat.eq_dec (Point.dimension p) (Facet.spaceDimension f)) as [Ed|Ed].
  2:{ unfold Facet.ratioDistance. rewrite En, Hd. simpl.
      apply Nat.neq_sym, Nat.eqb_neq in Ed. rewrite Ed. reflexivity. }
  destruct (Point.isStrictlyPositive p) eqn:Es.
  2:{ unfold Facet.ratioDistance. rewrite En, Hd, Ed, Nat.eqb_refl, Es. reflexivity. }
  destruct (Facet_ratioDistance_valid Sol f p Hwf En Ed Es) as [dp [off [Hdp [Hoff Hr]]]].
  destruct (Facet_ratioDistance_valid Sol f' p Hwf' En ltac:(congruence) Es)
    as [dp' [off' [Hdp' [Hoff' Hr']]]].
  assert (Hdp2 : dp' == - dp).
  { rewrite Hdp', Hdp, Hf'. simpl. apply dot_opp. }
  assert (Hoff2 : off' == - off).
  { rewrite Hoff', Hoff, Hf'. unfold first_vertex_point. simpl. apply dot_opp. }
  rewrite Hr, Hr'.
  destruct (Qeq_bool dp off) eqn:E1.
  - apply Qeq_bool_eq in E1.
    rewrite (Qeq_eq_bool dp' off') by (rewrite Hdp2, Hoff2, E1; reflexivity).
    reflexivity.
  - apply Qeq_bool_false in E1.
    rewrite (proj2 (Qeq_bool_false dp' off'))
      by (rewrite Hdp2, Hoff2; intro E; apply E1; lra).
    destruct (Qeq_bool dp 0) eqn:E2.
    + apply Qeq_bool_eq in E2.
      rewrite (Qeq_eq_bool dp' 0) by (rewrite Hdp2, E2; reflexivity).
      reflexivity.
    + apply Qeq_bool_false in E2.
      rewrite (proj2 (Qeq_bool_false dp' 0)) by (rewrite Hdp2; intro E; apply E2; lra).
      rewrite !std_max_real_Qmax.
      setoid_replace ((off' - dp') / dp') with ((off - dp) / dp); [reflexivity|].
      rewrite Hdp2, Hoff2. field. exact E2.
Qed.

End NormalOrientation.


(** X16, witness. *)
Lemma Facet_ratioDistance_orientation_witness :
  let f := Facet.Build 3 simplex_vertices [9801; 9801; 9801] 33 false in
  well_formed f /\
  match Facet.ratioDistance f (Point.Coordinates [1; 1; 1]),
        Facet.ratioDistance (Facet.reverseNormalVectorSign f) (Point.Coordinates [1; 1; 1]) with
  | Ok r, Ok r' => r == r'
  | Throw e, Throw e' => e = e'
  | _, _ => False
  end.
Proof.
  intro f.
  assert (Hwf : well_formed f).
  { unfold well_formed. simpl. repeat split; try lia. repeat constructor. }
  split; [exact Hwf|].
  exact (Facet_ratioDistance_orientation unit f (Point.Coordinates [1; 1; 1]) Hwf).
Defined.

(** ** The order of the vertices and the Lower Distal Point *)

Section VertexOrder.

Variable Sol : Type.
Variable solve : arma.solver.




End VertexOrder.



(** * Properties of part two *)

Local Open Scope float_scope.

(** ** Binary64 numbers *)

(** Comparing the other way round gives the opposite answer. *)
Lemma SFcompare_swap (x y : spec_float) :
  SFcompare y x = match SFcompare x y with
                  | Some c => Some (CompOpp c)
                  | None => None
                  end.
Proof.
  destruct x as [sx|sx| |sx mx ex], y as [sy|sy| |sy my ey]; simpl;
    try reflexivity;
    try (destruct sx; reflexivity); try (destruct sy; reflexivity);
    try (destruct sx, sy; reflexivity).
  assert (E : Pos.compare_cont Eq my mx = CompOpp (Pos.compare_cont Eq mx my))
    by (symmetry; apply (Pos.compare_cont_antisym mx my Eq)).
  destruct sx, sy; try reflexivity.
  - rewrite (Z.compare_antisym ex ey), E.
    destruct (ex ?= ey)%Z; simpl; try reflexivity.
  - rewrite (Z.compare_antisym ex ey), E.
    destruct (ex ?= ey)%Z; simpl; reflexivity.
Qed.

(** [x == y] and [y == x] are one test. *)
Lemma eqb_sym (x y : float) : (x =? y) = (y =? x).
Proof.
  rewrite !eqb_spec. unfold SFeqb.
  rewrite (SFcompare_swap (Prim2SF y) (Prim2SF x)).
  destruct (SFcompare (Prim2SF y) (Prim2SF x)) as [[| |]|]; reflexivity.
Qed.

(** A double equals itself unless it is NaN. *)
Lemma eqb_refl_iff (x : float) : (x =? x) = true <-> is_nan x = false.
Proof.
  unfold is_nan. destruct (x =? x); simpl; split; congruence.
Qed.

Lemma SFeqb_refl (s : spec_float) : s <> S754_nan -> SFeqb s s = true.
Proof.
  intro H. destruct s as [sx|sx| |sx mx ex]; unfold SFeqb; simpl.
  - reflexivity.
  - destruct sx; reflexivity.
  - contradiction.
  - rewrite Z.compare_refl, Pos.compare_cont_refl. destruct sx; reflexivity.
Qed.

Lemma is_nan_Prim2SF (x : float) : Prim2SF x <> S754_nan -> is_nan x = false.
Proof.
  intro H. unfold is_nan. rewrite eqb_spec, SFeqb_refl by exact H. reflexivity.
Qed.

(** A finite double is a zero or has a sign, a mantissa and an exponent. *)
Lemma finite_cases (x : float) :
  Binary64.finite x ->
  (exists s, Prim2SF x = S754_zero s) \/ (exists s m e, Prim2SF x = S754_finite s m e).
Proof.
  unfold Binary64.finite, is_finite, is_nan, is_infinity.
  rewrite !eqb_spec, abs_spec. intro H.
  destruct (Prim2SF x) as [s|s| |s m e] eqn:E.
  - left. eauto.
  - exfalso. simpl in H. rewrite orb_true_r in H. discriminate.
  - exfalso. simpl in H. discriminate.
  - right. eauto.
Qed.

(** Rounding a mantissa that is not negative does not produce NaN. *)
Lemma shr_1_nonneg (mrs : shr_record) :
  (0 <= shr_m mrs)%Z -> (0 <= shr_m (shr_1 mrs))%Z.
Proof.
  destruct mrs as [m r s]. simpl.
  destruct m as [|p|p]; [| destruct p | ]; simpl; lia.
Qed.

Lemma iter_shr_1_nonneg (p : positive) :
  forall mrs, (0 <= shr_m mrs)%Z -> (0 <= shr_m (iter_pos shr_1 p mrs))%Z.
Proof.
  induction p as [p IH|p IH|]; intros mrs H; simpl.
  - apply IH, IH, shr_1_nonneg, H.
  - apply IH, IH, H.
  - apply shr_1_nonneg, H.
Qed.

Lemma shr_fexp_nonneg (m e : Z) (l : location) :
  (0 <= m)%Z -> (0 <= shr_m (fst (shr_fexp prec emax m e l)))%Z.
Proof.
  intro H. unfold shr_fexp, shr.
  assert (H0 : (0 <= shr_m (shr_record_of_loc m l))%Z)
    by (destruct l as [|[| |]]; exact H).
  destruct (fexp prec emax (Zdigits2 m + e) - e)%Z; simpl; try exact H0.
  apply iter_shr_1_nonneg, H0.
Qed.

Lemma round_nearest_even_nonneg (m : Z) (l : location) :
  (0 <= m)%Z -> (0 <= round_nearest_even m l)%Z.
Proof.
  intro H. destruct l as [|[| |]]; simpl; try lia.
  destruct (Z.even m); lia.
Qed.

Lemma binary_round_aux_not_nan (s : bool) (m e : Z) (l : location) :
  (0 <= m)%Z -> binary_round_aux prec emax s m e l <> S754_nan.
Proof.
  intro H. unfold binary_round_aux.
  pose proof (shr_fexp_nonneg m e l H) as H1.
  destruct (shr_fexp prec emax m e l) as [mrs' e']. simpl in H1.
  pose proof (shr_fexp_nonneg _ e' loc_Exact
                (round_nearest_even_nonneg _ (loc_of_shr_record mrs') H1)) as H2.
  destruct (shr_fexp prec emax _ e' loc_Exact) as [mrs'' e'']. simpl in H2.
  destruct (shr_m mrs'') as [|p|p].
  - discriminate.
  - destruct (e'' <=? emax - prec)%Z; discriminate.
  - lia.
Qed.

(** The product of two finite doubles is a number or an infinity. *)
Lemma mul_finite_not_nan (x y : float) :
  Binary64.finite x -> Binary64.finite y -> is_nan (x * y) = false.
Proof.
  intros Hx Hy. apply is_nan_Prim2SF. rewrite mul_spec.
  destruct (finite_cases x Hx) as [[sx ->]|[sx [mx [ex ->]]]];
    destruct (finite_cases y Hy) as [[sy ->]|[sy [my [ey ->]]]];
    try discriminate.
  apply binary_round_aux_not_nan. lia.
Qed.

(** [std::max(x, 0.0)] is never less than zero: it is [0.0], a greater
    number, or the NaN it was given. *)
Lemma std_max_not_less (x : float) : (Binary64.std_max x 0 <? 0) = false.
Proof.
  unfold Binary64.std_max. destruct (x <? 0) eqn:E; [reflexivity | exact E].
Qed.

(** The quotients by the positive zero. *)
Lemma div_zero_positive (b : float) : (0 <? b) = true -> (b - 0) / 0 = infinity.
Proof.
  rewrite ltb_spec. intro H. apply Prim2SF_inj.
  rewrite div_spec, sub_spec.
  change (Prim2SF 0) with (S754_zero false) in *.
  change (Prim2SF infinity) with (S754_infinity false).
  destruct (Prim2SF b) as [s|s| |s m e]; try discriminate;
    destruct s; try discriminate; reflexivity.
Qed.

Lemma div_zero_negative (b : float) : (b <? 0) = true -> (b - 0) / 0 = neg_infinity.
Proof.
  rewrite ltb_spec. intro H. apply Prim2SF_inj.
  rewrite div_spec, sub_spec.
  change (Prim2SF 0) with (S754_zero false) in *.
  change (Prim2SF neg_infinity) with (S754_infinity true).
  destruct (Prim2SF b) as [s|s| |s m e]; try discriminate;
    destruct s; try discriminate; reflexivity.
Qed.

Lemma div_zero_zero (b : float) : (b =? 0) = true -> (b - 0) / 0 = nan.
Proof.
  rewrite eqb_spec. intro H. apply Prim2SF_inj.
  rewrite div_spec, sub_spec.
  change (Prim2SF 0) with (S754_zero false) in *.
  change (Prim2SF nan) with S754_nan.
  destruct (Prim2SF b) as [s|s| |s m e]; try discriminate;
    destruct s; try discriminate; reflexivity.
Qed.

(** The doubles that equal zero are the two zeros. *)
Lemma eqb_zero_cases (x : float) : (x =? 0) = true -> x = 0 \/ x = neg_zero.
Proof.
  rewrite eqb_spec. intro H.
  change (Prim2SF 0) with (S754_zero false) in H.
  destruct (Prim2SF x) as [s|s| |s m e] eqn:E; try discriminate.
  - destruct s; [right | left]; apply Prim2SF_inj; rewrite E; reflexivity.
  - destruct s; discriminate.
  - destruct s; discriminate.
Qed.

(** A finite double minus itself is the positive zero. *)
Lemma sub_self (x : float) : Binary64.finite x -> x - x = 0.
Proof.
  intro Hx. apply Prim2SF_inj. rewrite sub_spec.
  change (Prim2SF 0) with (S754_zero false).
  destruct (finite_cases x Hx) as [[s ->]|[s [m [e ->]]]].
  - destruct s; reflexivity.
  - unfold SF64sub, SFsub. rewrite Z.min_id.
    rewrite Z.sub_diag. reflexivity.
Qed.

(** Zero by a finite double that is not zero is a zero. *)
Lemma zero_div (x : float) :
  Binary64.finite x -> (x =? 0) = false -> 0 / x = 0 \/ 0 / x = neg_zero.
Proof.
  intros Hx Hz. rewrite eqb_spec in Hz.
  change (Prim2SF 0) with (S754_zero false) in Hz.
  destruct (finite_cases x Hx) as [[s E]|[s [m [e E]]]]; rewrite E in Hz.
  - discriminate.
  - destruct s; [right | left]; apply Prim2SF_inj; rewrite div_spec, E; reflexivity.
Qed.

(** Two doubles that are equal, finite and not zero are one double. *)
Lemma eqb_finite_eq (x y : float) :
  Binary64.finite y -> (y =? 0) = false -> (x =? y) = true -> x = y.
Proof.
  intros Hy Hz H. rewrite eqb_spec in H, Hz.
  change (Prim2SF 0) with (S754_zero false) in Hz.
  apply Prim2SF_inj.
  destruct (finite_cases y Hy) as [[s E]|[s [m [e E]]]]; rewrite E in *.
  - discriminate.
  - unfold SFeqb in H.
    destruct (Prim2SF x) as [sx|sx| |sx mx ex]; simpl in H;
      try discriminate; try (destruct sx, s; discriminate).
    destruct sx, s; try discriminate;
      destruct (Z.compare_spec ex e) as [Ee|Ee|Ee]; try discriminate; subst;
      destruct (Pos.compare_cont Eq mx m) eqn:Em; try discriminate;
      apply Pos.compare_eq in Em; subst; reflexivity.
Qed.

(** [std::max((x - x) / x, 0.0)] is zero for a finite [x] that is not. *)
Lemma std_max_sub_self (x : float) :
  Binary64.finite x -> (x =? 0) = false ->
  (Binary64.std_max ((x - x) / x) 0 =? 0) = true.
Proof.
  intros Hx Hz. rewrite (sub_self x Hx).
  destruct (zero_div x Hx Hz) as [-> | ->]; reflexivity.
Qed.

(** ** Accessors and accumulation *)

Lemma Point64_get_ok (p : Binary64.Point.t) (i : nat) :
  (i < Binary64.Point.dimension p)%nat ->
  Binary64.Point.get p i = Ok (nth i (Binary64.Point.coordinates p) 0).
Proof.
  intro H. unfold Binary64.Point.get.
  destruct (Nat.leb_spec (Binary64.Point.dimension p) i); [lia | reflexivity].
Qed.

Lemma Point64_get_out (p : Binary64.Point.t) (i : nat) :
  (Binary64.Point.dimension p <= i)%nat ->
  Binary64.Point.get p i = Throw NonExistentCoordinateException.
Proof.
  intro H. unfold Binary64.Point.get.
  destruct (Nat.leb_spec (Binary64.Point.dimension p) i); [reflexivity | lia].
Qed.

Lemma Hyperplane64_get_ok (h : Binary64.Hyperplane.t) (i : nat) :
  (i < Binary64.Hyperplane.space_dimension h)%nat ->
  Binary64.Hyperplane.get h i = Ok (nth i (Binary64.Hyperplane.coefficients_ h) 0).
Proof.
  intro H. unfold Binary64.Hyperplane.get.
  destruct (Nat.leb_spec (Binary64.Hyperplane.space_dimension h) i); [lia | reflexivity].
Qed.

Lemma skipn_nth_float (l : list float) (i : nat) :
  (i < length l)%nat -> skipn i l = nth i l 0 :: skipn (S i) l.
Proof.
  revert i. induction l as [|x l IH]; intros i H; simpl in H; [lia|].
  destruct i as [|i]; [reflexivity|].
  simpl. apply IH. lia.
Qed.

(** The accumulation loop of [Hyperplane] computes [accumulate] over what
    is left of the coefficients and as many coordinates. *)
Lemma dot_loop64_spec (h : Binary64.Hyperplane.t) (p : Binary64.Point.t) :
  forall n i acc,
    (n + i = Binary64.Hyperplane.space_dimension h)%nat ->
    (n + i <= Binary64.Point.dimension p)%nat ->
    Binary64.Hyperplane.dot_loop n i h p acc
    = Ok (Binary64.accumulate acc (skipn i (Binary64.Hyperplane.coefficients_ h))
                              (skipn i (Binary64.Point.coordinates p))).
Proof.
  induction n as [|n IH]; intros i acc Hh Hp.
  - simpl in Hh. simpl.
    rewrite (skipn_all2 (Binary64.Hyperplane.coefficients_ h))
      by (unfold Binary64.Hyperplane.space_dimension in Hh; lia).
    reflexivity.
  - simpl. rewrite Point64_get_ok by lia. simpl.
    rewrite IH by lia.
    rewrite (skipn_nth_float (Binary64.Hyperplane.coefficients_ h) i)
      by (unfold Binary64.Hyperplane.space_dimension in Hh; lia).
    rewrite (skipn_nth_float (Binary64.Point.coordinates p) i)
      by (unfold Binary64.Point.dimension in Hp; lia).
    reflexivity.
Qed.

(** On a point with too few coordinates the loop runs into
    [Point::operator[]]. *)
Lemma dot_loop64_short (h : Binary64.Hyperplane.t) (p : Binary64.Point.t) :
  forall n i acc,
    (i <= Binary64.Point.dimension p)%nat ->
    (Binary64.Point.dimension p < n + i)%nat ->
    Binary64.Hyperplane.dot_loop n i h p acc = Throw NonExistentCoordinateException.
Proof.
  induction n as [|n IH]; intros i acc Hi Hp; [lia|].
  simpl.
  destruct (Nat.eq_dec i (Binary64.Point.dimension p)) as [E|E].
  - rewrite Point64_get_out by lia. reflexivity.
  - rewrite Point64_get_ok by lia. simpl. apply IH; lia.
Qed.

Lemma dot_loop64_dot (h : Binary64.Hyperplane.t) (p : Binary64.Point.t) :
  (Binary64.Hyperplane.space_dimension h <= Binary64.Point.dimension p)%nat ->
  Binary64.Hyperplane.dot_loop (Binary64.Hyperplane.space_dimension h) 0 h p 0
  = Ok (Binary64.rounded_dot (Binary64.Hyperplane.coefficients_ h)
                             (Binary64.Point.coordinates p)).
Proof.
  intro H. rewrite dot_loop64_spec by lia. reflexivity.
Qed.

(** ** Sums and the negative zero *)

(** One shift to the right halves a mantissa that is not negative. *)
Lemma shr_1_half (mrs : shr_record) :
  (0 <= shr_m mrs)%Z -> shr_m (shr_1 mrs) = (shr_m mrs / 2)%Z.
Proof.
  destruct mrs as [m r s]. simpl. intro H.
  destruct m as [|p|p]; [reflexivity| |lia].
  destruct p as [p|p|]; simpl.
  - rewrite Pos2Z.inj_xI. apply Z.div_unique with 1%Z; lia.
  - rewrite Pos2Z.inj_xO. apply Z.div_unique with 0%Z; lia.
  - reflexivity.
Qed.

Lemma iter_shr_1_div (p : positive) :
  forall mrs, (0 <= shr_m mrs)%Z ->
    shr_m (iter_pos shr_1 p mrs) = (shr_m mrs / 2 ^ Zpos p)%Z.
Proof.
  induction p as [p IH|p IH|]; intros mrs H; simpl iter_pos.
  - pose proof (shr_1_nonneg mrs H) as H1.
    pose proof (iter_shr_1_nonneg p _ H1) as H2.
    rewrite (IH _ H2), (IH _ H1), shr_1_half by exact H.
    rewrite !Z.div_div by lia.
    f_equal.
    change (Zpos p~1) with (1 + 2 * Zpos p)%Z.
    replace (1 + 2 * Zpos p)%Z with (1 + Zpos p + Zpos p)%Z by lia.
    rewrite !Z.pow_add_r by lia. change (2 ^ 1)%Z with 2%Z. lia.
  - pose proof (iter_shr_1_nonneg p _ H) as H2.
    rewrite (IH _ H2), (IH _ H). rewrite Z.div_div by lia.
    f_equal.
    change (Zpos p~0) with (2 * Zpos p)%Z.
    replace (2 * Zpos p)%Z with (Zpos p + Zpos p)%Z by lia.
    rewrite Z.pow_add_r by lia. reflexivity.
  - apply shr_1_half, H.
Qed.

(** A mantissa of [d] binary digits is at least [2^(d-1)]. *)
Lemma digits2_pos_le (m : positive) : (2 ^ (Zpos (digits2_pos m) - 1) <= Zpos m)%Z.
Proof.
  induction m as [m IH|m IH|]; simpl digits2_pos.
  - rewrite Pos2Z.inj_succ.
    replace (Z.succ (Zpos (digits2_pos m)) - 1)%Z
      with (1 + (Zpos (digits2_pos m) - 1))%Z by lia.
    rewrite Z.pow_add_r by lia. lia.
  - rewrite Pos2Z.inj_succ.
    replace (Z.succ (Zpos (digits2_pos m)) - 1)%Z
      with (1 + (Zpos (digits2_pos m) - 1))%Z by lia.
    rewrite Z.pow_add_r by lia. lia.
  - simpl. lia.
Qed.

(** Shifting a positive mantissa to its format, from an exponent that is
    not below the least one, leaves a positive mantissa: at most all its
    digits but the first [prec] are shifted out. *)
Lemma shr_fexp_positive (m : positive) (e : Z) (l : location) :
  (SpecFloat.emin prec emax <= e)%Z ->
  (0 < shr_m (fst (shr_fexp prec emax (Zpos m) e l)))%Z /\
  (SpecFloat.emin prec emax <= snd (shr_fexp prec emax (Zpos m) e l))%Z.
Proof.
  intro He. unfold shr_fexp, shr, Zdigits2.
  assert (Hm : shr_m (shr_record_of_loc (Zpos m) l) = Zpos m)
    by (destruct l as [|[| |]]; reflexivity).
  destruct (fexp prec emax (Zpos (digits2_pos m) + e) - e)%Z as [|n|n] eqn:En;
    simpl fst; simpl snd.
  - rewrite Hm. lia.
  - rewrite iter_shr_1_div by (rewrite Hm; lia).
    rewrite Hm. split; [|lia].
    unfold fexp in En.
    assert (Hp : (0 < prec)%Z) by reflexivity.
    pose proof (digits2_pos_le m) as Hd.
    apply Z.div_str_pos. split; [apply Z.pow_pos_nonneg; lia|].
    apply Z.le_trans with (2 ^ (Zpos (digits2_pos m) - 1))%Z; [|exact Hd].
    apply Z.pow_le_mono_r; lia.
  - rewrite Hm. lia.
Qed.

Lemma round_nearest_even_positive (m : Z) (l : location) :
  (0 < m)%Z -> (0 < round_nearest_even m l)%Z.
Proof.
  intro H. destruct l as [|[| |]]; simpl; try lia.
  destruct (Z.even m); lia.
Qed.

(** Rounding a positive mantissa from an exponent that is not below the
    least one does not give a zero: there is no underflow to zero. *)
Lemma binary_round_aux_not_zero (s s' : bool) (m : positive) (e : Z) (l : location) :
  (SpecFloat.emin prec emax <= e)%Z ->
  binary_round_aux prec emax s (Zpos m) e l <> S754_zero s'.
Proof.
  intro He. unfold binary_round_aux.
  destruct (shr_fexp_positive m e l He) as [H1 H1'].
  destruct (shr_fexp prec emax (Zpos m) e l) as [mrs' e']. simpl in H1, H1'.
  pose proof (round_nearest_even_positive _ (loc_of_shr_record mrs') H1) as H2.
  destruct (round_nearest_even (shr_m mrs') (loc_of_shr_record mrs')) as [|m2|m2]; try lia.
  destruct (shr_fexp_positive m2 e' loc_Exact H1') as [H3 _].
  destruct (shr_fexp prec emax (Zpos m2) e' loc_Exact) as [mrs'' e'']. simpl in H3.
  destruct (shr_m mrs'') as [|p|p]; try lia.
  destruct (e'' <=? emax - prec)%Z; discriminate.
Qed.

Lemma binary_round_not_zero (s s' : bool) (m : positive) (e : Z) :
  (SpecFloat.emin prec emax <= e)%Z ->
  binary_round prec emax s m e <> S754_zero s'.
Proof.
  intro He. unfold binary_round, shl_align.
  destruct (fexp prec emax (Zpos (digits2_pos m) + e) - e)%Z as [|d|d] eqn:Ed;
    apply binary_round_aux_not_zero; try exact He.
  unfold fexp. lia.
Qed.

(** The exponent of a double is not below the least one. *)
Lemma bounded_emin (m : positive) (e : Z) :
  bounded prec emax m e = true -> (SpecFloat.emin prec emax <= e)%Z.
Proof.
  unfold bounded, canonical_mantissa, fexp. intro H.
  apply andb_prop in H. destruct H as [H _]. apply Z.eqb_eq in H. lia.
Qed.

(** A sum is the negative zero only when both its terms are. *)
Lemma SF64add_neg_zero (x y : spec_float) :
  valid_binary x = true -> valid_binary y = true ->
  SF64add x y = S754_zero true ->
  x = S754_zero true /\ y = S754_zero true.
Proof.
  unfold valid_binary, SF64add. intros Hx Hy H.
  destruct x as [sx|sx| |sx mx ex], y as [sy|sy| |sy my ey]; simpl in H;
    try discriminate;
    try (destruct sx, sy; try discriminate; split; reflexivity || assumption).
  exfalso. simpl in Hx, Hy.
  apply bounded_emin in Hx, Hy.
  revert H. unfold binary_normalize.
  destruct (_ + _)%Z as [|m|m]; try discriminate;
    apply binary_round_not_zero; lia.
Qed.

Lemma add_neg_zero (x y : float) : x + y = neg_zero -> x = neg_zero /\ y = neg_zero.
Proof.
  intro H.
  assert (E : Prim2SF (x + y) = S754_zero true) by (rewrite H; reflexivity).
  rewrite add_spec in E.
  apply SF64add_neg_zero in E; try apply Prim2SF_valid.
  destruct E as [Ex Ey].
  split; apply Prim2SF_inj; [rewrite Ex | rewrite Ey]; reflexivity.
Qed.

(** A sum accumulated from the positive zero is never the negative zero;
    when it compares equal to zero it is the positive zero. *)
Lemma accumulate_not_neg_zero (a x : list float) :
  forall acc, acc <> neg_zero -> Binary64.accumulate acc a x <> neg_zero.
Proof.
  revert x. induction a as [|ai a IH]; intros x acc H; [exact H|].
  destruct x as [|xi x]; [exact H|].
  simpl. apply IH. intro E. apply add_neg_zero in E. destruct E as [E _]. exact (H E).
Qed.

Lemma rounded_dot_zero (a x : list float) :
  (Binary64.rounded_dot a x =? 0) = true -> Binary64.rounded_dot a x = 0.
Proof.
  intro H. destruct (eqb_zero_cases _ H) as [E|E]; [exact E|].
  exfalso. revert E. apply accumulate_not_neg_zero.
  intro E. apply (f_equal Prim2SF) in E. discriminate.
Qed.

(** ** Hyperplane::ratioDistance *)

(** C3 (as amended).  [Hyperplane::ratioDistance(p)] throws
    DifferentDimensionsException when the dimension of [p] differs from
    the space dimension of the hyperplane.  On a point of the same
    dimension it returns [std::max((b - s) / s, 0.0)] in binary64
    arithmetic, where [s] is the sum of the products [a_i p_i] as the loop
    rounds and accumulates it from [0.0]; the result is never less than
    zero.  The sum [s] is never the negative zero, and when [s == 0] the
    result is NaN for [b == 0], plus infinity for [b > 0] and zero for
    [b < 0]. *)
Theorem Hyperplane_ratioDistance_spec (h : Binary64.Hyperplane.t) (p : Binary64.Point.t) :
  let b := Binary64.Hyperplane.b_ h in
  let s := Binary64.rounded_dot (Binary64.Hyperplane.coefficients_ h)
                                (Binary64.Point.coordinates p) in
  let r := Binary64.std_max ((b - s) / s) 0 in
  (Binary64.Hyperplane.space_dimension h <> Binary64.Point.dimension p ->
   Binary64.Hyperplane.ratioDistance h p = Throw DifferentDimensionsException) /\
  (Binary64.Hyperplane.space_dimension h = Binary64.Point.dimension p ->
   Binary64.Hyperplane.ratioDistance h p = Ok r /\
   (r <? 0) = false /\
   s <> neg_zero /\
   ((s =? 0) = true -> (b =? 0) = true -> is_nan r = true) /\
   ((s =? 0) = true -> (0 <? b) = true -> r = infinity) /\
   ((s =? 0) = true -> (b <? 0) = true -> r = 0)).
Proof.
  intros b s r. split.
  - intro Hd. unfold Binary64.Hyperplane.ratioDistance.
    apply Nat.eqb_neq in Hd. rewrite Hd. reflexivity.
  - intro Hd. split; [|split; [|split; [|split; [|split]]]].
    + unfold Binary64.Hyperplane.ratioDistance.
      rewrite Hd, Nat.eqb_refl. simpl. rewrite <- Hd.
      rewrite dot_loop64_dot by lia. reflexivity.
    + apply std_max_not_less.
    + apply accumulate_not_neg_zero.
      intro E. apply (f_equal Prim2SF) in E. discriminate.
    + intros Hs Hb. unfold r, s.
      rewrite (rounded_dot_zero _ _ Hs), (div_zero_zero b Hb). reflexivity.
    + intros Hs Hb. unfold r, s.
      rewrite (rounded_dot_zero _ _ Hs), (div_zero_positive b Hb). reflexivity.
    + intros Hs Hb. unfold r, s.
      rewrite (rounded_dot_zero _ _ Hs), (div_zero_negative b Hb). reflexivity.
Qed.

(** C3, witness: the line x1 + x2 = 6 and the point (1, 2), at ratio
    distance 1, and the line x1 - x2 = 1 and the point (1, 1), for which
    the sum is the positive zero. *)
Lemma Hyperplane_ratioDistance_spec_witness :
  Binary64.Hyperplane.ratioDistance (Binary64.Hyperplane.make2 1 1 6)
                                    (Binary64.Point.make2 1 2) = Ok 1 /\
  Binary64.Hyperplane.ratioDistance (Binary64.Hyperplane.make2 1 (-1) 1)
                                    (Binary64.Point.make2 1 1) = Ok infinity.
Proof.
  split.
  - destruct (Hyperplane_ratioDistance_spec (Binary64.Hyperplane.make2 1 1 6)
                (Binary64.Point.make2 1 2)) as [_ H].
    destruct (H eq_refl) as [Hr _]. exact Hr.
  - destruct (Hyperplane_ratioDistance_spec (Binary64.Hyperplane.make2 1 (-1) 1)
                (Binary64.Point.make2 1 1)) as [_ H].
    destruct (H eq_refl) as [Hr [_ [_ [_ [Hinf _]]]]].
    rewrite Hr. apply f_equal. apply Hinf; reflexivity.
Defined.

(** C3, counterexample.  For the line x1 - x2 = -1 and the point (1, 1),
    of the same dimension, a.p is zero and differs from b, and the call
    returns 0: neither plus infinity nor an exception.  For the plane
    0.1 x1 + 0.4 x2 - 0.5 x3 = 1 and the point (1, 1, 1), the real number
    a.p is 2^-55, for which max(0, (b - a.p) / (a.p)) is 2^55 - 1, and the
    call returns plus infinity, its rounded sum being zero. *)
Lemma Hyperplane_ratioDistance_not_infinite :
  (let h := Binary64.Hyperplane.make2 1 (-1) (-1) in
   let p := Binary64.Point.make2 1 1 in
   Binary64.Hyperplane.space_dimension h = Binary64.Point.dimension p /\
   (exists q c, Binary64.exact_dot (Binary64.Hyperplane.coefficients_ h)
                                   (Binary64.Point.coordinates p) = Some q /\
                Binary64.value (Binary64.Hyperplane.b_ h) = Some c /\
                (q == 0)%Q /\ (c == -1)%Q) /\
   Binary64.Hyperplane.ratioDistance h p = Ok 0) /\
  (let h := Binary64.Hyperplane.make3 0.1 0.4 (-0.5) 1 in
   let p := Binary64.Point.Coordinates [1; 1; 1] in
   (exists q, Binary64.exact_dot (Binary64.Hyperplane.coefficients_ h)
                                 (Binary64.Point.coordinates p) = Some q /\
              (q == Qpower 2 (-55))%Q) /\
   Binary64.Hyperplane.ratioDistance h p = Ok infinity).
Proof.
  split; cbv zeta.
  - split; [reflexivity|]. split.
    + eexists. eexists. split; [vm_compute; reflexivity|].
      split; [vm_compute; reflexivity|].
      split; vm_compute; reflexivity.
    + vm_compute. reflexivity.
  - split.
    + eexists. split; vm_compute; reflexivity.
    + vm_compute. reflexivity.
Qed.

(** X3.  For a point of the dimension of the hyperplane whose rounded sum
    [s] of products is finite, not zero and equal to [b],
    [Hyperplane::ratioDistance] returns zero. *)
Theorem Hyperplane_ratioDistance_on_hyperplane
        (h : Binary64.Hyperplane.t) (p : Binary64.Point.t) :
  Binary64.Hyperplane.space_dimension h = Binary64.Point.dimension p ->
  let s := Binary64.rounded_dot (Binary64.Hyperplane.coefficients_ h)
                                (Binary64.Point.coordinates p) in
  Binary64.finite s ->
  (s =? 0) = false ->
  (Binary64.Hyperplane.b_ h =? s) = true ->
  exists r, Binary64.Hyperplane.ratioDistance h p = Ok r /\ (r =? 0) = true.
Proof.
  intros Hd s Hf Hz Hb.
  unfold Binary64.Hyperplane.ratioDistance.
  rewrite Hd, Nat.eqb_refl. simpl throw_if. unfold bind at 1. rewrite <- Hd.
  rewrite dot_loop64_dot by lia. simpl bind. fold s.
  rewrite (eqb_finite_eq _ s Hf Hz Hb).
  eexists. split; [reflexivity|]. apply std_max_sub_self; assumption.
Qed.

(** X3, witness: the point (1, 2) on the line 0.5 x1 + 0.25 x2 = 1. *)
Lemma Hyperplane_ratioDistance_on_hyperplane_witness :
  exists r, Binary64.Hyperplane.ratioDistance (Binary64.Hyperplane.make2 0.5 0.25 1)
                                              (Binary64.Point.make2 1 2) = Ok r /\
            (r =? 0) = true.
Proof.
  apply (Hyperplane_ratioDistance_on_hyperplane (Binary64.Hyperplane.make2 0.5 0.25 1)
           (Binary64.Point.make2 1 2)); reflexivity.
Defined.

(** ** operator== and isParallel as relations *)

Lemma eq_loop64_spec (h h' : Binary64.Hyperplane.t) :
  forall n i, (n + i = Binary64.Hyperplane.space_dimension h')%nat ->
    Binary64.Hyperplane.eq_loop n i h h'
    = Ok (forallb (Binary64.cross_scaled h h') (seq i n)).
Proof.
  induction n as [|n IH]; intros i H; [reflexivity|].
  simpl. rewrite Hyperplane64_get_ok by lia. simpl.
  unfold Binary64.cross_scaled at 1, Binary64.Hyperplane.b.
  destruct (_ =? _); simpl; [apply IH; lia | reflexivity].
Qed.

Lemma parallel_loop64_spec (h h' : Binary64.Hyperplane.t) :
  forall n i, (n + i = Binary64.Hyperplane.space_dimension h')%nat ->
    Binary64.Hyperplane.parallel_loop n i h h'
    = Ok (forallb (Binary64.cross_sloped h h') (seq i n)).
Proof.
  induction n as [|n IH]; intros i H; [reflexivity|].
  simpl. rewrite !Hyperplane64_get_ok by lia. simpl.
  unfold Binary64.cross_sloped at 1.
  destruct (_ =? _); simpl; [apply IH; lia | reflexivity].
Qed.

(** [operator==] and [isParallel] never throw: each answers whether the
    dimensions agree and every iteration of its loop finds equal
    products. *)
Lemma eqb64_unfold (h h' : Binary64.Hyperplane.t) :
  Binary64.Hyperplane.eqb h h'
  = Ok ((Binary64.Hyperplane.space_dimension h =? Binary64.Hyperplane.space_dimension h')%nat
        && forallb (Binary64.cross_scaled h h')
                   (seq 0 (Binary64.Hyperplane.space_dimension h))).
Proof.
  unfold Binary64.Hyperplane.eqb.
  destruct (Nat.eqb_spec (Binary64.Hyperplane.space_dimension h)
                         (Binary64.Hyperplane.space_dimension h')) as [E|E]; simpl.
  - apply eq_loop64_spec. lia.
  - reflexivity.
Qed.

Lemma isParallel64_unfold (h h' : Binary64.Hyperplane.t) :
  Binary64.Hyperplane.isParallel h h'
  = Ok ((Binary64.Hyperplane.space_dimension h =? Binary64.Hyperplane.space_dimension h')%nat
        && forallb (Binary64.cross_sloped h h')
                   (seq 0 (Binary64.Hyperplane.space_dimension h))).
Proof.
  unfold Binary64.Hyperplane.isParallel.
  destruct (Nat.eqb_spec (Binary64.Hyperplane.space_dimension h)
                         (Binary64.Hyperplane.space_dimension h')) as [E|E]; simpl.
  - apply parallel_loop64_spec. lia.
  - reflexivity.
Qed.

Lemma eqb64_sym (h1 h2 : Binary64.Hyperplane.t) :
  Binary64.Hyperplane.eqb h1 h2 = Binary64.Hyperplane.eqb h2 h1.
Proof.
  rewrite !eqb64_unfold.
  rewrite (Nat.eqb_sym (Binary64.Hyperplane.space_dimension h2)).
  destruct (Nat.eqb_spec (Binary64.Hyperplane.space_dimension h1)
                         (Binary64.Hyperplane.space_dimension h2)) as [E|E];
    [|reflexivity].
  simpl. rewrite E. f_equal. apply forallb_ext_on.
  intros k _. unfold Binary64.cross_scaled. apply eqb_sym.
Qed.

Lemma isParallel64_sym (h1 h2 : Binary64.Hyperplane.t) :
  Binary64.Hyperplane.isParallel h1 h2 = Binary64.Hyperplane.isParallel h2 h1.
Proof.
  rewrite !isParallel64_unfold.
  rewrite (Nat.eqb_sym (Binary64.Hyperplane.space_dimension h2)).
  destruct (Nat.eqb_spec (Binary64.Hyperplane.space_dimension h1)
                         (Binary64.Hyperplane.space_dimension h2)) as [E|E];
    [|reflexivity].
  simpl. rewrite E. f_equal. apply forallb_ext_on.
  intros k _. unfold Binary64.cross_sloped. apply eqb_sym.
Qed.

Lemma eqb64_refl_iff (h : Binary64.Hyperplane.t) :
  Binary64.Hyperplane.eqb h h = Ok true <->
  forall k, (k < Binary64.Hyperplane.space_dimension h)%nat ->
    is_nan (nth k (Binary64.Hyperplane.coefficients_ h) 0 * Binary64.Hyperplane.b_ h) = false.
Proof.
  rewrite eqb64_unfold, Nat.eqb_refl. simpl. split.
  - intro H. injection H as H. rewrite forallb_forall in H.
    intros k Hk. apply eqb_refl_iff. apply (H k). apply in_seq. lia.
  - intro H. f_equal. apply forallb_forall. intros k Hk. apply in_seq in Hk.
    apply eqb_refl_iff. apply H. lia.
Qed.

Lemma isParallel64_refl_iff (h : Binary64.Hyperplane.t) :
  Binary64.Hyperplane.isParallel h h = Ok true <->
  forall k, (k < Binary64.Hyperplane.space_dimension h)%nat ->
    is_nan (nth k (Binary64.Hyperplane.coefficients_ h) 0
            * nth 0 (Binary64.Hyperplane.coefficients_ h) 0) = false.
Proof.
  rewrite isParallel64_unfold, Nat.eqb_refl. simpl. split.
  - intro H. injection H as H. rewrite forallb_forall in H.
    intros k Hk. apply eqb_refl_iff. apply (H k). apply in_seq. lia.
  - intro H. f_equal. apply forallb_forall. intros k Hk. apply in_seq in Hk.
    apply eqb_refl_iff. apply H. lia.
Qed.

Lemma Forall_finite_nth (l : list float) (k : nat) :
  Forall Binary64.finite l -> (k < length l)%nat -> Binary64.finite (nth k l 0).
Proof.
  intros H Hk. rewrite Forall_forall in H. apply H. apply nth_In. exact Hk.
Qed.

Lemma eqb64_refl_finite (h : Binary64.Hyperplane.t) :
  Forall Binary64.finite (Binary64.Hyperplane.coefficients_ h) ->
  Binary64.finite (Binary64.Hyperplane.b_ h) ->
  Binary64.Hyperplane.eqb h h = Ok true.
Proof.
  intros Ha Hb. apply eqb64_refl_iff. intros k Hk.
  apply mul_finite_not_nan; [|exact Hb].
  apply Forall_finite_nth; assumption.
Qed.

Lemma isParallel64_refl_finite (h : Binary64.Hyperplane.t) :
  Forall Binary64.finite (Binary64.Hyperplane.coefficients_ h) ->
  Binary64.Hyperplane.isParallel h h = Ok true.
Proof.
  intros Ha. apply isParallel64_refl_iff. intros k Hk.
  apply mul_finite_not_nan; apply Forall_finite_nth; try assumption.
  unfold Binary64.Hyperplane.space_dimension in Hk. lia.
Qed.

(** C6 (as amended).  [Hyperplane::operator==] and [Hyperplane::isParallel]
    are symmetric over all Hyperplane instances: either order gives the
    same answer.  [h == h] holds exactly when none of the products
    [a_i * b] is NaN, and [h.isParallel(h)] exactly when none of the
    products [a_i * a_1] is NaN; so both are reflexive on the instances
    whose coefficients and right hand side are finite numbers. *)
Theorem Hyperplane_eq_isParallel_relations :
  (forall h1 h2, Binary64.Hyperplane.eqb h1 h2 = Binary64.Hyperplane.eqb h2 h1) /\
  (forall h, Binary64.Hyperplane.eqb h h = Ok true <->
             forall k, (k < Binary64.Hyperplane.space_dimension h)%nat ->
               is_nan (nth k (Binary64.Hyperplane.coefficients_ h) 0
                       * Binary64.Hyperplane.b_ h) = false) /\
  (forall h, Forall Binary64.finite (Binary64.Hyperplane.coefficients_ h) ->
             Binary64.finite (Binary64.Hyperplane.b_ h) ->
             Binary64.Hyperplane.eqb h h = Ok true) /\
  (forall h1 h2, Binary64.Hyperplane.isParallel h1 h2
                 = Binary64.Hyperplane.isParallel h2 h1) /\
  (forall h, Binary64.Hyperplane.isParallel h h = Ok true <->
             forall k, (k < Binary64.Hyperplane.space_dimension h)%nat ->
               is_nan (nth k (Binary64.Hyperplane.coefficients_ h) 0
                       * nth 0 (Binary64.Hyperplane.coefficients_ h) 0) = false) /\
  (forall h, Forall Binary64.finite (Binary64.Hyperplane.coefficients_ h) ->
             Binary64.Hyperplane.isParallel h h = Ok true).
Proof.
  split; [|split; [|split; [|split; [|split]]]].
  - apply eqb64_sym.
  - apply eqb64_refl_iff.
  - apply eqb64_refl_finite.
  - apply isParallel64_sym.
  - apply isParallel64_refl_iff.
  - apply isParallel64_refl_finite.
Qed.

(** C6, witness: the line 0.1 x1 + 0.2 x2 = 0.3 equals itself and is
    parallel to itself. *)
Lemma Hyperplane_eq_isParallel_relations_witness :
  Binary64.Hyperplane.eqb (Binary64.Hyperplane.make2 0.1 0.2 0.3)
                          (Binary64.Hyperplane.make2 0.1 0.2 0.3) = Ok true /\
  Binary64.Hyperplane.isParallel (Binary64.Hyperplane.make2 0.1 0.2 0.3)
                                 (Binary64.Hyperplane.make2 0.1 0.2 0.3) = Ok true.
Proof.
  destruct Hyperplane_eq_isParallel_relations as [_ [_ [He [_ [_ Hp]]]]].
  split.
  - apply He; [repeat constructor | reflexivity].
  - apply Hp. repeat constructor.
Defined.

(** C6, counterexample.  Neither relation is transitive: the all-zero
    instance 0 x1 + 0 x2 = 0 is equal and parallel to the lines x1 = 1 and
    x2 = 1, which are neither equal nor parallel to each other; and with
    rounded products transitivity fails through other instances as well,
    0.9 x1 = 2.7, 0.1 x1 = 0.3 and 1.1 x1 = 3.3 for [operator==], and
    2.7 x1 + 0.9 x2 = 1, 0.3 x1 + 0.1 x2 = 1 and 3.3 x1 + 1.1 x2 = 1 for
    [isParallel].  Neither relation is reflexive: the line that
    [Hyperplane(Point(0, 0), Point(2^600, 2^-600))] constructs, whose
    right hand side is NaN, does not equal itself, and the instance
    [Hyperplane(0, infinity, 1)] is not parallel to itself. *)
Lemma Hyperplane_eq_isParallel_not_transitive :
  (let h1 := Binary64.Hyperplane.make2 1 0 1 in
   let h2 := Binary64.Hyperplane.make2 0 0 0 in
   let h3 := Binary64.Hyperplane.make2 0 1 1 in
   (Binary64.Hyperplane.eqb h1 h2 = Ok true /\
    Binary64.Hyperplane.eqb h2 h3 = Ok true /\
    Binary64.Hyperplane.eqb h1 h3 = Ok false) /\
   (Binary64.Hyperplane.isParallel h1 h2 = Ok true /\
    Binary64.Hyperplane.isParallel h2 h3 = Ok true /\
    Binary64.Hyperplane.isParallel h1 h3 = Ok false)) /\
  (let h1 := Binary64.Hyperplane.make2 0.9 0 2.7 in
   let h2 := Binary64.Hyperplane.make2 0.1 0 0.3 in
   let h3 := Binary64.Hyperplane.make2 1.1 0 3.3 in
   Binary64.Hyperplane.eqb h1 h2 = Ok true /\
   Binary64.Hyperplane.eqb h2 h3 = Ok true /\
   Binary64.Hyperplane.eqb h1 h3 = Ok false) /\
  (let h1 := Binary64.Hyperplane.make2 2.7 0.9 1 in
   let h2 := Binary64.Hyperplane.make2 0.3 0.1 1 in
   let h3 := Binary64.Hyperplane.make2 3.3 1.1 1 in
   Binary64.Hyperplane.isParallel h1 h2 = Ok true /\
   Binary64.Hyperplane.isParallel h2 h3 = Ok true /\
   Binary64.Hyperplane.isParallel h1 h3 = Ok false) /\
  (exists h, Binary64.Hyperplane.of_points2 (Binary64.Point.make2 0 0)
                                             (Binary64.Point.make2 0x1p600 0x1p-600) = Ok h /\
             Binary64.Hyperplane.eqb h h = Ok false) /\
  Binary64.Hyperplane.isParallel (Binary64.Hyperplane.make2 0 infinity 1)
                                 (Binary64.Hyperplane.make2 0 infinity 1) = Ok false.
Proof.
  split; [|split; [|split; [|split]]]; cbv zeta.
  - repeat split; vm_compute; reflexivity.
  - repeat split; vm_compute; reflexivity.
  - repeat split; vm_compute; reflexivity.
  - eexists. split; vm_compute; reflexivity.
  - vm_compute. reflexivity.
Qed.

(** ** parallelThrough *)

(** [isParallel] does not read the right hand sides. *)
Lemma isParallel64_same_coefficients (h : Binary64.Hyperplane.t) (b' : float) :
  Binary64.Hyperplane.isParallel
    h (Binary64.Hyperplane.of_range (Binary64.Hyperplane.coefficients_ h) b')
  = Binary64.Hyperplane.isParallel h h.
Proof.
  rewrite !isParallel64_unfold. reflexivity.
Qed.

(** C9 (as amended).  For a hyperplane [h] with coefficients a and a point
    [p] of the same dimension, [h.parallelThrough(p)] returns a hyperplane
    with the same coefficients whose right hand side is the sum of the
    products [a_i p_i] as the loop rounds and accumulates it from [0.0];
    [h.isParallel(h.parallelThrough(p))] is true exactly when none of the
    products [a_i * a_1] is NaN, hence whenever the coefficients of [h]
    are finite numbers. *)
Theorem Hyperplane_parallelThrough_spec (h : Binary64.Hyperplane.t) (p : Binary64.Point.t) :
  Binary64.Hyperplane.space_dimension h = Binary64.Point.dimension p ->
  exists h', Binary64.Hyperplane.parallelThrough h p = Ok h' /\
             Binary64.Hyperplane.coefficients_ h' = Binary64.Hyperplane.coefficients_ h /\
             Binary64.Hyperplane.b_ h'
             = Binary64.rounded_dot (Binary64.Hyperplane.coefficients_ h)
                                    (Binary64.Point.coordinates p) /\
             (Binary64.Hyperplane.isParallel h h' = Ok true <->
              forall k, (k < Binary64.Hyperplane.space_dimension h)%nat ->
                is_nan (nth k (Binary64.Hyperplane.coefficients_ h) 0
                        * nth 0 (Binary64.Hyperplane.coefficients_ h) 0) = false) /\
             (Forall Binary64.finite (Binary64.Hyperplane.coefficients_ h) ->
              Binary64.Hyperplane.isParallel h h' = Ok true).
Proof.
  intro Hd. unfold Binary64.Hyperplane.parallelThrough.
  rewrite dot_loop64_dot by lia. simpl.
  eexists. split; [reflexivity|].
  split; [reflexivity|]. split; [reflexivity|].
  rewrite isParallel64_same_coefficients. split.
  - apply isParallel64_refl_iff.
  - apply isParallel64_refl_finite.
Qed.

(** C9, witness: the plane 4 x1 - 2 x2 = -2 and the point (1, 1, 1), as in
    tests/HyperplaneTest.cpp. *)
Lemma Hyperplane_parallelThrough_spec_witness :
  exists h', Binary64.Hyperplane.parallelThrough (Binary64.Hyperplane.make3 4 (-2) 0 (-2))
                                                 (Binary64.Point.Coordinates [1; 1; 1]) = Ok h' /\
             Binary64.Hyperplane.coefficients_ h' = [4; -2; 0] /\
             Binary64.Hyperplane.b_ h' = 2 /\
             Binary64.Hyperplane.isParallel (Binary64.Hyperplane.make3 4 (-2) 0 (-2)) h'
             = Ok true.
Proof.
  destruct (Hyperplane_parallelThrough_spec (Binary64.Hyperplane.make3 4 (-2) 0 (-2))
              (Binary64.Point.Coordinates [1; 1; 1]) eq_refl) as [h' [H1 [H2 [H3 [_ H4]]]]].
  exists h'. split; [exact H1|]. split; [exact H2|]. split; [exact H3|].
  apply H4. repeat constructor.
Defined.

(** C9, counterexample.  For the plane 2^-60 x1 + x2 - x3 = 0 and the point
    (1, 1, 1) the real number a.p is 2^-60, and the hyperplane that
    [parallelThrough] returns has the right hand side 0: the sum 2^-60 + 1
    rounds to 1.  And [h.isParallel(h.parallelThrough(p))] is false for
    the instance [Hyperplane(0, infinity, 1)] and the point (1, 1). *)
Lemma Hyperplane_parallelThrough_rounds :
  (let h := Binary64.Hyperplane.make3 0x1p-60 1 (-1) 0 in
   let p := Binary64.Point.Coordinates [1; 1; 1] in
   exists h' q, Binary64.Hyperplane.parallelThrough h p = Ok h' /\
                Binary64.Hyperplane.b_ h' = 0 /\
                Binary64.exact_dot (Binary64.Hyperplane.coefficients_ h)
                                   (Binary64.Point.coordinates p) = Some q /\
                (q == Qpower 2 (-60))%Q) /\
  (let h := Binary64.Hyperplane.make2 0 infinity 1 in
   let p := Binary64.Point.make2 1 1 in
   exists h', Binary64.Hyperplane.parallelThrough h p = Ok h' /\
              Binary64.Hyperplane.isParallel h h' = Ok false).
Proof.
  split; cbv zeta.
  - eexists. eexists. split; [vm_compute; reflexivity|].
    split; [reflexivity|]. split; vm_compute; reflexivity.
  - eexists. split; vm_compute; reflexivity.
Qed.

(** X5.  [Hyperplane::parallelThrough(p)] makes no dimension check: it
    throws NonExistentCoordinateException exactly when [p] has fewer
    coordinates than the hyperplane has coefficients, and for a longer
    [p] it ignores the coordinates beyond them, returning the same
    coefficients and the rounded sum over the first coordinates. *)
Theorem Hyperplane_parallelThrough_dimensions
        (h : Binary64.Hyperplane.t) (p : Binary64.Point.t) :
  (Binary64.Hyperplane.parallelThrough h p = Throw NonExistentCoordinateException <->
   (Binary64.Point.dimension p < Binary64.Hyperplane.space_dimension h)%nat) /\
  ((Binary64.Hyperplane.space_dimension h <= Binary64.Point.dimension p)%nat ->
   Binary64.Hyperplane.parallelThrough h p
   = Ok (Binary64.Hyperplane.of_range
           (Binary64.Hyperplane.coefficients_ h)
           (Binary64.rounded_dot
              (Binary64.Hyperplane.coefficients_ h)
              (firstn (Binary64.Hyperplane.space_dimension h)
                      (Binary64.Point.coordinates p))))).
Proof.
  assert (Hlong : (Binary64.Hyperplane.space_dimension h <= Binary64.Point.dimension p)%nat ->
                  Binary64.Hyperplane.parallelThrough h p
                  = Ok (Binary64.Hyperplane.of_range
                          (Binary64.Hyperplane.coefficients_ h)
                          (Binary64.rounded_dot
                             (Binary64.Hyperplane.coefficients_ h)
                             (firstn (Binary64.Hyperplane.space_dimension h)
                                     (Binary64.Point.coordinates p))))).
  { intro Hd. unfold Binary64.Hyperplane.parallelThrough.
    rewrite dot_loop64_dot by lia. simpl. do 2 f_equal.
    unfold Binary64.rounded_dot, Binary64.Hyperplane.space_dimension.
    generalize (0 : float).
    generalize (Binary64.Point.coordinates p).
    induction (Binary64.Hyperplane.coefficients_ h) as [|a l IH]; intros x acc.
    - reflexivity.
    - destruct x as [|xi x]; [reflexivity|]. simpl. apply IH. }
  split; [|exact Hlong].
  destruct (Nat.lt_ge_cases (Binary64.Point.dimension p)
                            (Binary64.Hyperplane.space_dimension h)) as [Hd|Hd].
  - unfold Binary64.Hyperplane.parallelThrough.
    rewrite dot_loop64_short by lia. simpl. tauto.
  - rewrite (Hlong Hd). split; [discriminate | intro; exfalso; lia].
Qed.

(** X5, witness: the line x1 + 2 x2 = 3 and the points (5) and (1, 1, 7). *)
Lemma Hyperplane_parallelThrough_dimensions_witness :
  Binary64.Hyperplane.parallelThrough (Binary64.Hyperplane.make2 1 2 3)
                                      (Binary64.Point.Coordinates [5])
  = Throw NonExistentCoordinateException /\
  Binary64.Hyperplane.parallelThrough (Binary64.Hyperplane.make2 1 2 3)
                                      (Binary64.Point.Coordinates [1; 1; 7])
  = Ok (Binary64.Hyperplane.make2 1 2 3).
Proof.
  split.
  - apply (Hyperplane_parallelThrough_dimensions (Binary64.Hyperplane.make2 1 2 3)
             (Binary64.Point.Coordinates [5])). vm_compute. lia.
  - destruct (Hyperplane_parallelThrough_dimensions (Binary64.Hyperplane.make2 1 2 3)
                (Binary64.Point.Coordinates [1; 1; 7])) as [_ H].
    rewrite H by (vm_compute; lia). reflexivity.
Defined.

(** X7.  The ratio distance of a point [p] from [h.parallelThrough(p)] is
    zero, whenever [p] has the dimension of [h] and the rounded sum of
    the products [a_i p_i] is finite and not zero: both loops accumulate
    the same sum. *)
Theorem Hyperplane_parallelThrough_ratioDistance
        (h : Binary64.Hyperplane.t) (p : Binary64.Point.t) :
  Binary64.Hyperplane.space_dimension h = Binary64.Point.dimension p ->
  let s := Binary64.rounded_dot (Binary64.Hyperplane.coefficients_ h)
                                (Binary64.Point.coordinates p) in
  Binary64.finite s ->
  (s =? 0) = false ->
  exists h' r, Binary64.Hyperplane.parallelThrough h p = Ok h' /\
               Binary64.Hyperplane.ratioDistance h' p = Ok r /\
               (r =? 0) = true.
Proof.
  intros Hd s Hf Hz.
  unfold Binary64.Hyperplane.parallelThrough.
  rewrite dot_loop64_dot by lia. simpl bind. fold s.
  eexists. eexists. split; [reflexivity|].
  unfold Binary64.Hyperplane.ratioDistance.
  assert (Hd' : Binary64.Hyperplane.space_dimension
                  (Binary64.Hyperplane.of_range (Binary64.Hyperplane.coefficients_ h) s)
                = Binary64.Point.dimension p) by exact Hd.
  rewrite Hd', Nat.eqb_refl. simpl throw_if. unfold bind at 1. rewrite <- Hd'.
  rewrite dot_loop64_dot by lia. simpl bind.
  split; [reflexivity|].
  simpl Binary64.Hyperplane.coefficients_. simpl Binary64.Hyperplane.b_. fold s.
  apply std_max_sub_self; assumption.
Qed.

(** X7, witness: the line 0.1 x1 + 0.2 x2 = 5 and the point (0.3, 0.7). *)
Lemma Hyperplane_parallelThrough_ratioDistance_witness :
  exists h' r, Binary64.Hyperplane.parallelThrough (Binary64.Hyperplane.make2 0.1 0.2 5)
                                                   (Binary64.Point.make2 0.3 0.7) = Ok h' /\
               Binary64.Hyperplane.ratioDistance h' (Binary64.Point.make2 0.3 0.7) = Ok r /\
               (r =? 0) = true.
Proof.
  apply (Hyperplane_parallelThrough_ratioDistance (Binary64.Hyperplane.make2 0.1 0.2 5)
           (Binary64.Point.make2 0.3 0.7)); reflexivity.
Defined.

(** ** intersection *)

Lemma length_two64 (l : list float) : length l = 2%nat -> exists x y, l = [x; y].
Proof.
  destruct l as [|x [|y [|z l]]]; simpl; intro H; try discriminate.
  exists x, y. reflexivity.
Qed.

(** The outcome of [intersection] on two lines. *)
Lemma intersection64_lines (a1 a2 b c1 c2 b' : float) :
  let h := Binary64.Hyperplane.make2 a1 a2 b in
  let h' := Binary64.Hyperplane.make2 c1 c2 b' in
  let x0 := (a2 * b' - b * c2) / (a2 * c1 - a1 * c2) in
  let y0 := if a2 =? 0 then (b' - c1 * x0) / c2 else (b - a1 * x0) / a2 in
  Binary64.Hyperplane.intersection h h'
  = match Binary64.Hyperplane.isParallel h h' with
    | Ok true => Throw ParallelHyperplanesException
    | Ok false => Ok (Binary64.Point.make2 x0 y0)
    | Throw e => Throw e
    end.
Proof.
  intros h h' x0 y0. unfold Binary64.Hyperplane.intersection.
  simpl throw_if at 1. unfold bind at 1.
  destruct (Binary64.Hyperplane.isParallel h h') as [[|]|e]; simpl; try reflexivity.
  unfold y0, x0. destruct (a2 =? 0); reflexivity.
Qed.




(** X10.  [h1.intersection(h2)] and [h2.intersection(h1)] either throw the
    same exception or both return a point. *)
Theorem Hyperplane_intersection_commutes (h1 h2 : Binary64.Hyperplane.t) :
  match Binary64.Hyperplane.intersection h1 h2, Binary64.Hyperplane.intersection h2 h1 with
  | Ok _, Ok _ => True
  | Throw e1, Throw e2 => e1 = e2
  | _, _ => False
  end.
Proof.
  destruct (Nat.eq_dec (Binary64.Hyperplane.space_dimension h1) 2) as [E1|E1];
    [destruct (Nat.eq_dec (Binary64.Hyperplane.space_dimension h2) 2) as [E2|E2]|].
  - destruct h1 as [l1 b]. destruct h2 as [l2 b'].
    destruct (length_two64 l1 E1) as [a1 [a2 ->]].
    destruct (length_two64 l2 E2) as [c1 [c2 ->]].
    pose proof (intersection64_lines a1 a2 b c1 c2 b') as H12.
    pose proof (intersection64_lines c1 c2 b' a1 a2 b) as H21.
    cbv zeta in H12, H21.
    fold (Binary64.Hyperplane.make2 a1 a2 b) in *.
    fold (Binary64.Hyperplane.make2 c1 c2 b') in *.
    rewrite H12, H21.
    rewrite (isParallel64_sym (Binary64.Hyperplane.make2 c1 c2 b')).
    rewrite isParallel64_unfold.
    destruct (_ && _); simpl; auto.
  - assert (H12 : Binary64.Hyperplane.intersection h1 h2 = Throw Not2DHyperplanesException).
    { unfold Binary64.Hyperplane.intersection.
      apply Nat.eqb_neq in E2. rewrite E2, orb_true_r. reflexivity. }
    assert (H21 : Binary64.Hyperplane.intersection h2 h1 = Throw Not2DHyperplanesException).
    { unfold Binary64.Hyperplane.intersection.
      apply Nat.eqb_neq in E2. rewrite E2. reflexivity. }
    rewrite H12, H21. reflexivity.
  - assert (H12 : Binary64.Hyperplane.intersection h1 h2 = Throw Not2DHyperplanesException).
    { unfold Binary64.Hyperplane.intersection.
      apply Nat.eqb_neq in E1. rewrite E1. reflexivity. }
    assert (H21 : Binary64.Hyperplane.intersection h2 h1 = Throw Not2DHyperplanesException).
    { unfold Binary64.Hyperplane.intersection.
      apply Nat.eqb_neq in E1. rewrite E1, orb_true_r. reflexivity. }
    rewrite H12, H21. reflexivity.
Qed.

(** ** Facet::ratioDistance *)

Section Facet64.

Variable Sol : Type.
Variable solve : Binary64.arma.solver.
Variable det : Binary64.arma.determinant.
Variable times : Binary64.arma.product.

Lemma ratio_loop64_spec (f : Binary64.Facet.t Sol) (p q : Binary64.Point.t) :
  forall n i dp off,
    (n + i = length (Binary64.Facet.normal_ f))%nat ->
    (n + i = Binary64.Point.dimension p)%nat ->
    (n + i = Binary64.Point.dimension q)%nat ->
    Binary64.Facet.ratio_loop Sol n i f p q dp off
    = Ok (Binary64.accumulate dp (skipn i (Binary64.Facet.normal_ f))
                              (skipn i (Binary64.Point.coordinates p)),
          Binary64.accumulate off (skipn i (Binary64.Facet.normal_ f))
                              (skipn i (Binary64.Point.coordinates q))).
Proof.
  induction n as [|n IH]; intros i dp off Hn Hp Hq.
  - simpl in Hn. simpl.
    rewrite (skipn_all2 (Binary64.Facet.normal_ f)) by lia. reflexivity.
  - simpl. rewrite !Point64_get_ok by lia. simpl.
    rewrite IH by lia.
    rewrite (skipn_nth_float (Binary64.Facet.normal_ f) i) by lia.
    rewrite (skipn_nth_float (Binary64.Point.coordinates p) i)
      by (unfold Binary64.Point.dimension in Hp; lia).
    rewrite (skipn_nth_float (Binary64.Point.coordinates q) i)
      by (unfold Binary64.Point.dimension in Hq; lia).
    reflexivity.
Qed.

(** The outcome of [ratioDistance] once the three argument checks have
    passed. *)
Lemma Facet64_ratioDistance_valid (f : Binary64.Facet.t Sol) (p : Binary64.Point.t) :
  Binary64.well_formed f ->
  Binary64.Point.isNull p = false ->
  Binary64.Point.dimension p = Binary64.Facet.spaceDimension f ->
  Binary64.Point.isStrictlyPositive p = true ->
  let s := Binary64.rounded_dot (Binary64.Facet.normal_ f) (Binary64.Point.coordinates p) in
  let o := Binary64.rounded_dot (Binary64.Facet.normal_ f) (Binary64.first_vertex_point f) in
  Binary64.Facet.ratioDistance f p =
  if s =? o then Ok 0
  else if s =? 0 then Throw InfiniteRatioDistanceException
       else Ok (Binary64.std_max ((o - s) / s) 0).
Proof.
  intros [Hpos [Hlen [Hnorm Hvs]]] Hnull Hdim Hsp s o.
  unfold Binary64.Facet.ratioDistance.
  rewrite Hnull, Hdim, Nat.eqb_refl, Hsp. simpl throw_if. unfold bind at 1 2 3.
  apply Nat.ltb_lt in Hpos. rewrite Hpos. simpl c_assert. unfold bind at 1.
  apply Nat.ltb_lt in Hpos.
  unfold o, Binary64.first_vertex_point.
  destruct (Binary64.Facet.vertices_ f) as [|v0 vs] eqn:Ev; [simpl in Hlen; lia|].
  inversion Hvs as [|? ? Hv0 _]; subst.
  rewrite (ratio_loop64_spec f p (Binary64.PointAndSolution.point v0));
    [| lia | lia | unfold Binary64.PointAndSolution.dimension in Hv0; lia].
  reflexivity.
Qed.

(** C4 (as amended).  On a facet with normal n, [Facet<S>::ratioDistance(p)]
    throws NullObjectException if [p] is null, else
    DifferentDimensionsException if the dimension of [p] differs from the
    space dimension of the facet, else NotStrictlyPositivePointException
    if [p] is not strictly positive.  On the remaining points, with [s]
    and [o] the sums of the products [n_i p_i] and [n_i v0_i] as the loop
    rounds and accumulates them from [0.0], [v0] being the first vertex,
    it throws InfiniteRatioDistanceException exactly when [s == 0] and
    [s != o], returns 0 when [s == o], and otherwise returns
    [std::max((o - s) / s, 0.0)] in binary64 arithmetic. *)
Theorem Facet_ratioDistance_spec (f : Binary64.Facet.t Sol) (p : Binary64.Point.t) :
  Binary64.well_formed f ->
  let s := Binary64.rounded_dot (Binary64.Facet.normal_ f) (Binary64.Point.coordinates p) in
  let o := Binary64.rounded_dot (Binary64.Facet.normal_ f) (Binary64.first_vertex_point f) in
  (Binary64.Point.isNull p = true ->
   Binary64.Facet.ratioDistance f p = Throw NullObjectException) /\
  (Binary64.Point.isNull p = false ->
   Binary64.Point.dimension p <> Binary64.Facet.spaceDimension f ->
   Binary64.Facet.ratioDistance f p = Throw DifferentDimensionsException) /\
  (Binary64.Point.isNull p = false ->
   Binary64.Point.dimension p = Binary64.Facet.spaceDimension f ->
   Binary64.Point.isStrictlyPositive p = false ->
   Binary64.Facet.ratioDistance f p = Throw NotStrictlyPositivePointException) /\
  (Binary64.Point.isNull p = false ->
   Binary64.Point.dimension p = Binary64.Facet.spaceDimension f ->
   Binary64.Point.isStrictlyPositive p = true ->
   (Binary64.Facet.ratioDistance f p = Throw InfiniteRatioDistanceException <->
    ((s =? 0) = true /\ (s =? o) = false)) /\
   ((s =? o) = true -> Binary64.Facet.ratioDistance f p = Ok 0) /\
   ((s =? o) = false -> (s =? 0) = false ->
    Binary64.Facet.ratioDistance f p = Ok (Binary64.std_max ((o - s) / s) 0))).
Proof.
  intros Hwf s o. split; [|split; [|split]].
  - intro H. unfold Binary64.Facet.ratioDistance. rewrite H. reflexivity.
  - intros H Hd. unfold Binary64.Facet.ratioDistance. rewrite H. simpl.
    destruct (Nat.eqb_spec (Binary64.Facet.spaceDimension f) (Binary64.Point.dimension p));
      [congruence|].
    reflexivity.
  - intros H Hd Hs. unfold Binary64.Facet.ratioDistance.
    rewrite H, Hd, Nat.eqb_refl, Hs. reflexivity.
  - intros Hnull Hd Hs.
    rewrite (Facet64_ratioDistance_valid f p Hwf Hnull Hd Hs). cbv zeta.
    fold s. fold o.
    destruct (s =? o) eqn:E1; [|destruct (s =? 0) eqn:E2].
    + split; [|split].
      * split; [discriminate | intros [_ H]; discriminate].
      * reflexivity.
      * discriminate.
    + split; [|split].
      * split; [intros _; split; reflexivity | reflexivity].
      * discriminate.
      * discriminate.
    + split; [|split].
      * split; [discriminate | intros [H _]; discriminate].
      * discriminate.
      * reflexivity.
Qed.

(** ** The bound and the boundary flag of a constructed facet *)

Lemma fill_W_b64_ext (f f' : Binary64.Facet.t Sol) :
  Binary64.Facet.spaceDimension f = Binary64.Facet.spaceDimension f' ->
  forall vs W b, Binary64.Facet.fill_W_b Sol times f vs W b
                 = Binary64.Facet.fill_W_b Sol times f' vs W b.
Proof.
  intros Hd. induction vs as [|v vs IH]; intros W b; simpl; [reflexivity|].
  rewrite Hd. destruct (c_assert _); simpl; [apply IH | reflexivity].
Qed.

Lemma computeLowerDistalPoint64_ext (f f' : Binary64.Facet.t Sol) :
  Binary64.Facet.spaceDimension f = Binary64.Facet.spaceDimension f' ->
  Binary64.Facet.vertices_ f = Binary64.Facet.vertices_ f' ->
  Binary64.Facet.computeLowerDistalPoint solve times f
  = Binary64.Facet.computeLowerDistalPoint solve times f'.
Proof.
  intros Hd Hv. unfold Binary64.Facet.computeLowerDistalPoint.
  rewrite Hv, (fill_W_b64_ext f f' Hd). reflexivity.
Qed.

Lemma ratio_loop64_ext (f f' : Binary64.Facet.t Sol) (p q : Binary64.Point.t) :
  Binary64.Facet.normal_ f = Binary64.Facet.normal_ f' ->
  forall n i dp off,
    Binary64.Facet.ratio_loop Sol n i f p q dp off
    = Binary64.Facet.ratio_loop Sol n i f' p q dp off.
Proof.
  intros Hn. induction n as [|n IH]; intros i dp off; simpl; [reflexivity|].
  destruct (Binary64.Point.get p i); simpl; [|reflexivity].
  destruct (Binary64.Point.get q i); simpl; [|reflexivity].
  rewrite Hn. apply IH.
Qed.

Lemma ratioDistance64_ext (f f' : Binary64.Facet.t Sol) (p : Binary64.Point.t) :
  Binary64.Facet.spaceDimension f = Binary64.Facet.spaceDimension f' ->
  Binary64.Facet.vertices_ f = Binary64.Facet.vertices_ f' ->
  Binary64.Facet.normal_ f = Binary64.Facet.normal_ f' ->
  Binary64.Facet.ratioDistance f p = Binary64.Facet.ratioDistance f' p.
Proof.
  intros Hd Hv Hn. unfold Binary64.Facet.ratioDistance.
  rewrite Hd, Hv.
  destruct (Binary64.Facet.vertices_ f') as [|v0 vs]; [reflexivity|].
  rewrite (ratio_loop64_ext f f' p _ Hn). reflexivity.
Qed.

(** Whatever [ratioDistance] returns is not less than zero. *)
Lemma ratioDistance64_not_less (f : Binary64.Facet.t Sol) (p : Binary64.Point.t) (r : float) :
  Binary64.Facet.ratioDistance f p = Ok r -> (r <? 0) = false.
Proof.
  unfold Binary64.Facet.ratioDistance. intro H.
  do 4 (apply bind_ok in H; destruct H as [_ [_ H]]).
  destruct (Binary64.Facet.vertices_ f) as [|v0 vs]; [discriminate|].
  apply bind_ok in H. destruct H as [sums [_ H]].
  destruct (fst sums =? snd sums).
  - injection H as <-. reflexivity.
  - destruct (fst sums =? 0); [discriminate|].
    injection H as <-. apply std_max_not_less.
Qed.

Lemma getLocalApproximationErrorUpperBound64_throws (f : Binary64.Facet.t Sol) :
  Binary64.Facet.getLocalApproximationErrorUpperBound f = Throw BoundaryFacetException <->
  Binary64.Facet.isBoundaryFacet f = true.
Proof.
  unfold Binary64.Facet.getLocalApproximationErrorUpperBound.
  destruct (Binary64.Facet.isBoundaryFacet f); split; congruence.
Qed.

(** What the last step of both constructors establishes. *)
Lemma computeAndSet64_spec (f0 f : Binary64.Facet.t Sol) :
  Binary64.Facet.computeAndSetLocalApproximationErrorUpperBoundAndIsBoundaryFacet
    solve times f0 = Ok f ->
  Binary64.bound_and_boundary solve times f /\
  Binary64.Facet.spaceDimension f = Binary64.Facet.spaceDimension f0 /\
  Binary64.Facet.vertices_ f = Binary64.Facet.vertices_ f0 /\
  Binary64.Facet.normal_ f = Binary64.Facet.normal_ f0.
Proof.
  unfold Binary64.Facet.computeAndSetLocalApproximationErrorUpperBoundAndIsBoundaryFacet.
  intro H. apply bind_ok in H. destruct H as [ldp [Hldp H]].
  destruct ldp as [|x]; simpl Binary64.Point.isNull in H; cbv iota in H; simpl negb in H;
    cbv iota zeta in H.
  - (* no Lower Distal Point *)
    injection H as <-. split; [|auto].
    unfold Binary64.bound_and_boundary. cbv zeta.
    rewrite (computeLowerDistalPoint64_ext _ f0) by reflexivity. rewrite Hldp.
    split; [|split; [|split; [|split]]].
    + split; [discriminate | intros [x [Hx _]]; discriminate].
    + discriminate.
    + intros x Hx. discriminate.
    + reflexivity.
    + apply getLocalApproximationErrorUpperBound64_throws.
  - destruct (Binary64.Point.isStrictlyPositive (Binary64.Point.Coordinates x)) eqn:Hsp.
    + (* a strictly positive Lower Distal Point *)
      apply bind_ok in H. destruct H as [r [Hr H]].
      injection H as <-. split; [|auto].
      unfold Binary64.bound_and_boundary. cbv zeta.
      rewrite (computeLowerDistalPoint64_ext _ f0) by reflexivity. rewrite Hldp.
      split; [|split; [|split; [|split]]].
      * split; [intros _; exists x; auto | reflexivity].
      * intros _. exists x, r. split; [reflexivity|]. split; [|split].
        -- rewrite <- Hr. apply ratioDistance64_ext; reflexivity.
        -- reflexivity.
        -- apply (ratioDistance64_not_less _ _ _ Hr).
      * intros y Hy Hn. injection Hy as <-. congruence.
      * discriminate.
      * apply getLocalApproximationErrorUpperBound64_throws.
    + (* a Lower Distal Point that is not strictly positive *)
      injection H as <-. split; [|auto].
      unfold Binary64.bound_and_boundary. cbv zeta.
      rewrite (computeLowerDistalPoint64_ext _ f0) by reflexivity. rewrite Hldp.
      split; [|split; [|split; [|split]]].
      * split; [discriminate | intros [y [Hy Hp]]; injection Hy as <-; congruence].
      * discriminate.
      * reflexivity.
      * discriminate.
      * apply getLocalApproximationErrorUpperBound64_throws.
Qed.

(** C1 (as amended).  For every facet that either constructor returns:
    [isBoundaryFacet()] is false if and only if the Lower Distal Point
    exists and is strictly positive; when it is false the stored bound is
    what [ratioDistance(LDP)] returns and is never less than zero (it is
    zero, a greater number, plus infinity or NaN); when the LDP exists but
    is not strictly positive the stored bound is -1; when there is no
    unique LDP it is -2; and [getLocalApproximationErrorUpperBound()]
    throws BoundaryFacetException exactly when [isBoundaryFacet()] is
    true. *)
Theorem Facet_bound_and_boundary :
  (forall (vertices : list (Binary64.PointAndSolution.t Sol))
          (preferPositiveNormalVector : bool) (f : Binary64.Facet.t Sol),
     Binary64.Facet.make solve det times vertices preferPositiveNormalVector = Ok f ->
     Binary64.bound_and_boundary solve times f) /\
  (forall (vertices : list (Binary64.PointAndSolution.t Sol)) (facetNormal : list float)
          (f : Binary64.Facet.t Sol),
     Binary64.Facet.make_with_normal solve times vertices facetNormal = Ok f ->
     Binary64.bound_and_boundary solve times f).
Proof.
  split.
  - intros vertices prefer f H. unfold Binary64.Facet.make in H.
    destruct vertices as [|v0 vs]; [discriminate|].
    cbv zeta in H.
    apply bind_ok in H. destruct H as [_ [_ H]].
    apply bind_ok in H. destruct H as [_ [_ H]].
    apply computeAndSet64_spec in H. apply H.
  - intros vertices facetNormal f H. unfold Binary64.Facet.make_with_normal in H.
    cbv zeta in H.
    apply bind_ok in H. destruct H as [_ [_ H]].
    apply bind_ok in H. destruct H as [_ [_ H]].
    apply computeAndSet64_spec in H. apply H.
Qed.

End Facet64.

(** ** The theorems on facets at work *)

(** C1, witness: the facet on the axis extrema (1, 1, 100), (100, 1, 1)
    and (1, 100, 1) of scenario S3, built with the hand-rolled
    determinant, solver and product, is no boundary facet and its bound
    is 33. *)
Lemma Facet_bound_and_boundary_witness :
  let vertices := [Binary64.vertex [1; 1; 100] [1; 0; 0];
                   Binary64.vertex [100; 1; 1] [0; 1; 0];
                   Binary64.vertex [1; 100; 1] [0; 0; 1]] in
  exists f, Binary64.Facet.make Binary64.arma.cramer_solve Binary64.arma.det
                                Binary64.arma.times vertices true = Ok f /\
            Binary64.bound_and_boundary Binary64.arma.cramer_solve Binary64.arma.times f /\
            Binary64.Facet.isBoundaryFacet f = false /\
            Binary64.Facet.localApproximationErrorUpperBound_ f = 33.
Proof.
  cbv zeta. eexists. split; [vm_compute; reflexivity|]. split.
  - apply (proj1 (Facet_bound_and_boundary unit Binary64.arma.cramer_solve
                    Binary64.arma.det Binary64.arma.times)
                 [Binary64.vertex [1; 1; 100] [1; 0; 0];
                  Binary64.vertex [100; 1; 1] [0; 1; 0];
                  Binary64.vertex [1; 100; 1] [0; 0; 1]] true).
    vm_compute. reflexivity.
  - split; reflexivity.
Defined.

(** C1, counterexample: the supplied-normal constructor, given the normal
    (0, 2^1000) and the vertices (1, 1) with weights (1, 0) and (1, 2^30)
    with weights (0, 1), finds the strictly positive Lower Distal Point
    (1, 2^30); the product 2^1000 * 2^30 overflows, the quotient is
    infinity by infinity, and the facet it returns is no boundary facet
    and stores NaN, which is not a nonnegative number. *)
Lemma Facet_bound_not_a_number :
  let vertices := [Binary64.vertex [1; 1] [1; 0]; Binary64.vertex [1; 0x1p30] [0; 1]] in
  exists f, Binary64.Facet.make_with_normal Binary64.arma.cramer_solve Binary64.arma.times
                                            vertices [0; 0x1p1000] = Ok f /\
            Binary64.Facet.computeLowerDistalPoint Binary64.arma.cramer_solve
                                                   Binary64.arma.times f
            = Ok (Binary64.Point.Coordinates [1; 0x1p30]) /\
            Binary64.Facet.isBoundaryFacet f = false /\
            Binary64.Facet.getLocalApproximationErrorUpperBound f = Ok nan /\
            (0 <=? Binary64.Facet.localApproximationErrorUpperBound_ f) = false.
Proof.
  cbv zeta. eexists. split; [vm_compute; reflexivity|].
  repeat split; vm_compute; reflexivity.
Qed.

(** C4, witness: the distance of (1, 1, 1) from the facet of scenario S3,
    whose normal is (9801, 9801, 9801) and whose offset is 102 times
    9801. *)
Lemma Facet_ratioDistance_spec_witness :
  let vertices := [Binary64.vertex [1; 1; 100] [1; 0; 0];
                   Binary64.vertex [100; 1; 1] [0; 1; 0];
                   Binary64.vertex [1; 100; 1] [0; 0; 1]] in
  exists f, Binary64.Facet.make Binary64.arma.cramer_solve Binary64.arma.det
                                Binary64.arma.times vertices true = Ok f /\
            Binary64.Facet.ratioDistance f (Binary64.Point.Coordinates [1; 1; 1]) = Ok 33 /\
            Binary64.Facet.ratioDistance f Binary64.Point.Null = Throw NullObjectException.
Proof.
  cbv zeta. eexists. split; [vm_compute; reflexivity|].
  match goal with |- Binary64.Facet.ratioDistance ?f ?p = _ /\ _ =>
    assert (Hwf : Binary64.well_formed f)
      by (unfold Binary64.well_formed; simpl; repeat split; try lia; repeat constructor);
    destruct (Facet_ratioDistance_spec unit f p Hwf) as [_ [_ [_ H]]];
    destruct (Facet_ratioDistance_spec unit f Binary64.Point.Null Hwf) as [Hnull _]
  end.
  split.
  - destruct (H eq_refl eq_refl eq_refl) as [_ [_ Hr]].
    rewrite Hr by (vm_compute; reflexivity). vm_compute. reflexivity.
  - apply Hnull. reflexivity.
Defined.

(** C4, counterexample: the supplied-normal constructor builds a facet
    from the normal (0.1, 0.4, -0.5) and the vertices (1, 1, 3), (5, 2, 1)
    and (1, 2, 2) with the axes as weights.  For the strictly positive
    point p = (1, 1, 1) the real number n.p is 2^-55, which is not zero,
    and [ratioDistance(p)] throws InfiniteRatioDistanceException: the
    rounded sum of the loop is zero. *)
Lemma Facet_ratioDistance_rounded_sum :
  let vertices := [Binary64.vertex [1; 1; 3] [1; 0; 0];
                   Binary64.vertex [5; 2; 1] [0; 1; 0];
                   Binary64.vertex [1; 2; 2] [0; 0; 1]] in
  let n := [0.1; 0.4; -0.5] in
  let p := Binary64.Point.Coordinates [1; 1; 1] in
  exists f q, Binary64.Facet.make_with_normal Binary64.arma.cramer_solve Binary64.arma.times
                                              vertices n = Ok f /\
              Binary64.Point.isStrictlyPositive p = true /\
              Binary64.exact_dot n (Binary64.Point.coordinates p) = Some q /\
              (q == Qpower 2 (-55))%Q /\
              Binary64.Facet.ratioDistance f p = Throw InfiniteRatioDistanceException.
Proof.
  cbv zeta. eexists. eexists. split; [vm_compute; reflexivity|].
  split; [reflexivity|].
  split; [vm_compute; reflexivity|].
  split; vm_compute; reflexivity.
Qed.

(** ** The constructors from points *)

(** C8.  On the three points (1, 0, 0), (0, 1, 0) and (0, 0, 1) of
    tests/HyperplaneTest.cpp, which are affinely independent, the
    constructor from an array of Points and the constructor from a range
    of a [std::set<Point>] both stop at the assertion of [init], which
    admits two points only; so they do on the four unit points of the
    same tests.  No hyperplane through the points is constructed. *)
Lemma Hyperplane_from_points_three :
  Binary64.Hyperplane.of_array
    [Binary64.Point.Coordinates [1; 0; 0]; Binary64.Point.Coordinates [0; 1; 0];
     Binary64.Point.Coordinates [0; 0; 1]]
  = Throw AssertionFailure /\
  (Binary64.PointSet.of_range
     [Binary64.Point.Coordinates [1; 0; 0]; Binary64.Point.Coordinates [0; 1; 0];
      Binary64.Point.Coordinates [0; 0; 1]] []
   = Ok [Binary64.Point.Coordinates [0; 0; 1]; Binary64.Point.Coordinates [0; 1; 0];
         Binary64.Point.Coordinates [1; 0; 0]] /\
   Binary64.Hyperplane.of_set
     [Binary64.Point.Coordinates [0; 0; 1]; Binary64.Point.Coordinates [0; 1; 0];
      Binary64.Point.Coordinates [1; 0; 0]]
   = Throw AssertionFailure) /\
  Binary64.Hyperplane.of_array
    [Binary64.Point.Coordinates [1; 0; 0; 0]; Binary64.Point.Coordinates [0; 1; 0; 0];
     Binary64.Point.Coordinates [0; 0; 1; 0]; Binary64.Point.Coordinates [0; 0; 0; 1]]
  = Throw AssertionFailure.
Proof.
  repeat split.
Qed.

(** X11.  A successful [Hyperplane(p1, p2)] on the points (x1, y1) and
    (x2, y2) writes the line as 0 x1 + 1 x2 = b, with b one of the two
    ordinates, when [y1 == y2], and as 1 x1 + a2 x2 = b otherwise, with
    a2 the rounded quotient (x2 - x1) / (y1 - y2) or (x1 - x2) / (y2 - y1)
    according to the order of the two points: its first coefficient that
    is not zero is 1. *)
Theorem Hyperplane_of_points2_form (x1 y1 x2 y2 : float) (h : Binary64.Hyperplane.t) :
  Binary64.Hyperplane.of_points2 (Binary64.Point.make2 x1 y1) (Binary64.Point.make2 x2 y2)
  = Ok h ->
  ((y1 =? y2) = true ->
   Binary64.Hyperplane.coefficients_ h = [0; 1] /\
   (Binary64.Hyperplane.b_ h = y1 \/ Binary64.Hyperplane.b_ h = y2)) /\
  ((y1 =? y2) = false ->
   exists a2, Binary64.Hyperplane.coefficients_ h = [1; a2] /\
              (a2 = (x2 - x1) / (y1 - y2) \/ a2 = (x1 - x2) / (y2 - y1))).
Proof.
  unfold Binary64.Hyperplane.of_points2. intro H.
  apply bind_ok in H. destruct H as [_ [_ H]].
  apply bind_ok in H. destruct H as [_ [_ H]].
  simpl in H.
  match type of H with context [if ?c then Ok [_; _] else _] => destruct c end;
    [| match type of H with context [if ?c then Ok [_; _] else _] => destruct c end;
       [| discriminate]];
    simpl in H; rewrite ?(eqb_sym y2 y1) in H;
    destruct (y1 =? y2); simpl in H; injection H as <-; simpl;
    (split; [intro E; try discriminate; auto | intro E; try discriminate; eauto]).
Qed.

(** X11, witness: the line through (0, 1) and (1, 2) is x1 - x2 = -1. *)
Lemma Hyperplane_of_points2_form_witness :
  exists h, Binary64.Hyperplane.of_points2 (Binary64.Point.make2 0 1)
                                           (Binary64.Point.make2 1 2) = Ok h /\
  exists a2, Binary64.Hyperplane.coefficients_ h = [1; a2] /\
             (a2 = (1 - 0) / (1 - 2) \/ a2 = (0 - 1) / (2 - 1)).
Proof.
  eexists. split; [vm_compute; reflexivity|].
  match goal with |- exists a2, Binary64.Hyperplane.coefficients_ ?h = _ /\ _ =>
    destruct (Hyperplane_of_points2_form 0 1 1 2 h) as [_ H]
  end.
  - vm_compute. reflexivity.
  - apply H. reflexivity.
Defined.

(** The line of the two-point constructor contains its points up to
    rounding only: [Hyperplane(Point(0, 0), Point(1, 49))] is the line
    x1 + a2 x2 = 0 with a2 the double nearest to -1/49, and at the point
    (1, 49) the real number a.p is 23 * 2^-58 and the rounded sum 2^-53,
    neither of them b. *)
Lemma Hyperplane_of_points2_up_to_rounding :
  exists h q,
    Binary64.Hyperplane.of_points2 (Binary64.Point.make2 0 0) (Binary64.Point.make2 1 49)
    = Ok h /\
    Binary64.Hyperplane.b_ h = 0 /\
    Binary64.exact_dot (Binary64.Hyperplane.coefficients_ h) [1; 49] = Some q /\
    (q == 23 * Qpower 2 (-58))%Q /\
    Binary64.rounded_dot (Binary64.Hyperplane.coefficients_ h) [1; 49] = 0x1p-53.
Proof.
  eexists. eexists. split; [vm_compute; reflexivity|].
  split; [reflexivity|].
  split; [vm_compute; reflexivity|].
  split; vm_compute; reflexivity.
Qed.

(** ** A constructor that throws InfiniteRatioDistanceException *)

Section Facet64Construction.

Variable Sol : Type.
Variable solve : Binary64.arma.solver.
Variable times : Binary64.arma.product.

Lemma check_vertices64_ok (d : nat) (vs : list (Binary64.PointAndSolution.t Sol)) :
  Forall (Binary64.valid_vertex d) vs -> Binary64.Facet.check_vertices Sol d vs = Ok tt.
Proof.
  induction vs as [|v vs IH]; intro H; simpl; [reflexivity|].
  inversion H as [|? ? [H1 [H2 H3]] Hvs]; subst.
  rewrite H1, H2, Nat.eqb_refl. simpl. apply IH. exact Hvs.
Qed.

Lemma fill_W_b64_spec (f : Binary64.Facet.t Sol) :
  forall vs W b,
    Forall (fun v => length (Binary64.PointAndSolution.weightsUsed v)
                     = Binary64.Facet.spaceDimension f) vs ->
    Binary64.Facet.fill_W_b Sol times f vs W b
    = Ok (W ++ map Binary64.PointAndSolution.weightsUsed vs,
          b ++ map (fun v => times (Binary64.PointAndSolution.weightsUsed v)
                                   (Binary64.Point.coordinates
                                      (Binary64.PointAndSolution.point v))) vs).
Proof.
  induction vs as [|v vs IH]; intros W b Hw; simpl.
  - rewrite !app_nil_r. reflexivity.
  - inversion Hw as [|? ? Hv Hvs]; subst.
    rewrite Hv, Nat.eqb_refl. simpl.
    rewrite IH by assumption.
    unfold Binary64.arma.insert_rows, Binary64.Point.toVec.
    rewrite <- !app_assoc. reflexivity.
Qed.

(** The system that [computeLowerDistalPoint] hands to the solver has
    the weight vectors as rows and the products w_i . v_i as right hand
    side. *)
Lemma computeLowerDistalPoint64_solve (f : Binary64.Facet.t Sol) :
  Forall (fun v => length (Binary64.PointAndSolution.weightsUsed v)
                   = Binary64.Facet.spaceDimension f)
         (Binary64.Facet.vertices_ f) ->
  Binary64.Facet.computeLowerDistalPoint solve times f =
  match solve (map Binary64.PointAndSolution.weightsUsed (Binary64.Facet.vertices_ f))
              (map (fun v => times (Binary64.PointAndSolution.weightsUsed v)
                                   (Binary64.Point.coordinates
                                      (Binary64.PointAndSolution.point v)))
                   (Binary64.Facet.vertices_ f)) with
  | Some x => Ok (Binary64.Point.Coordinates x)
  | None => Ok Binary64.Point.Null
  end.
Proof.
  intro Hw. unfold Binary64.Facet.computeLowerDistalPoint.
  rewrite fill_W_b64_spec by assumption. reflexivity.
Qed.

(** X18.  The supplied-normal constructor lets the exception of
    [ratioDistance] escape: given valid vertices with weight vectors of
    the right length, for which the solver returns a strictly positive
    Lower Distal Point x whose rounded sum of products with the supplied
    normal is zero, while that of the first vertex is not equal to it, the
    constructor throws InfiniteRatioDistanceException. *)
Theorem Facet_make_with_normal_infinite
        (vertices : list (Binary64.PointAndSolution.t Sol)) (facetNormal x : list float) :
  facetNormal <> [] ->
  length vertices = length facetNormal ->
  Forall (Binary64.valid_vertex (length facetNormal)) vertices ->
  Forall (fun v => length (Binary64.PointAndSolution.weightsUsed v) = length facetNormal)
         vertices ->
  solve (map Binary64.PointAndSolution.weightsUsed vertices)
        (map (fun v => times (Binary64.PointAndSolution.weightsUsed v)
                             (Binary64.Point.coordinates (Binary64.PointAndSolution.point v)))
             vertices)
  = Some x ->
  length x = length facetNormal ->
  Binary64.Point.isStrictlyPositive (Binary64.Point.Coordinates x) = true ->
  (Binary64.rounded_dot facetNormal x =? 0) = true ->
  (Binary64.rounded_dot facetNormal x
   =? Binary64.rounded_dot facetNormal
        (match vertices with
         | v0 :: _ => Binary64.Point.coordinates (Binary64.PointAndSolution.point v0)
         | [] => []
         end)) = false ->
  Binary64.Facet.make_with_normal solve times vertices facetNormal
  = Throw InfiniteRatioDistanceException.
Proof.
  intros Hne Hlen Hvalid Hw Hsolve Hx Hsp Hdot Hoff.
  unfold Binary64.Facet.make_with_normal. cbv zeta. simpl Binary64.Facet.spaceDimension_.
  rewrite Hlen, Nat.eqb_refl. simpl c_assert. unfold bind at 1.
  rewrite (check_vertices64_ok _ _ Hvalid). unfold bind at 1.
  set (f1 := Binary64.Facet.set_normal Sol _ facetNormal).
  assert (Hwf : Binary64.well_formed (Binary64.Facet.set_isBoundaryFacet Sol f1 false)).
  { unfold Binary64.well_formed, f1. simpl. repeat split; try assumption.
    - destruct facetNormal; [contradiction | simpl; lia].
    - apply Forall_impl with (2 := Hvalid). intros v [_ [_ Hd]]. exact Hd. }
  unfold Binary64.Facet.computeAndSetLocalApproximationErrorUpperBoundAndIsBoundaryFacet.
  rewrite (computeLowerDistalPoint64_solve f1) by exact Hw.
  simpl Binary64.Facet.vertices_. rewrite Hsolve.
  simpl bind. rewrite Hsp.
  rewrite (Facet64_ratioDistance_valid Sol _ (Binary64.Point.Coordinates x) Hwf eq_refl Hx Hsp).
  cbv zeta. unfold Binary64.first_vertex_point. simpl.
  rewrite Hoff, Hdot. reflexivity.
Qed.

(** ** Facet::ratioDistance and Hyperplane::ratioDistance *)

(** X19.  On a strictly positive point of the right dimension whose
    rounded sum [s] of products with the normal is neither zero nor equal
    to the rounded offset [o] of the first vertex, [Facet<S>::ratioDistance]
    returns the very double that [Hyperplane::ratioDistance] returns for
    the hyperplane with the normal as coefficients and [o] as right hand
    side. *)
Theorem Facet_ratioDistance_agrees_with_Hyperplane (f : Binary64.Facet.t Sol)
        (p : Binary64.Point.t) :
  Binary64.well_formed f ->
  Binary64.Point.isNull p = false ->
  Binary64.Point.dimension p = Binary64.Facet.spaceDimension f ->
  Binary64.Point.isStrictlyPositive p = true ->
  let s := Binary64.rounded_dot (Binary64.Facet.normal_ f) (Binary64.Point.coordinates p) in
  let o := Binary64.rounded_dot (Binary64.Facet.normal_ f) (Binary64.first_vertex_point f) in
  (s =? 0) = false ->
  (s =? o) = false ->
  exists r,
    Binary64.Facet.ratioDistance f p = Ok r /\
    Binary64.Hyperplane.ratioDistance
      (Binary64.Hyperplane.of_range (Binary64.Facet.getNormalVector f) o) p = Ok r.
Proof.
  intros Hwf Hnull Hd Hsp s o Hs Ho.
  rewrite (Facet64_ratioDistance_valid Sol f p Hwf Hnull Hd Hsp). cbv zeta.
  fold s. fold o. rewrite Ho, Hs.
  eexists. split; [reflexivity|].
  unfold Binary64.Hyperplane.ratioDistance.
  assert (Hdh : Binary64.Hyperplane.space_dimension
                  (Binary64.Hyperplane.of_range (Binary64.Facet.getNormalVector f) o)
                = Binary64.Point.dimension p).
  { unfold Binary64.Hyperplane.space_dimension. simpl. rewrite Hd. apply Hwf. }
  rewrite Hdh, Nat.eqb_refl. simpl throw_if. unfold bind at 1. rewrite <- Hdh.
  rewrite dot_loop64_dot by lia. reflexivity.
Qed.

End Facet64Construction.

(** X18, witness: the axis extrema of scenario S3, the first of them
    (100, 1, 1), with the normal (1, -1, 0) of scenario S5; their Lower
    Distal Point is (1, 1, 1). *)
Lemma Facet_make_with_normal_infinite_witness :
  Binary64.Facet.make_with_normal Binary64.arma.cramer_solve Binary64.arma.times
    [Binary64.vertex [100; 1; 1] [0; 1; 0]; Binary64.vertex [1; 1; 100] [1; 0; 0];
     Binary64.vertex [1; 100; 1] [0; 0; 1]]
    [1; -1; 0]
  = Throw InfiniteRatioDistanceException.
Proof.
  apply (Facet_make_with_normal_infinite unit Binary64.arma.cramer_solve Binary64.arma.times
           _ _ [1; 1; 1]).
  - discriminate.
  - reflexivity.
  - repeat constructor.
  - repeat constructor.
  - vm_compute. reflexivity.
  - reflexivity.
  - reflexivity.
  - vm_compute. reflexivity.
  - vm_compute. reflexivity.
Defined.

(** X19, witness: the facet of scenario S3 and the point (1, 1, 1). *)
Lemma Facet_ratioDistance_agrees_with_Hyperplane_witness :
  let f := Binary64.Facet.Build 3
             [Binary64.vertex [1; 1; 100] [1; 0; 0];
              Binary64.vertex [100; 1; 1] [0; 1; 0];
              Binary64.vertex [1; 100; 1] [0; 0; 1]]
             [9801; 9801; 9801] 33 false in
  exists r,
    Binary64.Facet.ratioDistance f (Binary64.Point.Coordinates [1; 1; 1]) = Ok r /\
    Binary64.Hyperplane.ratioDistance (Binary64.Hyperplane.make3 9801 9801 9801 999702)
                                      (Binary64.Point.Coordinates [1; 1; 1]) = Ok r.
Proof.
  intro f.
  apply (Facet_ratioDistance_agrees_with_Hyperplane unit f (Binary64.Point.Coordinates [1; 1; 1])).
  - unfold Binary64.well_formed. simpl. repeat split; try lia. repeat constructor.
  - reflexivity.
  - reflexivity.
  - reflexivity.
  - vm_compute. reflexivity.
  - vm_compute. reflexivity.
Defined.

(** ** The exceptions of the two-point constructor *)

(** X24.  [Hyperplane(p1, p2)] throws SamePointsException exactly when
    [p1 == p2], whatever the dimensions, and Not2DPointsException exactly
    when the points differ and one of them is not 2-dimensional. *)
Theorem Hyperplane_of_points2_exceptions (p1 p2 : Binary64.Point.t) :
  (Binary64.Hyperplane.of_points2 p1 p2 = Throw SamePointsException <->
   Binary64.Point.eqb p1 p2 = true) /\
  (Binary64.Hyperplane.of_points2 p1 p2 = Throw Not2DPointsException <->
   (Binary64.Point.eqb p1 p2 = false /\
    (Binary64.Point.dimension p1 <> 2%nat \/ Binary64.Point.dimension p2 <> 2%nat))).
Proof.
  unfold Binary64.Hyperplane.of_points2.
  destruct (Binary64.Point.eqb p1 p2) eqn:E; simpl.
  { split; [tauto|]. split; [discriminate | intros [H _]; discriminate]. }
  destruct (Nat.eqb_spec (Binary64.Point.dimension p1) 2) as [D1|D1]; simpl;
    [destruct (Nat.eqb_spec (Binary64.Point.dimension p2) 2) as [D2|D2]; simpl|].
  - assert (Hrest : forall e,
              (points <- Binary64.PointSet.insert p2 [p1] ;; Binary64.Hyperplane.init points)
              = Throw e -> e = UndefinedBehaviour).
    { destruct (length_two64 (Binary64.Point.coordinates p1) D1) as [x1 [y1 E1]].
      destruct (length_two64 (Binary64.Point.coordinates p2) D2) as [x2 [y2 E2]].
      intro e. unfold Binary64.PointSet.insert, Binary64.Point.ltb.
      rewrite D1, D2. simpl. rewrite E1, E2. simpl.
      match goal with |- context [if ?c then Ok [_; _] else _] => destruct c end;
        [| match goal with |- context [if ?c then Ok [_; _] else _] => destruct c end];
        simpl; unfold Binary64.Point.get; rewrite ?D1, ?D2, ?E1, ?E2; simpl;
        try (destruct (negb _); simpl; discriminate).
      intro H. injection H as <-. reflexivity. }
    split; split; try discriminate.
    + intro H. apply Hrest in H. discriminate.
    + intro H. apply Hrest in H. discriminate.
    + intros [_ [H|H]]; contradiction.
  - split; [split; discriminate|]. split; [auto | reflexivity].
  - split; [split; discriminate|]. split; [auto | reflexivity].
Qed.

(** ** The two-point constructor and the inequality operator on binary64 numbers *)

(** [x < y] excludes [y < x]. *)
Lemma ltb_asym (x y : float) : (x <? y) = true -> (y <? x) = false.
Proof.
  rewrite !ltb_spec. unfold SFltb.
  rewrite (SFcompare_swap (Prim2SF x) (Prim2SF y)).
  destruct (SFcompare (Prim2SF x) (Prim2SF y)) as [[| |]|]; simpl; congruence.
Qed.

(** Two doubles that are not NaN are equal or one is less than the other. *)
Lemma SFcompare_none (x y : spec_float) :
  SFcompare x y = None -> x = S754_nan \/ y = S754_nan.
Proof.
  destruct x as [sx|sx| |sx mx ex], y as [sy|sy| |sy my ey]; simpl;
    try discriminate; auto.
Qed.

Lemma is_nan_false_Prim2SF (x : float) : is_nan x = false -> Prim2SF x <> S754_nan.
Proof.
  unfold is_nan. rewrite eqb_spec. intros H E. rewrite E in H. discriminate.
Qed.

Lemma compare_total (x y : float) :
  is_nan x = false -> is_nan y = false ->
  (x <? y) = false -> (y <? x) = false -> (x =? y) = true.
Proof.
  intros Hx Hy. rewrite !ltb_spec, eqb_spec. unfold SFltb, SFeqb.
  rewrite (SFcompare_swap (Prim2SF x) (Prim2SF y)).
  destruct (SFcompare (Prim2SF x) (Prim2SF y)) as [[| |]|] eqn:E; simpl;
    try congruence.
  apply SFcompare_none in E.
  apply is_nan_false_Prim2SF in Hx, Hy. tauto.
Qed.

Lemma coordinates_eqb64_sym (x : list float) :
  forall y, Binary64.Point.coordinates_eqb x y = Binary64.Point.coordinates_eqb y x.
Proof.
  induction x as [|xi x IH]; intros [|yi y]; simpl; try reflexivity.
  rewrite (eqb_sym xi yi), IH. reflexivity.
Qed.

Lemma lexicographic_ltb64_asym (x : list float) :
  forall y, Binary64.Point.lexicographic_ltb x y = true ->
            Binary64.Point.lexicographic_ltb y x = false.
Proof.
  induction x as [|xi x IH]; intros [|yi y]; simpl; try discriminate; try reflexivity.
  destruct (xi <? yi) eqn:E1.
  - intros _. rewrite (ltb_asym xi yi E1). reflexivity.
  - destruct (yi <? xi) eqn:E2; [discriminate|]. apply IH.
Qed.

(** Points without NaN that the lexicographic order does not tell apart
    are equal. *)
Lemma lexicographic_ltb64_total (x : list float) :
  forall y, length x = length y ->
    Forall (fun c => is_nan c = false) x -> Forall (fun c => is_nan c = false) y ->
    Binary64.Point.lexicographic_ltb x y = false ->
    Binary64.Point.lexicographic_ltb y x = false ->
    Binary64.Point.coordinates_eqb x y = true.
Proof.
  induction x as [|xi x IH]; intros [|yi y] Hl Hx Hy; simpl in *;
    try discriminate; try reflexivity.
  inversion Hx as [|? ? Hxi Hx']; subst. inversion Hy as [|? ? Hyi Hy']; subst.
  destruct (xi <? yi) eqn:E1; [discriminate|].
  destruct (yi <? xi) eqn:E2; [discriminate|].
  intros H1 H2. rewrite (compare_total xi yi Hxi Hyi E1 E2). simpl.
  apply IH; auto.
Qed.

(** What the two insertions of [Hyperplane(p1, p2)] leave in the set. *)
Lemma PointSet64_insert_two (p1 p2 : Binary64.Point.t) :
  Binary64.Point.dimension p1 = Binary64.Point.dimension p2 ->
  Binary64.PointSet.insert p2 [p1]
  = Ok (if Binary64.Point.lexicographic_ltb (Binary64.Point.coordinates p1)
                                            (Binary64.Point.coordinates p2)
        then [p1; p2]
        else if Binary64.Point.lexicographic_ltb (Binary64.Point.coordinates p2)
                                                 (Binary64.Point.coordinates p1)
             then [p2; p1]
             else [p1]).
Proof.
  intro Hd. simpl. unfold Binary64.Point.ltb.
  rewrite Hd, Nat.eqb_refl. simpl.
  destruct (Binary64.Point.lexicographic_ltb (Binary64.Point.coordinates p1)
                                             (Binary64.Point.coordinates p2));
    [reflexivity|].
  simpl.
  destruct (Binary64.Point.lexicographic_ltb (Binary64.Point.coordinates p2)
                                             (Binary64.Point.coordinates p1));
    reflexivity.
Qed.

(** Two different 2D points reach [init] in the order of the set. *)
Lemma of_points2_64_unfold (p1 p2 : Binary64.Point.t) :
  Binary64.Point.eqb p1 p2 = false ->
  Binary64.Point.dimension p1 = 2%nat -> Binary64.Point.dimension p2 = 2%nat ->
  Binary64.Hyperplane.of_points2 p1 p2
  = Binary64.Hyperplane.init
      (if Binary64.Point.lexicographic_ltb (Binary64.Point.coordinates p1)
                                           (Binary64.Point.coordinates p2)
       then [p1; p2]
       else if Binary64.Point.lexicographic_ltb (Binary64.Point.coordinates p2)
                                                (Binary64.Point.coordinates p1)
            then [p2; p1]
            else [p1]).
Proof.
  intros He H1 H2. unfold Binary64.Hyperplane.of_points2.
  rewrite He, H1, H2. simpl throw_if. unfold bind at 1 2.
  change (Binary64.PointSet.insert p1 []) with (Ok [p1]). unfold bind at 1.
  rewrite PointSet64_insert_two by congruence. reflexivity.
Qed.

Lemma init64_two (p q : Binary64.Point.t) :
  Binary64.Point.dimension p = 2%nat -> Binary64.Point.dimension q = 2%nat ->
  exists h, Binary64.Hyperplane.init [p; q] = Ok h.
Proof.
  intros Hp Hq. unfold Binary64.Hyperplane.init, Binary64.Point.get.
  rewrite Hp, Hq. simpl.
  destruct (negb _); eexists; reflexivity.
Qed.

(** X25.  On binary64 numbers [Hyperplane(p1, p2)] and [Hyperplane(p2, p1)]
    end alike for every two points: they throw the same exception, or
    reach [init] with the same ordered pair and return the same
    coefficients and right hand side, or reach it with a single point,
    when the two points differ and the order of the set does not tell
    them apart.  For two different 2D points without a NaN coordinate
    both calls return, and return the same hyperplane. *)
Theorem Hyperplane_of_points2_order (p1 p2 : Binary64.Point.t) :
  Binary64.Hyperplane.of_points2 p1 p2 = Binary64.Hyperplane.of_points2 p2 p1 /\
  (Binary64.Point.eqb p1 p2 = false ->
   Binary64.Point.dimension p1 = 2%nat -> Binary64.Point.dimension p2 = 2%nat ->
   Forall (fun c => is_nan c = false) (Binary64.Point.coordinates p1) ->
   Forall (fun c => is_nan c = false) (Binary64.Point.coordinates p2) ->
   exists h, Binary64.Hyperplane.of_points2 p1 p2 = Ok h /\
             Binary64.Hyperplane.of_points2 p2 p1 = Ok h).
Proof.
  assert (Hsym : Binary64.Point.eqb p2 p1 = Binary64.Point.eqb p1 p2)
    by apply coordinates_eqb64_sym.
  assert (Hord : Binary64.Point.eqb p1 p2 = false ->
                 Binary64.Point.dimension p1 = 2%nat ->
                 Binary64.Point.dimension p2 = 2%nat ->
                 Binary64.Hyperplane.of_points2 p1 p2
                 = Binary64.Hyperplane.of_points2 p2 p1).
  { intros He H1 H2.
    rewrite (of_points2_64_unfold p1 p2 He H1 H2).
    rewrite (of_points2_64_unfold p2 p1) by congruence.
    destruct (Binary64.Point.lexicographic_ltb (Binary64.Point.coordinates p1)
                                               (Binary64.Point.coordinates p2)) eqn:E12.
    - rewrite (lexicographic_ltb64_asym _ _ E12). reflexivity.
    - destruct (Binary64.Point.lexicographic_ltb (Binary64.Point.coordinates p2)
                                                 (Binary64.Point.coordinates p1));
        reflexivity. }
  split.
  - destruct (Binary64.Point.eqb p1 p2) eqn:He.
    + unfold Binary64.Hyperplane.of_points2. rewrite Hsym, He. reflexivity.
    + destruct (Nat.eq_dec (Binary64.Point.dimension p1) 2) as [H1|H1];
        [destruct (Nat.eq_dec (Binary64.Point.dimension p2) 2) as [H2|H2]|].
      * apply Hord; auto.
      * unfold Binary64.Hyperplane.of_points2. rewrite Hsym, He.
        apply Nat.eqb_neq in H2. rewrite H2. simpl. rewrite orb_true_r. reflexivity.
      * unfold Binary64.Hyperplane.of_points2. rewrite Hsym, He.
        apply Nat.eqb_neq in H1. rewrite H1. simpl. rewrite orb_true_r. reflexivity.
  - intros He H1 H2 Hn1 Hn2.
    rewrite <- (Hord He H1 H2).
    rewrite (of_points2_64_unfold p1 p2 He H1 H2).
    destruct (Binary64.Point.lexicographic_ltb (Binary64.Point.coordinates p1)
                                               (Binary64.Point.coordinates p2)) eqn:E12;
      [| destruct (Binary64.Point.lexicographic_ltb (Binary64.Point.coordinates p2)
                                                    (Binary64.Point.coordinates p1)) eqn:E21].
    + destruct (init64_two p1 p2 H1 H2) as [h Hh]. exists h. auto.
    + destruct (init64_two p2 p1 H2 H1) as [h Hh]. exists h. auto.
    + exfalso.
      assert (Hl : length (Binary64.Point.coordinates p1)
                   = length (Binary64.Point.coordinates p2))
        by (unfold Binary64.Point.dimension in H1, H2; congruence).
      pose proof (lexicographic_ltb64_total _ _ Hl Hn1 Hn2 E12 E21) as Heq.
      unfold Binary64.Point.eqb in He. congruence.
Qed.

(** X25, witness: the points (1, 2) and (0, 1) in both orders, and the
    points (NaN, 0) and (1, 0), which differ and are not ordered. *)
Lemma Hyperplane_of_points2_order_witness :
  (exists h, Binary64.Hyperplane.of_points2 (Binary64.Point.make2 1 2)
                                            (Binary64.Point.make2 0 1) = Ok h /\
             Binary64.Hyperplane.of_points2 (Binary64.Point.make2 0 1)
                                            (Binary64.Point.make2 1 2) = Ok h) /\
  Binary64.Hyperplane.of_points2 (Binary64.Point.make2 nan 0) (Binary64.Point.make2 1 0)
  = Throw UndefinedBehaviour /\
  Binary64.Hyperplane.of_points2 (Binary64.Point.make2 1 0) (Binary64.Point.make2 nan 0)
  = Throw UndefinedBehaviour.
Proof.
  split; [|split].
  - apply (Hyperplane_of_points2_order (Binary64.Point.make2 1 2) (Binary64.Point.make2 0 1));
      try reflexivity; repeat constructor.
  - reflexivity.
  - rewrite <- (proj1 (Hyperplane_of_points2_order (Binary64.Point.make2 nan 0)
                                                    (Binary64.Point.make2 1 0))).
    reflexivity.
Defined.

Lemma neq_loop64_spec (h h' : Binary64.Hyperplane.t) :
  forall n i, (n + i = Binary64.Hyperplane.space_dimension h')%nat ->
    Binary64.Hyperplane.neq_loop n i h h'
    = Ok (negb (forallb (Binary64.cross_scaled h h') (seq i n))).
Proof.
  induction n as [|n IH]; intros i H; [reflexivity|].
  simpl. rewrite Hyperplane64_get_ok by lia. simpl.
  unfold Binary64.cross_scaled at 1, Binary64.Hyperplane.b.
  destruct (_ =? _); simpl; [apply IH; lia | reflexivity].
Qed.

(** X26.  On binary64 numbers too [operator!=], which has a loop of its
    own, never throws and answers the opposite of [operator==] on every
    pair of hyperplanes, those with NaN among their products included. *)
Theorem Hyperplane_neqb_negates_eqb_binary64 (h h' : Binary64.Hyperplane.t) :
  exists r, Binary64.Hyperplane.eqb h h' = Ok r /\
            Binary64.Hyperplane.neqb h h' = Ok (negb r).
Proof.
  rewrite eqb64_unfold. unfold Binary64.Hyperplane.neqb.
  destruct (Nat.eqb_spec (Binary64.Hyperplane.space_dimension h)
                         (Binary64.Hyperplane.space_dimension h')) as [E|E]; simpl.
  - rewrite neq_loop64_spec by lia. eauto.
  - exists false. split; reflexivity.
Qed.
